(** * SleepECG dataset readers: a shallow embedding of
      [sleepecg/io/sleep_readers.py]

    The development follows the source file top to bottom:
    - the Python values and builtins the readers rely on ([int], [float],
      [str.split], list slicing, [datetime]);
    - the data model ([SleepStage], [Gender], [SubjectData], [SleepRecord]);
    - [_parse_nsrr_xml] over an ElementTree-like document;
    - the file system, the download collaborator, the generators
      [read_mesa] and [read_shhs] and the subject data of [read_slpdb];
    - the properties of the specification, one theorem each.

    Modelling choices:
    - a finite float is an exact rational ([Q]), next to the infinities and
      NaN; rounding to binary64 is not modelled;
    - a file is what its decoder returns (an element tree, an array, the
      rows of a CSV file), and the file system maps paths to files;
    - a generator function is its statements before the loop, the body of
      the loop, and an explicit generator state that [next] advances; the
      body runs in a monad of state, exceptions and [continue];
    - the code outside this file (NSRR client, configuration, globbing,
      heartbeat detection) is a record of collaborators. *)

From Stdlib Require Import ZArith QArith Qround String Ascii List Lia.
From Stdlib Require Import Sorting.Sorted Sorting.Permutation.
From stdpp Require Import base gmap strings list fin_maps pretty.

Local Open Scope Z_scope.

(* ===================================================================== *)
(** * Exceptions and the error monad *)
(* ===================================================================== *)

(** The exceptions that the modelled code can raise.  [ValueError] and
    [RuntimeError] carry the message the source builds; exceptions raised by
    library code carry a short description instead of the library's text. *)
Inductive exn :=
| ValueError (msg : string)
| RuntimeError (msg : string)
| KeyError (key : string)
| IndexError
| ZeroDivisionError
| OverflowError
| FileNotFoundError (path : string)
| UnboundLocalError (var : string)
| TypeError
| XmlParseError
| StopIteration.

Inductive result (A : Type) :=
| Ok (a : A)
| Raise (e : exn).
Arguments Ok {A} a.
Arguments Raise {A} e.

#[global] Instance result_ret : MRet result := fun A a => Ok a.
#[global] Instance result_bind : MBind result := fun A B f m =>
  match m with
  | Ok a => f a
  | Raise e => Raise e
  end.

#[global] Instance result_fmap : FMap result := fun A B f m =>
  match m with
  | Ok a => Ok (f a)
  | Raise e => Raise e
  end.

Definition is_ok {A} (r : result A) : bool :=
  match r with Ok _ => true | Raise _ => false end.

Definition is_error {A} (r : result A) : Prop := exists e, r = Raise e.

Definition of_option {A} (o : option A) (e : exn) : result A :=
  match o with Some a => Ok a | None => Raise e end.

(* ===================================================================== *)
(** * Python builtins on strings and numbers *)
(* ===================================================================== *)

Module Py.

(** ** Characters *)

Definition code (c : ascii) : Z := Z.of_nat (nat_of_ascii c).

(** [str.isspace] on the ASCII range: TAB..CR, FS..US and SPACE. *)
Definition is_space (c : ascii) : bool :=
  ((9 <=? code c) && (code c <=? 13)) || ((28 <=? code c) && (code c <=? 32)).

Definition digit_val (c : ascii) : option Z :=
  if (48 <=? code c) && (code c <=? 57) then Some (code c - 48) else None.

Definition is_digit (c : ascii) : bool :=
  match digit_val c with Some _ => true | None => false end.

Definition lower (c : ascii) : ascii :=
  if (65 <=? code c) && (code c <=? 90)
  then ascii_of_nat (nat_of_ascii c + 32) else c.

(** ** [str.strip], [str.lstrip], [str.split] *)

Fixpoint drop_while {A} (p : A -> bool) (l : list A) : list A :=
  match l with
  | [] => []
  | x :: l' => if p x then drop_while p l' else l
  end.

Definition strip_chars (l : list ascii) : list ascii :=
  rev (drop_while is_space (rev (drop_while is_space l))).

(** [s.lstrip(c)] for a one-character argument. *)
Definition lstrip (c : ascii) (s : string) : string :=
  string_of_list_ascii
    (drop_while (fun x => Ascii.eqb x c) (list_ascii_of_string s)).

(** [s.split()]: the maximal runs of non-whitespace characters. *)
Fixpoint split_ws_aux (cur : list ascii) (l : list ascii) : list string :=
  match l with
  | [] => match cur with [] => [] | _ => [string_of_list_ascii (rev cur)] end
  | c :: l' =>
      if is_space c
      then match cur with
           | [] => split_ws_aux [] l'
           | _ => string_of_list_ascii (rev cur) :: split_ws_aux [] l'
           end
      else split_ws_aux (c :: cur) l'
  end.

Definition split (s : string) : list string :=
  split_ws_aux [] (list_ascii_of_string s).

(** [s.split(sep)] for a one-character separator: empty fields are kept. *)
Fixpoint split_on_aux (sep : ascii) (cur : list ascii) (l : list ascii)
  : list string :=
  match l with
  | [] => [string_of_list_ascii (rev cur)]
  | c :: l' =>
      if Ascii.eqb c sep
      then string_of_list_ascii (rev cur) :: split_on_aux sep [] l'
      else split_on_aux sep (c :: cur) l'
  end.

Definition split_on (sep : ascii) (s : string) : list string :=
  split_on_aux sep [] (list_ascii_of_string s).

(** [l[i]] for a non-negative constant index. *)
Definition index {A} (l : list A) (i : nat) : result A :=
  of_option (nth_error l i) IndexError.

(** ** Slices: [l[start:]] and [l[:stop]] with Python's treatment of
    negative and out-of-range bounds. *)

Definition clamp_index (len : Z) (i : Z) : Z :=
  if i <? 0 then Z.max 0 (len + i) else Z.min i len.

Definition slice_from {A} (start : Z) (l : list A) : list A :=
  skipn (Z.to_nat (clamp_index (Z.of_nat (length l)) start)) l.

Definition slice_to {A} (stop : Z) (l : list A) : list A :=
  firstn (Z.to_nat (clamp_index (Z.of_nat (length l)) stop)) l.

Definition slice {A} (start stop : Z) (l : list A) : list A :=
  let len := Z.of_nat (length l) in
  let a := clamp_index len start in
  let b := clamp_index len stop in
  firstn (Z.to_nat (b - a)) (skipn (Z.to_nat a) l).

(** ** Decimal digit runs: [digit (["_"] digit)*] *)

Fixpoint digit_run (l : list ascii) : list Z * list ascii :=
  match l with
  | [] => ([], [])
  | c :: l' =>
      match digit_val c with
      | Some d => let '(ds, r) := digit_run l' in (d :: ds, r)
      | None =>
          if Ascii.eqb c "_"
          then match l' with
               | c2 :: l'' =>
                   match digit_val c2 with
                   | Some d => let '(ds, r) := digit_run l'' in (d :: ds, r)
                   | None => ([], l)
                   end
               | [] => ([], l)
               end
          else ([], l)
      end
  end.

(** A digit part starts with a digit; the empty list of digits means that
    there was none. *)
Definition digit_part (l : list ascii) : list Z * list ascii :=
  match l with
  | c :: _ => if is_digit c then digit_run l else ([], l)
  | [] => ([], [])
  end.

Definition digits_value (ds : list Z) : Z :=
  fold_left (fun acc d => 10 * acc + d) ds 0.

Definition parse_sign (l : list ascii) : bool * list ascii :=
  match l with
  | c :: r =>
      if Ascii.eqb c "-" then (true, r)
      else if Ascii.eqb c "+" then (false, r)
      else (false, l)
  | [] => (false, [])
  end.

Definition apply_sign (neg : bool) (z : Z) : Z := if neg then - z else z.

(** ** [int(s)] for a string: surrounding whitespace, an optional sign and a
    digit part, base ten. *)
Definition int (s : string) : result Z :=
  let '(neg, body) := parse_sign (strip_chars (list_ascii_of_string s)) in
  match digit_part body with
  | (d :: ds, []) => Ok (apply_sign neg (digits_value (d :: ds)))
  | _ => Raise (ValueError "invalid literal for int()")
  end.

(** ** Floats.  A finite float is an exact rational. *)
Inductive pyfloat :=
| Finite (q : Q)
| Inf (negative : bool)
| NaN.

Definition exponent_part (l : list ascii) : option (Z * list ascii) :=
  match l with
  | c :: r =>
      if Ascii.eqb (lower c) "e"
      then let '(neg, r') := parse_sign r in
           match digit_part r' with
           | (d :: ds, rest) => Some (apply_sign neg (digits_value (d :: ds)), rest)
           | _ => None
           end
      else Some (0, l)
  | [] => Some (0, [])
  end.

Definition fraction_part (l : list ascii) : list Z * list ascii :=
  match l with
  | c :: r => if Ascii.eqb c "." then digit_part r else ([], l)
  | [] => ([], [])
  end.

Definition decimal_value (neg : bool) (ip fp : list Z) (ex : Z) : Q :=
  Qred (inject_Z (apply_sign neg (digits_value (ip ++ fp)))
        * Qpower (inject_Z 10) (ex - Z.of_nat (length fp))).

(** [float(s)]: surrounding whitespace, an optional sign, then [inf],
    [infinity] or [nan] in any case, or a decimal literal with an optional
    fraction and exponent. *)
Definition float (s : string) : result pyfloat :=
  let '(neg, body) := parse_sign (strip_chars (list_ascii_of_string s)) in
  let word := string_of_list_ascii (map lower body) in
  if (String.eqb word "inf" || String.eqb word "infinity")%bool
  then Ok (Inf neg)
  else if String.eqb word "nan" then Ok NaN
  else
    let '(ip, r1) := digit_part body in
    let '(fp, r2) := fraction_part r1 in
    match ip ++ fp, exponent_part r2 with
    | _ :: _, Some (ex, []) => Ok (Finite (decimal_value neg ip fp ex))
    | _, _ => Raise (ValueError "could not convert string to float")
    end.

(** [int(x)] for a float: truncation toward zero. *)
Definition Qtrunc (q : Q) : Z := Z.quot (Qnum q) (Z.pos (Qden q)).

Definition int_of_float (x : pyfloat) : result Z :=
  match x with
  | Finite q => Ok (Qtrunc q)
  | Inf _ => Raise OverflowError
  | NaN => Raise (ValueError "cannot convert float NaN to integer")
  end.

(** [a / b] for two integers: true division. *)
Definition truediv (a b : Z) : result pyfloat :=
  if b =? 0 then Raise ZeroDivisionError
  else Ok (Finite (inject_Z a / inject_Z b)).

(** [[x] * n]: no copies for [n <= 0]. *)
Definition list_mul {A} (x : A) (n : Z) : list A := repeat x (Z.to_nat n).

End Py.


(* ===================================================================== *)
(** * Data model *)
(* ===================================================================== *)

(** [class SleepStage(IntEnum)] *)
Inductive SleepStage := UNDEFINED | N3 | N2 | N1 | REM | WAKE.

Definition SleepStage_value (s : SleepStage) : Z :=
  match s with
  | UNDEFINED => 0 | N3 => 1 | N2 => 2 | N1 => 3 | REM => 4 | WAKE => 5
  end.

(** [class Gender(IntEnum)] *)
Inductive Gender := FEMALE | MALE.

Definition Gender_value (g : Gender) : Z :=
  match g with FEMALE => 0 | MALE => 1 end.

(** [datetime.time]; [None] in an optional field is [None] here. *)
Record time := mk_time { hour : Z; minute : Z; second : Z; microsecond : Z }.

(** [@dataclass SubjectData].  [weight] holds a Python number: the integer
    that [read_slpdb] stores is injected into the floats. *)
Record SubjectData := mk_SubjectData {
  gender : option Gender;
  age : option Z;
  weight : option Py.pyfloat
}.

(** [@dataclass SleepRecord].  The fields are those the readers fill in;
    [heartbeat_times] is a one-dimensional array of floats. *)
Record SleepRecord := mk_SleepRecord {
  sleep_stages : list SleepStage;
  sleep_stage_duration : Z;
  id : string;
  recording_start_time : time;
  heartbeat_times : list Py.pyfloat;
  subject_data : SubjectData;
  activity_counts : option (list Py.pyfloat)
}.

(** [class _ParseNsrrXmlResult(NamedTuple)] *)
Record _ParseNsrrXmlResult := mk_ParseNsrrXmlResult {
  px_sleep_stages : list SleepStage;
  px_sleep_stage_duration : Z;
  px_recording_start_time : time;
  px_recording_duration : Py.pyfloat
}.

(* ===================================================================== *)
(** * ElementTree documents *)
(* ===================================================================== *)

Module ElementTree.

#[warnings="-register-all"]
Inductive element :=
| Element (tag : string) (text : option string) (children : list element).

Definition tag_of (e : element) : string :=
  match e with Element t _ _ => t end.

Definition text_of (e : element) : option string :=
  match e with Element _ x _ => x end.

(** Iterating over an element yields its direct children. *)
Definition children_of (e : element) : list element :=
  match e with Element _ _ cs => cs end.

(** All descendants in document order, the element itself excluded. *)
Fixpoint descendants (e : element) : list element :=
  match e with
  | Element _ _ cs => flat_map (fun c => c :: descendants c) cs
  end.

(** The two path forms the parser uses: ["tag"] and [".//tag"]. *)
Inductive xpath :=
| Child (tag : string)
| Descendant (tag : string).

Definition has_tag (t : string) (e : element) : bool := String.eqb (tag_of e) t.

Definition findall (p : xpath) (e : element) : list element :=
  match p with
  | Child t => List.filter (has_tag t) (children_of e)
  | Descendant t => List.filter (has_tag t) (descendants e)
  end.

Definition find (p : xpath) (e : element) : option element :=
  head (findall p e).

(** [e.findtext(path)]: [None] when nothing matches, the empty string when
    the match has no text. *)
Definition findtext (p : xpath) (e : element) : option string :=
  match find p e with
  | Some x => Some (default EmptyString (text_of x))
  | None => None
  end.

(** [e.findtext(path, d)] *)
Definition findtext_default (p : xpath) (d : string) (e : element) : string :=
  default d (findtext p e).

End ElementTree.
Import ElementTree.

(** What [ElementTree.parse] finds in a file that is not well-formed XML is
    [Malformed]; otherwise the file holds a document with a root element. *)
Inductive xml_content :=
| Document (root : element)
| Malformed.

(* ===================================================================== *)
(** * [_parse_nsrr_xml] *)
(* ===================================================================== *)

Definition STAGE_MAPPING : gmap string SleepStage :=
  list_to_map
    [ ("Wake|0"%string, WAKE);
      ("Stage 1 sleep|1"%string, N1);
      ("Stage 2 sleep|2"%string, N2);
      ("Stage 3 sleep|3"%string, N3);
      ("Stage 4 sleep|4"%string, N3);
      ("REM sleep|5"%string, REM);
      ("Unscored|9"%string, UNDEFINED) ].

(** [d[k]] on a dictionary with string keys. *)
Definition getitem {A} (d : gmap string A) (k : string) : result A :=
  of_option (d !! k) (KeyError k).

(** One or two decimal digits with a value of at most [bound]: a field of
    [strptime]. *)
Definition time_field (bound : Z) (s : string) : option Z :=
  match list_ascii_of_string s with
  | [a] => Py.digit_val a
  | [a; b] =>
      match Py.digit_val a, Py.digit_val b with
      | Some x, Some y => if 10 * x + y <=? bound then Some (10 * x + y) else None
      | _, _ => None
      end
  | _ => None
  end.

(** [datetime.datetime.strptime(s, "%H.%M.%S").time()] *)
Definition strptime_HMS (s : string) : result time :=
  match Py.split_on "." s with
  | [h; m; sec] =>
      match time_field 23 h, time_field 59 m, time_field 59 sec with
      | Some hh, Some mm, Some ss => Ok (mk_time hh mm ss 0)
      | _, _, _ => Raise (ValueError "time data does not match format")
      end
  | _ => Raise (ValueError "time data does not match format")
  end.

(** The state of the loop over the events: [start_time] and [annot_stages]. *)
Definition parse_state : Type := option time * list SleepStage.

(** The body of [for event in root.findall("ScoredEvents")[0]]. *)
Definition parse_event (epoch_length : Z) (st : parse_state) (event : element)
  : result parse_state :=
  let '(start_time, annot_stages) := st in
  start_time ←
    (if decide (findtext (Child "EventConcept") event
                = Some "Recording Start Time"%string)
     then
       clock ← Py.index (Py.split (findtext_default (Child "ClockTime") "" event)) 1;
       t ← strptime_HMS clock;
       Ok (Some t)
     else Ok start_time);
  if decide (findtext (Child "EventType") event = Some "Stages|Stages"%string)
  then
    duration ← Py.float (findtext_default (Child "Duration") "" event);
    epoch_duration ← Py.int_of_float duration;
    stage ← getitem STAGE_MAPPING (findtext_default (Child "EventConcept") "" event);
    quotient ← Py.truediv epoch_duration epoch_length;
    count ← Py.int_of_float quotient;
    Ok (start_time, annot_stages ++ Py.list_mul stage count)
  else Ok (start_time, annot_stages).

Fixpoint parse_events (epoch_length : Z) (events : list element)
    (st : parse_state) : result parse_state :=
  match events with
  | [] => Ok st
  | event :: rest =>
      st' ← parse_event epoch_length st event;
      parse_events epoch_length rest st'
  end.

(** The parser on the document found at [xml_filepath]. *)
Definition parse_root (xml_filepath : string) (root : element)
  : result _ParseNsrrXmlResult :=
  match findtext (Child "EpochLength") root with
  | None => Raise (RuntimeError ("EpochLength not found in " +:+ xml_filepath +:+ "."))
  | Some epoch_length_str =>
      epoch_length ← Py.int epoch_length_str;
      match find (Descendant "ScoredEvent") root with
      | None =>
          Raise (RuntimeError ("Recording duration not found in " +:+ xml_filepath +:+ "."))
      | Some scored_event =>
          recording_duration ←
            Py.float (findtext_default (Descendant "Duration") "" scored_event);
          scored_events ← Py.index (findall (Child "ScoredEvents") root) 0;
          '(start_time, annot_stages) ←
            parse_events epoch_length (children_of scored_events) (None, []);
          match start_time with
          | None =>
              Raise (RuntimeError
                ("'Recording Start Time' not found in " +:+ xml_filepath +:+ "."))
          | Some start_time =>
              Ok (mk_ParseNsrrXmlResult
                    annot_stages epoch_length start_time recording_duration)
          end
      end
  end.

(** [_parse_nsrr_xml(xml_filepath)], given what the file system holds at
    that path. *)
Definition _parse_nsrr_xml (xml_filepath : string) (file : option xml_content)
  : result _ParseNsrrXmlResult :=
  match file with
  | None => Raise (FileNotFoundError xml_filepath)
  | Some Malformed => Raise XmlParseError
  | Some (Document root) => parse_root xml_filepath root
  end.

(* ===================================================================== *)
(** * Arrays of floats *)
(* ===================================================================== *)

(** A one-dimensional [np.ndarray] of floats is a list of [Py.pyfloat]. *)
Module np.

Import Py.

(** The order [ndarray.sort] uses: the usual order, NaN last. *)
Definition sort_leb (x y : pyfloat) : bool :=
  match x, y with
  | _, NaN => true
  | NaN, _ => false
  | Inf true, _ => true
  | _, Inf true => false
  | _, Inf false => true
  | Inf false, _ => false
  | Finite a, Finite b => Qle_bool a b
  end.

(** The comparison [x <= y] of two floats: false as soon as one is NaN. *)
Definition le (x y : pyfloat) : Prop :=
  match x, y with
  | NaN, _ | _, NaN => False
  | Inf true, _ => True
  | _, Inf true => False
  | _, Inf false => True
  | Inf false, _ => False
  | Finite a, Finite b => (a <= b)%Q
  end.

Fixpoint insert (x : pyfloat) (l : list pyfloat) : list pyfloat :=
  match l with
  | [] => [x]
  | y :: l' => if sort_leb x y then x :: l else y :: insert x l'
  end.

(** [a.sort()] *)
Definition sort (a : list pyfloat) : list pyfloat := fold_right insert [] a.

(** [x / y] on floats as NumPy computes it: no exception, division by zero
    gives an infinity or NaN.  Zero has no sign here. *)
Definition divide (x y : pyfloat) : pyfloat :=
  match x, y with
  | NaN, _ | _, NaN => NaN
  | Inf _, Inf _ => NaN
  | Inf s, Finite b => Inf (xorb s (negb (Qle_bool 0 b)))
  | Finite _, Inf _ => Finite 0
  | Finite a, Finite b =>
      if Qeq_bool b 0
      then (if Qeq_bool a 0 then NaN else Inf (negb (Qle_bool 0 a)))
      else Finite (a / b)
  end.

(** [indices / fs] for an integer array and a float scalar. *)
Definition divide_indices (indices : list Z) (fs : pyfloat) : list pyfloat :=
  map (fun i => divide (Finite (inject_Z i)) fs) indices.

Definition is_nan (x : pyfloat) : bool :=
  match x with NaN => true | _ => false end.

End np.

(** [a] is non-decreasing: [a[i] <= a[j]] for all [i <= j]. *)
Definition non_decreasing (a : list Py.pyfloat) : Prop := StronglySorted np.le a.

(* ===================================================================== *)
(** * Files, the world, and the collaborators *)
(* ===================================================================== *)

(** A signal of an EDF recording, as [edfio] hands it out. *)
Record signal := mk_signal {
  data : list Py.pyfloat;
  sampling_frequency : Py.pyfloat
}.

(** A file is represented by what its decoder returns:
    - [Xml]: what [ElementTree.parse] finds;
    - [Edf]: the labelled signals [read_edf] finds;
    - [Npy]: the array [np.load] returns;
    - [FloatColumn]: a CSV file of heartbeat annotations, as the
      one-dimensional array that [np.loadtxt(.., usecols=k)] returns for its
      'seconds' column;
    - [IntTable]: the subject CSV file of MESA, as the rows that
      [np.loadtxt(.., usecols=[0, 3, 5], dtype=int)] returns;
    - [Csv]: a CSV file as the rows of fields the [csv] module reads,
      the header row first. *)
Inductive file :=
| Xml (c : xml_content)
| Edf (signals : list (string * signal))
| Npy (a : list Py.pyfloat)
| FloatColumn (a : list Py.pyfloat)
| IntTable (rows : list (Z * Z * Z))
| Csv (rows : list (list string)).

(** The mutable world: the local files by path, and what was printed. *)
Record world := mk_world {
  files : gmap string file;
  stdout : list string
}.

(** The collaborators of the readers that live outside this file: the
    configuration, the NSRR client, [pathlib]'s globbing and the heartbeat
    detector.  [served] is what the NSRR server delivers for a URL and
    [md5] the checksum of a file's content. *)
Record collaborators := mk_collaborators {
  get_config_value : string -> string;
  _get_nsrr_url : string -> string;
  _list_nsrr : string -> string -> string -> bool -> list (string * string);
  served : gmap string file;
  md5 : file -> string;
  glob : string -> string -> list string -> list string;
  rglob : string -> string -> list string -> list string;
  detect_heartbeats : list Py.pyfloat -> Py.pyfloat -> list Z
}.

(** ** The monad of the loop bodies: state, exceptions and [continue] *)

Inductive flow (A : Type) :=
| Normal (a : A)
| Raised (e : exn)
| Continued.
Arguments Normal {A} a.
Arguments Raised {A} e.
Arguments Continued {A}.

Definition M (A : Type) : Type := world -> flow A * world.

Definition ret {A} (a : A) : M A := fun w => (Normal a, w).

Definition bind {A B} (m : M A) (f : A -> M B) : M B := fun w =>
  match m w with
  | (Normal a, w') => f a w'
  | (Raised e, w') => (Raised e, w')
  | (Continued, w') => (Continued, w')
  end.

Declare Scope py_scope.
Delimit Scope py_scope with py.
Notation "x <- m ;; k" := (bind m (fun x => k))
  (at level 100, m at next level, right associativity) : py_scope.
Notation "m ;; k" := (bind m (fun _ => k))
  (at level 100, right associativity) : py_scope.
Local Open Scope py_scope.

Definition raise {A} (e : exn) : M A := fun w => (Raised e, w).

(** The [continue] statement: leaves the body of the loop. *)
Definition continue {A} : M A := fun w => (Continued, w).

Definition lift {A} (r : result A) : M A :=
  match r with
  | Ok a => ret a
  | Raise e => raise e
  end.

Definition print (line : string) : M unit := fun w =>
  (Normal tt, mk_world (files w) (stdout w ++ [line])).

(** [if cond: body] for a body without a value. *)
Definition when (cond : bool) (body : M unit) : M unit :=
  if cond then body else ret tt.

(** ** File operations *)

(** [path.is_file()], [os.path.exists(path)] *)
Definition is_file (path : string) : M bool := fun w =>
  (Normal (bool_decide (is_Some (files w !! path))), w).

Definition read_file (path : string) : M file := fun w =>
  match files w !! path with
  | Some f => (Normal f, w)
  | None => (Raised (FileNotFoundError path), w)
  end.

Definition write_file (path : string) (f : file) : M unit := fun w =>
  (Normal tt, mk_world (<[path := f]> (files w)) (stdout w)).

(** [path.unlink()] *)
Definition unlink (path : string) : M unit := fun w =>
  match files w !! path with
  | Some _ => (Normal tt, mk_world (delete path (files w)) (stdout w))
  | None => (Raised (FileNotFoundError path), w)
  end.

Definition decode_error {A} (path : string) : M A :=
  raise (ValueError ("cannot decode " +:+ path)).

(** [np.load(path)] *)
Definition np_load (path : string) : M (list Py.pyfloat) :=
  f <- read_file path;;
  match f with
  | Npy a => ret a
  | _ => decode_error path
  end.

(** [np.save(path, a)] *)
Definition np_save (path : string) (a : list Py.pyfloat) : M unit :=
  write_file path (Npy a).

(** [np.loadtxt(path, delimiter=",", skiprows=1, usecols=k)] *)
Definition np_loadtxt_column (path : string) : M (list Py.pyfloat) :=
  f <- read_file path;;
  match f with
  | FloatColumn a => ret a
  | _ => decode_error path
  end.

(** [np.loadtxt(path, delimiter=",", skiprows=1, usecols=[0, 3, 5], dtype=int)] *)
Definition np_loadtxt_int_table (path : string) : M (list (Z * Z * Z)) :=
  f <- read_file path;;
  match f with
  | IntTable rows => ret rows
  | _ => decode_error path
  end.

(** The rows of [csv.reader(open(path))]. *)
Definition csv_rows (path : string) : M (list (list string)) :=
  f <- read_file path;;
  match f with
  | Csv rows => ret rows
  | _ => decode_error path
  end.

(** [read_edf(path).get_signal(label)] *)
Definition read_edf_signal (path : string) (label : string) : M signal :=
  f <- read_file path;;
  match f with
  | Edf signals =>
      match List.find (fun p => String.eqb (fst p) label) signals with
      | Some p => ret (snd p)
      | None => raise (ValueError ("no signal labelled " +:+ label))
      end
  | _ => decode_error path
  end.

(** [ElementTree.parse(path)], as [_parse_nsrr_xml] takes it. *)
Definition xml_at (path : string) : M (option xml_content) := fun w =>
  match files w !! path with
  | Some (Xml c) => (Normal (Some c), w)
  | Some _ => (Normal (Some Malformed), w)
  | None => (Normal None, w)
  end.

(** [a / b] on paths.  Paths are plain strings; [Path.expanduser] is not
    modelled. *)
Definition path_join (a b : string) : string := a +:+ "/" +:+ b.

(* ===================================================================== *)
(** * Paths, formatting, dictionaries *)
(* ===================================================================== *)

(** [s[start:stop]] on strings; [None] for an omitted bound. *)
Definition str_slice (start stop : option Z) (s : string) : string :=
  let l := list_ascii_of_string s in
  let len := Z.of_nat (length l) in
  string_of_list_ascii (Py.slice (default 0 start) (default len stop) l).

Definition str_last (l : list string) : string := List.last l EmptyString.

(** [Path(p).stem]: the last component without its last suffix. *)
Definition Path_stem (p : string) : string :=
  let name := str_last (Py.split_on "/" p) in
  match rev (Py.split_on "." name) with
  | suffix :: first :: rest =>
      if (String.eqb suffix "" || (String.eqb first "" && bool_decide (rest = [])))%bool
      then name
      else str_slice None (Some (- Z.of_nat (String.length suffix) - 1)) name
  | _ => name
  end.

Fixpoint starts_with (prefix s : list ascii) : bool :=
  match prefix, s with
  | [], _ => true
  | a :: p', b :: s' => Ascii.eqb a b && starts_with p' s'
  | _ :: _, [] => false
  end.

(** [s.startswith(prefix)] *)
Definition startswith (s prefix : string) : bool :=
  starts_with (list_ascii_of_string prefix) (list_ascii_of_string s).

(** [sorted(l)] for a list of strings. *)
Fixpoint insert_str (x : string) (l : list string) : list string :=
  match l with
  | [] => [x]
  | y :: l' => if String.leb x y then x :: l else y :: insert_str x l'
  end.

Definition sorted_str (l : list string) : list string :=
  fold_right insert_str [] l.

(** [sorted(l)] for a list of paths: paths compare by their components. *)
Fixpoint parts_leb (a b : list string) : bool :=
  match a, b with
  | [], _ => true
  | _ :: _, [] => false
  | x :: a', y :: b' =>
      match String.compare x y with
      | Lt => true
      | Gt => false
      | Eq => parts_leb a' b'
      end
  end.

Fixpoint insert_path (x : string) (l : list string) : list string :=
  match l with
  | [] => [x]
  | y :: l' =>
      if parts_leb (Py.split_on "/" x) (Py.split_on "/" y)
      then x :: l else y :: insert_path x l'
  end.

Definition sorted_paths (l : list string) : list string :=
  fold_right insert_path [] l.

(** [f"{n:02}"] and [f"{n:04}"]: zero padding up to a width, sign first. *)
Definition zero_pad (width : nat) (n : Z) : string :=
  let digits := pretty (Z.abs n) in
  let sign := if n <? 0 then "-"%string else EmptyString in
  let fill := (width - String.length sign - String.length digits)%nat in
  sign +:+ string_of_list_ascii (repeat "0"%char fill) +:+ digits.

(** [dict(pairs)] and [d.update(pairs)]: later pairs win. *)
Definition dict_update {A} (d : gmap string A) (pairs : list (string * A))
  : gmap string A :=
  fold_left (fun m kv => <[kv.1 := kv.2]> m) pairs d.

(** [dict(zip(header, row))] *)
Definition dict_zip (header row : list string) : gmap string string :=
  dict_update ∅ (combine header row).

(** The rows of [csv.DictReader]: the first row names the fields, empty rows
    are left out, and a field that a short row lacks is [None]. *)
Fixpoint zip_restval (header row : list string) : list (string * option string) :=
  match header, row with
  | [], _ => []
  | h :: hs, [] => (h, None) :: zip_restval hs []
  | h :: hs, x :: xs => (h, Some x) :: zip_restval hs xs
  end.

Definition DictReader (rows : list (list string))
  : list (gmap string (option string)) :=
  match rows with
  | [] => []
  | header :: data =>
      map (fun row => dict_update ∅ (zip_restval header row))
          (List.filter (fun row => negb (bool_decide (row = []))) data)
  end.

(** [int(x)] for a field of a [DictReader] row: [int(None)] is a
    [TypeError]. *)
Definition int_field (x : option string) : result Z :=
  match x with
  | Some s => Py.int s
  | None => Raise TypeError
  end.

(* ===================================================================== *)
(** * [datetime] *)
(* ===================================================================== *)

Module datetime.

(** A [datetime.datetime] is the number of microseconds since midnight of
    [datetime.today()]; it may leave that day in either direction.  The
    range of representable dates is not modelled. *)
Definition datetime : Type := Z.

(** [datetime.combine(datetime.today(), t)] *)
Definition combine_today (t : time) : datetime :=
  ((hour t * 60 + minute t) * 60 + second t) * 1000000 + microsecond t.

(** [round(x)]: to the nearest integer, ties to even. *)
Definition round_half_even (q : Q) : Z :=
  let f := Qfloor q in
  match (q - inject_Z f ?= 1 # 2)%Q with
  | Lt => f
  | Gt => f + 1
  | Eq => if Z.even f then f else f + 1
  end.

(** [timedelta(seconds=x)] for a float, in microseconds. *)
Definition timedelta_of_float (x : Py.pyfloat) : result Z :=
  match x with
  | Py.Finite q => Ok (round_half_even (q * inject_Z 1000000))
  | Py.Inf _ => Raise OverflowError
  | Py.NaN => Raise (ValueError "cannot convert float NaN to integer")
  end.

(** [timedelta(seconds=n)] for an integer, in microseconds. *)
Definition timedelta_of_int (n : Z) : Z := n * 1000000.

(** The attributes [.hour], [.minute] and [.second]. *)
Definition hour_of (d : datetime) : Z := (d / 3600000000) mod 24.
Definition minute_of (d : datetime) : Z := (d / 60000000) mod 60.
Definition second_of (d : datetime) : Z := (d / 1000000) mod 60.

(** [d.strftime("%H:%M:%S")] *)
Definition strftime_HMS (d : datetime) : string :=
  zero_pad 2 (hour_of d) +:+ ":" +:+ zero_pad 2 (minute_of d) +:+ ":"
    +:+ zero_pad 2 (second_of d).

End datetime.

(* ===================================================================== *)
(** * Activity alignment: the pure steps of [read_mesa] *)
(* ===================================================================== *)

Fixpoint map_result {A B} (f : A -> result B) (l : list A) : result (list B) :=
  match l with
  | [] => Ok []
  | x :: l' =>
      y ← f x;
      ys ← map_result f l';
      Ok (y :: ys)
  end.

(** The adjustment of the end time by its seconds component. *)
Definition rounding_seconds (recording_end_time_seconds : Z) : Z :=
  if recording_end_time_seconds mod 30 >=? 15
  then 30 - recording_end_time_seconds mod 30
  else - (recording_end_time_seconds mod 30).

(** [recording_end_time] before the adjustment. *)
Definition end_time (recording_start_time : time)
    (recording_duration : Py.pyfloat) : result datetime.datetime :=
  delta ← datetime.timedelta_of_float recording_duration;
  Ok (datetime.combine_today recording_start_time + delta).

(** [recording_end_time] after the adjustment. *)
Definition rounded_end_time (recording_end_time : datetime.datetime)
  : datetime.datetime :=
  let recording_end_time_seconds := datetime.second_of recording_end_time in
  recording_end_time
    + datetime.timedelta_of_int (rounding_seconds recording_end_time_seconds).

(** The [for item in activity_data] loop: [Some end_line] after [break],
    [None] when the loop runs into its [else]. *)
Fixpoint find_end_line (activity_data : list (gmap string string))
    (recording_end_time_str : string) : result (option Z) :=
  match activity_data with
  | [] => Ok None
  | item :: rest =>
      if decide (item !! "linetime"%string = Some recording_end_time_str)
      then
        line ← getitem item "line";
        end_line ← Py.int line;
        Ok (Some end_line)
      else find_end_line rest recording_end_time_str
  end.

(** The reconciliation of the lengths: [None] stands for the [continue]
    of a difference above the tolerance. *)
Definition reconcile {A} (activity_counts : list A) (sleep_stages_len : nat)
  : option (list A) :=
  let diff := Z.of_nat (length activity_counts) - Z.of_nat sleep_stages_len in
  if Z.abs diff >? 2 then None
  else if diff >? 0 then Some (Py.slice_to (- diff) activity_counts)
  else if diff <? 0
  then Some (activity_counts ++ Py.slice_from diff activity_counts)
  else Some activity_counts.

(** [a[a == ""] = "0"] followed by [a.astype(float)] *)
Definition counts_to_float (activity_counts : list string)
  : result (list Py.pyfloat) :=
  map_result Py.float
    (map (fun x => if String.eqb x "" then "0"%string else x) activity_counts).

(* ===================================================================== *)
(** * Generators *)
(* ===================================================================== *)

(** A generator object of a reader: created by the call and not yet
    started, suspended at its [yield] with the local variables of the
    frame and the record ids still to visit, or finished. *)
Inductive generator (A F : Type) :=
| Created (args : A)
| Suspended (frame : F) (remaining : list string)
| Finished.
Arguments Created {A F} args.
Arguments Suspended {A F} frame remaining.
Arguments Finished {A F}.

(** What [next(g)] does for its caller. *)
Inductive outcome :=
| Yielded (record : SleepRecord)
| Stopped
| Failed (e : exn).

Section Generator.

Context {A F : Type}.
(** The statements before the loop, which bind the frame and
    [requested_records], and the body of the loop over the record ids. *)
Variable prelude : A -> M (F * list string).
Variable body : F -> string -> M SleepRecord.

(** [for record_id in requested_records: body], up to the next [yield]. *)
Fixpoint resume (frame : F) (requested_records : list string) (w : world)
  : outcome * generator A F * world :=
  match requested_records with
  | [] => (Stopped, Finished, w)
  | record_id :: rest =>
      match body frame record_id w with
      | (Normal record, w') => (Yielded record, Suspended frame rest, w')
      | (Continued, w') => resume frame rest w'
      | (Raised e, w') => (Failed e, Finished, w')
      end
  end.

(** [next(g)].  The body of a generator function starts running at the
    first [next]; an exception that leaves the body finishes the generator. *)
Definition next (g : generator A F) (w : world)
  : outcome * generator A F * world :=
  match g with
  | Created args =>
      match prelude args w with
      | (Normal (frame, requested_records), w') => resume frame requested_records w'
      | (Raised e, w') => (Failed e, Finished, w')
      | (Continued, w') => (Failed (RuntimeError "continue outside of a loop"), Finished, w')
      end
  | Suspended frame remaining => resume frame remaining w
  | Finished => (Stopped, Finished, w)
  end.

(** [list(g)] with at most [fuel] calls of [next]: the records yielded, the
    exception that ended the iteration if there was one, the world left. *)
Fixpoint drain (fuel : nat) (g : generator A F) (w : world)
  : list SleepRecord * option exn * world :=
  match fuel with
  | O => ([], None, w)
  | S fuel' =>
      match next g w with
      | (Yielded r, g', w') =>
          let '(rs, e, w'') := drain fuel' g' w' in (r :: rs, e, w'')
      | (Stopped, _, w') => ([], None, w')
      | (Failed e, _, w') => ([], Some e, w')
      end
  end.

End Generator.

(* ===================================================================== *)
(** * The NSRR client *)
(* ===================================================================== *)

(** The parameters that [read_mesa] and [read_shhs] share. *)
Record reader_args := mk_reader_args {
  records_pattern : string;
  heartbeats_source : string;
  offline : bool;
  keep_edfs : bool;
  data_dir : option string
}.

Definition heartbeats_source_options : list string :=
  ["annotation"; "cached"; "ecg"]%string.

Definition invalid_heartbeats_source (value : string) : exn :=
  ValueError ("Invalid value for parameter `heartbeats_source`: " +:+ value
              +:+ ", possible options: {'annotation', 'cached', 'ecg'}").

Definition repr_option (x : option string) : string :=
  match x with Some s => s | None => "None"%string end.

Definition invalid_activity_source (value : option string) : exn :=
  ValueError ("Invalid value for parameter `activity_source`: "
              +:+ repr_option value
              +:+ ", possible options: {None, 'cached', 'actigraphy'}").

Module MESA.
Definition DB_SLUG : string := "mesa".
Definition ANNOTATION_DIRNAME : string := "polysomnography/annotations-events-nsrr".
Definition EDF_DIRNAME : string := "polysomnography/edfs".
Definition ACTIVITY_DIRNAME : string := "actigraphy".
Definition OVERLAP_DIRNAME : string := "overlap".
Definition HEARTBEATS_DIRNAME : string := "preprocessed/heartbeats".
Definition ACTIVITY_COUNTS_DIRNAME : string := "preprocessed/activity_counts".
Definition RPOINTS_DIRNAME : string := "polysomnography/annotations-rpoints".
Definition GENDER_MAPPING : gmap Z Gender := {[ 0 := FEMALE; 1 := MALE ]}.
Definition activity_source_options : list (option string) :=
  [None; Some "cached"; Some "actigraphy"]%string.
End MESA.

Module SHHS.
Definition DB_SLUG : string := "shhs".
Definition ANNOTATION_DIRNAME : string := "polysomnography/annotations-events-nsrr".
Definition EDF_DIRNAME : string := "polysomnography/edfs".
Definition HEARTBEATS_DIRNAME : string := "preprocessed/heartbeats".
Definition RPOINTS_DIRNAME : string := "polysomnography/annotations-rpoints".
Definition GENDER_MAPPING : gmap string Gender :=
  {[ "2"%string := FEMALE; "1"%string := MALE ]}.
End SHHS.

Section Readers.

Variable c : collaborators.

(** Modelled from the spec: [_download_nsrr_file] of [sleepecg/io/nsrr.py],
    which is not part of the file embedded here.  Given a URL, a target
    path and the expected checksum it ensures that the file exists locally
    with matching content, or fails; no other file is touched. *)
Definition _download_nsrr_file (url target_filepath checksum : string) : M unit :=
  fun w =>
    let fetch :=
      match served c !! url with
      | Some f =>
          if String.eqb (md5 c f) checksum
          then write_file target_filepath f w
          else (Raised (RuntimeError ("checksum mismatch for " +:+ url)), w)
      | None => (Raised (RuntimeError ("download failed for " +:+ url)), w)
      end in
    match files w !! target_filepath with
    | Some f => if String.eqb (md5 c f) checksum then (Normal tt, w) else fetch
    | None => fetch
    end.

Fixpoint for_each {A} (body : A -> M unit) (l : list A) : M unit :=
  match l with
  | [] => ret tt
  | x :: l' => body x;; for_each body l'
  end.

(** Modelled from the spec: [download_nsrr] of [sleepecg/io/nsrr.py], which
    is not part of the file embedded here.  It lists the files that match
    and downloads each of them below [data_dir/db_slug]. *)
Definition download_nsrr (db_slug subfolder pattern : string) (shallow : bool)
    (data_dir : string) : M unit :=
  for_each
    (fun entry : string * string =>
       _download_nsrr_file (_get_nsrr_url c db_slug +:+ entry.1)
         (path_join (path_join data_dir db_slug) entry.1) entry.2)
    (_list_nsrr c db_slug subfolder pattern shallow).

(** The paths of all local files, as the globbing collaborators see them. *)
Definition listdir : M (list string) := fun w =>
  (Normal (map fst (map_to_list (files w))), w).

(** [l[0]] on what [_list_nsrr] returns. *)
Definition first_entry (l : list (string * string)) : M (string * string) :=
  lift (Py.index l 0).

(** [next(iterator)] in the body of a generator: the [StopIteration] of an
    exhausted iterator leaves the generator as a [RuntimeError]. *)
Definition next_path (l : list string) : M string :=
  match l with
  | p :: _ => ret p
  | [] => raise (RuntimeError "generator raised StopIteration")
  end.

(* ===================================================================== *)
(** * [read_mesa] *)
(* ===================================================================== *)

(** The local variables of [read_mesa] that its loop reads.  A variable
    that the source leaves unbound on some path ([download_url] and
    [checksums] when offline, [overlap_data] without actigraphy) holds an
    empty value there; the loop does not read it on that path. *)
Record mesa_frame := mk_mesa_frame {
  m_args : reader_args;
  m_activity_source : option string;
  m_db_dir : string;
  m_download_url : string;
  m_checksums : gmap string string;
  m_subject_data : gmap string SubjectData;
  m_overlap_data : gmap Z Z
}.

(** One row of the subject table of MESA:
    [subject_data[f"mesa-sleep-{mesaid:04}"] = SubjectData(gender=GENDER_MAPPING[gender], age=age)] *)
Definition mesa_subject_row (row : Z * Z * Z) : result (string * SubjectData) :=
  let '(mesaid, gender_code, age_value) := row in
  g ← of_option (MESA.GENDER_MAPPING !! gender_code) (KeyError (pretty gender_code));
  Ok ("mesa-sleep-" +:+ zero_pad 4 mesaid,
      mk_SubjectData (Some g) (Some age_value) None).

Fixpoint mesa_subject_rows (rows : list (Z * Z * Z))
    (subject_data : gmap string SubjectData) : result (gmap string SubjectData) :=
  match rows with
  | [] => Ok subject_data
  | row :: rest =>
      entry ← mesa_subject_row row;
      mesa_subject_rows rest (<[entry.1 := entry.2]> subject_data)
  end.

(** One row of the overlap file. *)
Definition overlap_entry (entry : gmap string (option string)) : result (Z * Z) :=
  m ← of_option (entry !! "mesaid"%string) (KeyError "mesaid");
  mesaid ← int_field m;
  l ← of_option (entry !! "line"%string) (KeyError "line");
  line ← int_field l;
  Ok (mesaid, line).

Fixpoint overlap_rows (entries : list (gmap string (option string)))
    (overlap_data : gmap Z Z) : result (gmap Z Z) :=
  match entries with
  | [] => Ok overlap_data
  | entry :: rest =>
      p ← overlap_entry entry;
      overlap_rows rest (<[p.1 := p.2]> overlap_data)
  end.

(** What the branches of [if not offline] bind. *)
Record mesa_listing := mk_mesa_listing {
  ml_download_url : string;
  ml_checksums : gmap string string;
  ml_subject_data_filepath : string;
  ml_requested_records : list string;
  ml_overlap_filepath : string
}.

Definition mesa_online (a : reader_args) (activity_source : option string)
    (db_dir : string) : M mesa_listing :=
  let download_url := _get_nsrr_url c MESA.DB_SLUG in
  subject <- first_entry
    (_list_nsrr c "mesa" "datasets" "mesa-sleep-dataset-*.csv" true);;
  let subject_data_filepath := path_join db_dir subject.1 in
  _download_nsrr_file (download_url +:+ subject.1) subject_data_filepath subject.2;;
  let xml_files :=
    _list_nsrr c MESA.DB_SLUG MESA.ANNOTATION_DIRNAME
      ("mesa-sleep-" +:+ records_pattern a +:+ "-nsrr.xml") true in
  let checksums := dict_update ∅ xml_files in
  let requested_records :=
    map (fun entry : string * string =>
           str_slice None (Some (-5)) (Path_stem entry.1)) xml_files in
  let edf_files :=
    _list_nsrr c MESA.DB_SLUG MESA.EDF_DIRNAME
      ("mesa-sleep-" +:+ records_pattern a +:+ ".edf") true in
  let checksums := dict_update checksums edf_files in
  let rpoints_files :=
    _list_nsrr c MESA.DB_SLUG MESA.RPOINTS_DIRNAME
      ("mesa-sleep-" +:+ records_pattern a +:+ "-rpoint.csv") true in
  let checksums := dict_update checksums rpoints_files in
  match activity_source with
  | Some _ =>
      let activity_files :=
        _list_nsrr c MESA.DB_SLUG "actigraphy"
          ("mesa-sleep-" +:+ records_pattern a +:+ ".csv") true in
      let checksums := dict_update checksums activity_files in
      overlap <- first_entry (_list_nsrr c "mesa" "overlap" "*" true);;
      let overlap_filepath := path_join db_dir overlap.1 in
      _download_nsrr_file (download_url +:+ overlap.1) overlap_filepath overlap.2;;
      ret (mk_mesa_listing download_url checksums subject_data_filepath
             requested_records overlap_filepath)
  | None =>
      ret (mk_mesa_listing download_url checksums subject_data_filepath
             requested_records EmptyString)
  end.

Definition mesa_offline (a : reader_args) (activity_source : option string)
    (db_dir : string) : M mesa_listing :=
  let annotations_dir := path_join db_dir MESA.ANNOTATION_DIRNAME in
  let overlap_dir := path_join db_dir MESA.OVERLAP_DIRNAME in
  paths <- listdir;;
  subject_data_filepath <-
    next_path (glob c (path_join db_dir "datasets") "mesa-sleep-dataset-*.csv" paths);;
  let xml_paths :=
    glob c annotations_dir ("mesa-sleep-" +:+ records_pattern a +:+ "-nsrr.xml") paths in
  let requested_records :=
    sorted_str (map (fun file => str_slice None (Some (-5)) (Path_stem file)) xml_paths) in
  if decide (activity_source = Some "actigraphy"%string)
  then
    let overlap_filename := "mesa-actigraphy-psg-overlap.csv"%string in
    let overlap_filepath := path_join overlap_dir overlap_filename in
    present <- is_file overlap_filepath;;
    when (negb present)
      (raise (RuntimeError
         ("Overlap file not found, make sure it is in the correct directory "
          +:+ "overlap/mesa-actigraphy-psg-overlap.csv.")));;
    ret (mk_mesa_listing EmptyString ∅ subject_data_filepath
           requested_records overlap_filepath)
  else
    ret (mk_mesa_listing EmptyString ∅ subject_data_filepath
           requested_records EmptyString).

(** The statements of [read_mesa] before its loop.  Directories are not
    part of the world, so the [mkdir] calls leave no trace. *)
Definition mesa_prelude (args : reader_args * option string)
  : M (mesa_frame * list string) :=
  let '(a, activity_source) := args in
  when (negb (bool_decide (heartbeats_source a ∈ heartbeats_source_options)))
    (raise (invalid_heartbeats_source (heartbeats_source a)));;
  when (negb (bool_decide (activity_source ∈ MESA.activity_source_options)))
    (raise (invalid_activity_source activity_source));;
  let data_dir :=
    match data_dir a with
    | None => get_config_value c "data_dir"
    | Some d => d
    end in
  let db_dir := path_join data_dir MESA.DB_SLUG in
  l <- (if negb (offline a)
        then mesa_online a activity_source db_dir
        else mesa_offline a activity_source db_dir);;
  subject_data_array <- np_loadtxt_int_table (ml_subject_data_filepath l);;
  subject_data <- lift (mesa_subject_rows subject_data_array ∅);;
  overlap_data <-
    (if decide (activity_source = Some "actigraphy"%string)
     then
       rows <- csv_rows (ml_overlap_filepath l);;
       lift (overlap_rows (DictReader rows) ∅)
     else ret ∅);;
  ret (mk_mesa_frame a activity_source db_dir (ml_download_url l)
         (ml_checksums l) subject_data overlap_data,
       ml_requested_records l).

(** [_download_nsrr_file(download_url + filename, filepath, checksums[filename])] *)
Definition download_listed (download_url : string)
    (checksums : gmap string string) (filename filepath : string) : M unit :=
  checksum <- lift (getitem checksums filename);;
  _download_nsrr_file (download_url +:+ filename) filepath checksum.

(** The annotation of one record, in both readers: the file is fetched
    unless offline, then parsed.
    [xml_filepath = db_dir / xml_filename;
     if not offline: _download_nsrr_file(...);
     parsed_xml = _parse_nsrr_xml(xml_filepath)] *)
Definition read_annotation (a : reader_args) (db_dir download_url : string)
    (checksums : gmap string string) (xml_filename : string)
  : M _ParseNsrrXmlResult :=
  let xml_filepath := path_join db_dir xml_filename in
  when (negb (offline a))
    (download_listed download_url checksums xml_filename xml_filepath);;
  xml_file <- xml_at xml_filepath;;
  lift (_parse_nsrr_xml xml_filepath xml_file).

(** The heartbeats of one record: the [if heartbeats_source == ...] chain
    of the loop of [read_mesa]. *)
Definition mesa_heartbeats (L : mesa_frame) (record_id : string)
  : M (option (list Py.pyfloat)) :=
  let a := m_args L in
  let db_dir := m_db_dir L in
  let heartbeats_dir := path_join db_dir MESA.HEARTBEATS_DIRNAME in
  let heartbeats_file := path_join heartbeats_dir (record_id +:+ ".npy") in
  if String.eqb (heartbeats_source a) "annotation" then
    let rpoints_filename := MESA.RPOINTS_DIRNAME +:+ "/" +:+ record_id +:+ "-rpoint.csv" in
    let rpoints_filepath := path_join db_dir rpoints_filename in
    present <- is_file rpoints_filepath;;
    when (negb present)
      (if negb (offline a) && bool_decide (is_Some (m_checksums L !! rpoints_filename))
       then download_listed (m_download_url L) (m_checksums L)
              rpoints_filename rpoints_filepath
       else
         print ("Skipping " +:+ record_id +:+ " due to missing heartbeat annotations.");;
         continue);;
    heartbeat_times <- np_loadtxt_column rpoints_filepath;;
    (* for some reason some (39) records have unsorted annotations *)
    ret (Some (np.sort heartbeat_times))
  else if String.eqb (heartbeats_source a) "cached" then
    present <- is_file heartbeats_file;;
    when (negb present)
      (print ("Skipping " +:+ record_id +:+ " due to missing cached heartbeats.");;
       continue);;
    heartbeat_times <- np_load heartbeats_file;;
    ret (Some heartbeat_times)
  else if String.eqb (heartbeats_source a) "ecg" then
    let edf_filename := MESA.EDF_DIRNAME +:+ "/" +:+ record_id +:+ ".edf" in
    let edf_filepath := path_join db_dir edf_filename in
    edf_was_available <- is_file edf_filepath;;
    when (negb (offline a))
      (download_listed (m_download_url L) (m_checksums L) edf_filename edf_filepath);;
    ecg <- read_edf_signal edf_filepath "EKG";;
    let heartbeat_indices := detect_heartbeats c (data ecg) (sampling_frequency ecg) in
    let heartbeat_times := np.divide_indices heartbeat_indices (sampling_frequency ecg) in
    np_save heartbeats_file heartbeat_times;;
    when (negb edf_was_available && negb (keep_edfs a)) (unlink edf_filepath);;
    ret (Some heartbeat_times)
  else ret None.

(** The activity counts of one record computed from the actigraphy file:
    the [else] branch of [if activity_source == "cached"]. *)
Definition mesa_actigraphy (L : mesa_frame) (record_id : string)
    (parsed_xml : _ParseNsrrXmlResult) (activity_counts_file : string)
  : M (list Py.pyfloat) :=
  let a := m_args L in
  let db_dir := m_db_dir L in
  id_part <- lift (Py.index (Py.split_on "-" record_id) 2);;
  mesaid <- lift (Py.int id_part);;
  when (negb (bool_decide (is_Some (m_overlap_data L !! mesaid))))
    (print ("Skipping " +:+ record_id +:+ " due to missing overlap data.");;
     continue);;
  let activity_filename := MESA.ACTIVITY_DIRNAME +:+ "/" +:+ record_id +:+ ".csv" in
  let activity_filepath := path_join db_dir activity_filename in
  when (negb (offline a))
    (download_listed (m_download_url L) (m_checksums L)
       activity_filename activity_filepath);;
  present <- is_file activity_filepath;;
  when (negb present)
    (print ("Skipping " +:+ record_id +:+ " due to missing activity data.");;
     continue);;
  rows <- csv_rows activity_filepath;;
  header <- match rows with
            | h :: _ => ret h
            | [] => raise (RuntimeError "generator raised StopIteration")
            end;;
  let activity_data := map (dict_zip header) (tail rows) in
  let recording_start_time := px_recording_start_time parsed_xml in
  let recording_duration := px_recording_duration parsed_xml in
  recording_end_time <- lift (end_time recording_start_time recording_duration);;
  let recording_end_time := rounded_end_time recording_end_time in
  let recording_end_time_str :=
    Py.lstrip "0" (datetime.strftime_HMS recording_end_time) in
  overlap_line <- lift (of_option (m_overlap_data L !! mesaid) (KeyError (pretty mesaid)));;
  let start_line := overlap_line + 1 in
  found <- lift (find_end_line activity_data recording_end_time_str);;
  end_line <- match found with
              | Some end_line => ret end_line
              | None =>
                  print ("Skipping " +:+ record_id +:+ " due to missing line matching "
                         +:+ recording_end_time_str +:+ ".");;
                  continue
              end;;
  activity_counts <-
    lift (map_result (fun item => getitem item "activity")
            (Py.slice start_line end_line activity_data));;
  activity_counts <-
    match reconcile activity_counts (length (px_sleep_stages parsed_xml)) with
    | Some activity_counts => ret activity_counts
    | None =>
        print ("Skipping " +:+ record_id +:+ " due to invalid activity counts.");;
        continue
    end;;
  activity_counts <- lift (counts_to_float activity_counts);;
  np_save activity_counts_file activity_counts;;
  ret activity_counts.

(** The [if activity_source is not None] block of the loop. *)
Definition mesa_activity (L : mesa_frame) (record_id : string)
    (parsed_xml : _ParseNsrrXmlResult) : M (option (list Py.pyfloat)) :=
  match m_activity_source L with
  | None => ret None
  | Some source =>
      let activity_counts_dir := path_join (m_db_dir L) MESA.ACTIVITY_COUNTS_DIRNAME in
      let activity_counts_file :=
        path_join activity_counts_dir (record_id +:+ "-activity-counts.npy") in
      if String.eqb source "cached" then
        present <- is_file activity_counts_file;;
        when (negb present)
          (print ("Skipping " +:+ record_id +:+ " due to missing cached activity counts.");;
           continue);;
        activity_counts <- np_load activity_counts_file;;
        ret (Some activity_counts)
      else
        activity_counts <- mesa_actigraphy L record_id parsed_xml activity_counts_file;;
        ret (Some activity_counts)
  end.

(** A local variable that no statement has bound yet. *)
Definition bound {A} (var : string) (x : option A) : M A :=
  lift (of_option x (UnboundLocalError var)).

(** The body of [for record_id in requested_records] in [read_mesa]; its
    value is the record it yields. *)
Definition mesa_body (L : mesa_frame) (record_id : string) : M SleepRecord :=
  let a := m_args L in
  let db_dir := m_db_dir L in
  heartbeat_times <- mesa_heartbeats L record_id;;
  let xml_filename := MESA.ANNOTATION_DIRNAME +:+ "/" +:+ record_id +:+ "-nsrr.xml" in
  parsed_xml <-
    read_annotation a db_dir (m_download_url L) (m_checksums L) xml_filename;;
  activity_counts <- mesa_activity L record_id parsed_xml;;
  heartbeat_times <- bound "heartbeat_times" heartbeat_times;;
  subject <- lift (getitem (m_subject_data L) record_id);;
  ret (mk_SleepRecord
         (px_sleep_stages parsed_xml)
         (px_sleep_stage_duration parsed_xml)
         record_id
         (px_recording_start_time parsed_xml)
         heartbeat_times
         subject
         activity_counts).

(** [read_mesa(records_pattern, heartbeats_source, offline, keep_edfs,
    data_dir, activity_source)]: the body contains [yield], so the call
    runs none of it and returns a generator. *)
Definition read_mesa (a : reader_args) (activity_source : option string)
  : result (generator (reader_args * option string) mesa_frame) :=
  Ok (Created (a, activity_source)).

Definition mesa_next := next mesa_prelude mesa_body.

(** The loop of [read_mesa] from a suspended generator. *)
Definition mesa_resume := resume (A := reader_args * option string) mesa_body.

(* ===================================================================== *)
(** * [read_slpdb]: the subject data *)
(* ===================================================================== *)

(** The subject data that [read_slpdb] takes from the last line of the
    header file, [record.comments[0]]:
    ['<age> <gender> <weight> <unspecified>']. *)
Definition slpdb_subject_data (comment : string) : result SubjectData :=
  match Py.split comment with
  | [age_str; _; weight_str; _] =>
      age_value ←
        (if String.eqb age_str "x" then Ok None else Some <$> Py.int age_str);
      weight_value ←
        (if String.eqb weight_str "x" then Ok None
         else (fun n => Some (Py.Finite (inject_Z n))) <$> Py.int weight_str);
      Ok (mk_SubjectData (Some MALE) age_value weight_value)
  | _ => Raise (ValueError "wrong number of values to unpack")
  end.

(* ===================================================================== *)
(** * [read_shhs] *)
(* ===================================================================== *)

Record shhs_frame := mk_shhs_frame {
  s_args : reader_args;
  s_db_dir : string;
  s_download_url : string;
  s_checksums : gmap string string;
  s_subject_data : gmap string SubjectData
}.

(** [row[key]] on a row of [csv.DictReader]. *)
Definition field (row : gmap string (option string)) (key : string)
  : result (option string) :=
  of_option (row !! key) (KeyError key).

(** [GENDER_MAPPING.get(code)] *)
Definition shhs_gender (code : option string) : option Gender :=
  match code with
  | Some s => SHHS.GENDER_MAPPING !! s
  | None => None
  end.

(** [int(x) if x != "" else None] *)
Definition shhs_age (x : option string) : result (option Z) :=
  if decide (x = Some EmptyString) then Ok None else Some <$> int_field x.

(** [float(x) if x else None] *)
Definition shhs_weight (x : option string) : result (option Py.pyfloat) :=
  match x with
  | None => Ok None
  | Some s => if String.eqb s "" then Ok None else Some <$> Py.float s
  end.

(** One row of the subject file of SHHS1. *)
Definition shhs1_subject_row (row : gmap string (option string))
  : result (string * SubjectData) :=
  nsrrid ← field row "nsrrid";
  let record_id := "shhs1-" +:+ repr_option nsrrid in
  gender_code ← field row "gender";
  age_s1 ← field row "age_s1";
  age_value ← shhs_age age_s1;
  weight_str ← field row "weight";
  weight_value ← shhs_weight weight_str;
  Ok (record_id, mk_SubjectData (shhs_gender gender_code) age_value weight_value).

(** One row of the subject file of SHHS2: the weight was not recorded. *)
Definition shhs2_subject_row (row : gmap string (option string))
  : result (string * SubjectData) :=
  nsrrid ← field row "nsrrid";
  let record_id := "shhs2-" +:+ repr_option nsrrid in
  gender_code ← field row "gender";
  age_s2 ← field row "age_s2";
  age_value ← shhs_age age_s2;
  Ok (record_id, mk_SubjectData (shhs_gender gender_code) age_value None).

Fixpoint shhs_subject_rows
    (row_data : gmap string (option string) -> result (string * SubjectData))
    (rows : list (gmap string (option string)))
    (subject_data : gmap string SubjectData) : result (gmap string SubjectData) :=
  match rows with
  | [] => Ok subject_data
  | row :: rest =>
      entry ← row_data row;
      shhs_subject_rows row_data rest (<[entry.1 := entry.2]> subject_data)
  end.

(** The [if any(r.startswith(prefix) ...)] block for one of the two visits. *)
Definition shhs_load_subjects (db_dir prefix pattern : string)
    (row_data : gmap string (option string) -> result (string * SubjectData))
    (requested_records : list string) (subject_data : gmap string SubjectData)
  : M (gmap string SubjectData) :=
  if existsb (fun r => startswith r prefix) requested_records
  then
    paths <- listdir;;
    subject_data_file <- next_path (glob c (path_join db_dir "datasets") pattern paths);;
    rows <- csv_rows subject_data_file;;
    lift (shhs_subject_rows row_data (DictReader rows) subject_data)
  else ret subject_data.

(** The statements of [read_shhs] before its loop. *)
Definition shhs_prelude (a : reader_args) : M (shhs_frame * list string) :=
  when (negb (bool_decide (heartbeats_source a ∈ heartbeats_source_options)))
    (raise (invalid_heartbeats_source (heartbeats_source a)));;
  let data_dir :=
    match data_dir a with
    | None => get_config_value c "data_dir"
    | Some d => d
    end in
  let db_dir := path_join data_dir SHHS.DB_SLUG in
  let annotations_dir := path_join db_dir SHHS.ANNOTATION_DIRNAME in
  l <- (if negb (offline a)
        then
          let download_url := _get_nsrr_url c SHHS.DB_SLUG in
          download_nsrr SHHS.DB_SLUG "datasets" "shhs?-dataset-*.csv" true data_dir;;
          let xml_files :=
            _list_nsrr c SHHS.DB_SLUG SHHS.ANNOTATION_DIRNAME
              (records_pattern a +:+ "-nsrr.xml") false in
          let checksums := dict_update ∅ xml_files in
          let requested_records :=
            map (fun entry : string * string =>
                   str_slice (Some (-27)) (Some (-9)) entry.1) xml_files in
          let edf_files :=
            _list_nsrr c SHHS.DB_SLUG SHHS.EDF_DIRNAME
              (records_pattern a +:+ ".edf") false in
          let checksums := dict_update checksums edf_files in
          let rpoints_files :=
            _list_nsrr c SHHS.DB_SLUG SHHS.RPOINTS_DIRNAME
              (records_pattern a +:+ "-rpoint.csv") false in
          let checksums := dict_update checksums rpoints_files in
          ret (download_url, checksums, requested_records)
        else
          paths <- listdir;;
          let xml_paths :=
            sorted_paths (rglob c annotations_dir (records_pattern a +:+ "-nsrr.xml") paths) in
          let requested_records :=
            map (fun file => str_slice (Some (-27)) (Some (-9)) file) xml_paths in
          ret (EmptyString, ∅, requested_records));;
  let '(download_url, checksums, requested_records) := l in
  subject_data <-
    shhs_load_subjects db_dir "shhs1" "shhs1-dataset-*.csv" shhs1_subject_row
      requested_records ∅;;
  subject_data <-
    shhs_load_subjects db_dir "shhs2" "shhs2-dataset-*.csv" shhs2_subject_row
      requested_records subject_data;;
  ret (mk_shhs_frame a db_dir download_url checksums subject_data,
       requested_records).

(** The heartbeats of one record: the [if heartbeats_source == ...] chain
    of the loop of [read_shhs].  [None] is a [heartbeat_times] that the
    chain has not bound; the mode is the same for every record of a
    generator, so no earlier turn of the loop has bound it either. *)
Definition shhs_heartbeats (L : shhs_frame) (record_id : string)
  : M (option (list Py.pyfloat)) :=
  let a := s_args L in
  let db_dir := s_db_dir L in
  let heartbeats_dir := path_join db_dir SHHS.HEARTBEATS_DIRNAME in
  let heartbeats_file := path_join heartbeats_dir (record_id +:+ ".npy") in
  if String.eqb (heartbeats_source a) "annotation" then
    let rpoints_filename := SHHS.RPOINTS_DIRNAME +:+ "/" +:+ record_id +:+ "-rpoint.csv" in
    let rpoints_filepath := path_join db_dir rpoints_filename in
    present <- is_file rpoints_filepath;;
    when (negb present)
      (if negb (offline a) && bool_decide (is_Some (s_checksums L !! rpoints_filename))
       then download_listed (s_download_url L) (s_checksums L)
              rpoints_filename rpoints_filepath
       else
         print ("Skipping " +:+ record_id +:+ " due to missing heartbeat annotations.");;
         continue);;
    heartbeat_times <- np_loadtxt_column rpoints_filepath;;
    ret (Some heartbeat_times)
  else if String.eqb (heartbeats_source a) "cached" then
    present <- is_file heartbeats_file;;
    when (negb present)
      (print ("Skipping " +:+ record_id +:+ " due to missing cached heartbeats.");;
       continue);;
    ret None
  else if String.eqb (heartbeats_source a) "ecg" then
    let edf_filename := SHHS.EDF_DIRNAME +:+ "/" +:+ record_id +:+ ".edf" in
    let edf_filepath := path_join db_dir edf_filename in
    edf_was_available <- is_file edf_filepath;;
    when (negb (offline a))
      (download_listed (s_download_url L) (s_checksums L) edf_filename edf_filepath);;
    ecg <- read_edf_signal edf_filepath "ECG";;
    let heartbeat_indices := detect_heartbeats c (data ecg) (sampling_frequency ecg) in
    let heartbeat_times := np.divide_indices heartbeat_indices (sampling_frequency ecg) in
    np_save heartbeats_file heartbeat_times;;
    when (negb edf_was_available && negb (keep_edfs a)) (unlink edf_filepath);;
    ret (Some heartbeat_times)
  else ret None.

(** The body of [for record_id in requested_records] in [read_shhs]. *)
Definition shhs_body (L : shhs_frame) (record_id : string) : M SleepRecord :=
  let a := s_args L in
  let db_dir := s_db_dir L in
  heartbeat_times <- shhs_heartbeats L record_id;;
  let xml_filename := SHHS.ANNOTATION_DIRNAME +:+ "/" +:+ record_id +:+ "-nsrr.xml" in
  parsed_xml <-
    read_annotation a db_dir (s_download_url L) (s_checksums L) xml_filename;;
  heartbeat_times <- bound "heartbeat_times" heartbeat_times;;
  subject <- lift (getitem (s_subject_data L) (str_slice (Some 6) None record_id));;
  ret (mk_SleepRecord
         (px_sleep_stages parsed_xml)
         (px_sleep_stage_duration parsed_xml)
         (str_slice (Some 6) None record_id)
         (px_recording_start_time parsed_xml)
         heartbeat_times
         subject
         None).

(** [read_shhs(records_pattern, heartbeats_source, offline, keep_edfs,
    data_dir)]: a generator function, like [read_mesa]. *)
Definition read_shhs (a : reader_args)
  : result (generator reader_args shhs_frame) :=
  Ok (Created a).

Definition shhs_next := next shhs_prelude shhs_body.

(** The loop of [read_shhs] from a suspended generator. *)
Definition shhs_resume := resume (A := reader_args) shhs_body.

End Readers.

(* ===================================================================== *)
(** * [read_slpdb] *)
(* ===================================================================== *)

(** What [wfdb.rdrecord] returns for a record, as far as [read_slpdb]
    reads it: the base time of the header, the signals under their names in
    the order of the header (each a column of [p_signal]), the sampling
    frequency and the comments.  The frequency is an integer, as [wfdb]
    gives it for a header that states a whole number, and the header has a
    base time; other records are outside this model. *)
Record wfdb_record := mk_wfdb_record {
  base_time : time;
  channels : list (string * list Py.pyfloat);
  fs : Z;
  comments : list string
}.

(** What [wfdb.rdann] returns: the sample index and the auxiliary note of
    each annotation, in the order of the file. *)
Record wfdb_annotation := mk_wfdb_annotation {
  sample : list Z;
  aux_note : list string
}.

(** The local PhysioNet files: the records ([.hea] and [.dat]) under their
    path without extension, the annotation files under their path. *)
Record physionet_world := mk_physionet_world {
  records : gmap string wfdb_record;
  annotations : gmap string wfdb_annotation
}.

(** Computations on the PhysioNet files that can raise. *)
Definition PM (A : Type) : Type := physionet_world -> result A * physionet_world.

Definition pm_bind {A B} (m : PM A) (f : A -> PM B) : PM B := fun w =>
  match m w with
  | (Ok a, w') => f a w'
  | (Raise e, w') => (Raise e, w')
  end.

(** The PhysioNet client of [sleepecg/io/physionet.py], which is not part
    of the file embedded here: nothing is assumed about what it lists,
    fetches or raises. *)
Record physionet := mk_physionet {
  _list_physionet : string -> string -> string -> PM (list string);
  download_physionet : string -> list string -> list string -> string -> PM unit
}.

Module SLPDB.
Definition DB_SLUG : string := "slpdb".
Definition STAGE_MAPPING : gmap string SleepStage :=
  list_to_map
    [ ("W"%string, WAKE); ("R"%string, REM); ("1"%string, N1);
      ("2"%string, N2); ("3"%string, N3); ("4"%string, N3) ].
End SLPDB.

(** [wfdb.rdrecord(record_file)] and [wfdb.rdann(record_file, extension)] *)
Definition rdrecord (record_file : string) (w : physionet_world)
  : result wfdb_record :=
  of_option (records w !! record_file) (FileNotFoundError (record_file +:+ ".hea")).

Definition rdann (record_file extension : string) (w : physionet_world)
  : result wfdb_annotation :=
  of_option (annotations w !! (record_file +:+ "." +:+ extension))
    (FileNotFoundError (record_file +:+ "." +:+ extension)).

(** [record.p_signal[:, record.sig_name.index("ECG")]]: the column of the
    first signal with that name. *)
Definition ecg_channel (record : wfdb_record) : result (list Py.pyfloat) :=
  match List.find (fun p => String.eqb (fst p) "ECG") (channels record) with
  | Some p => Ok (snd p)
  | None => Raise (ValueError "'ECG' is not in list")
  end.

(** [s[0]] on a string: a string of one character. *)
Definition first_char (s : string) : result string :=
  match s with
  | EmptyString => Raise IndexError
  | String ch _ => Ok (String ch EmptyString)
  end.

(** [a // b] for a NumPy integer [a] and an integer [b]: rounded down; a
    zero divisor gives zero. *)
Definition np_floor_divide (a b : Z) : Z := if b =? 0 then 0 else a / b.

(** [np.full(n, x)] *)
Definition np_full {A} (n : Z) (x : A) : result (list A) :=
  if n <? 0 then Raise (ValueError "negative dimensions are not allowed")
  else Ok (repeat x (Z.to_nat n)).

(** [a[i] = x] on an array: a negative index counts from the end, an index
    out of range raises. *)
Definition setitem {A} (a : list A) (i : Z) (x : A) : result (list A) :=
  let len := Z.of_nat (length a) in
  if (i <? - len) || (len <=? i) then Raise IndexError
  else Ok (<[Z.to_nat (if i <? 0 then len + i else i) := x]> a).

(** The first loop over the annotations, which runs from the last one
    backwards: [number_of_sleep_stages] is bound at the first annotation
    found whose note starts with a key of the table, and stays what it was
    when there is none. *)
Fixpoint last_stage_epochs (fs : Z) (pairs : list (Z * string))
    (number_of_sleep_stages : option Z) : result (option Z) :=
  match pairs with
  | [] => Ok number_of_sleep_stages
  | (sample_time, annotation) :: rest =>
      key ← first_char annotation;
      if bool_decide (is_Some (SLPDB.STAGE_MAPPING !! key))
      then Ok (Some (np_floor_divide sample_time (30 * fs) + 1))
      else last_stage_epochs fs rest number_of_sleep_stages
  end.

(** The second loop over the annotations, in the order of the file. *)
Fixpoint assign_stages (fs : Z) (pairs : list (Z * string))
    (sleep_stages : list SleepStage) : result (list SleepStage) :=
  match pairs with
  | [] => Ok sleep_stages
  | (sample_time, annotation) :: rest =>
      key ← first_char annotation;
      match SLPDB.STAGE_MAPPING !! key with
      | Some stage =>
          sleep_stages ←
            setitem sleep_stages (np_floor_divide sample_time (30 * fs)) stage;
          assign_stages fs rest sleep_stages
      | None => assign_stages fs rest sleep_stages
      end
  end.

(** The parameters of [read_slpdb]. *)
Record slpdb_args := mk_slpdb_args {
  sa_records_pattern : string;
  sa_offline : bool;
  sa_data_dir : option string
}.

(** The local variables of [read_slpdb] that a turn of its loop reads
    before it has bound them itself: [db_dir], and
    [number_of_sleep_stages], which a turn binds only when it finds a
    stage annotation and which is unbound before the first such turn. *)
Record slpdb_frame := mk_slpdb_frame {
  sl_db_dir : string;
  sl_number_of_sleep_stages : option Z
}.

(** The statements of [read_slpdb] before its loop. *)
Definition slpdb_prelude (c : collaborators) (p : physionet) (args : slpdb_args)
  : PM (slpdb_frame * list string) :=
  let data_dir :=
    match sa_data_dir args with
    | None => get_config_value c "data_dir"
    | Some d => d
    end in
  let db_dir := path_join data_dir SLPDB.DB_SLUG in
  pm_bind (_list_physionet p data_dir SLPDB.DB_SLUG (sa_records_pattern args))
    (fun requested_records =>
       pm_bind
         (if negb (sa_offline args)
          then download_physionet p SLPDB.DB_SLUG requested_records
                 [".hea"; ".dat"; ".st"]%string data_dir
          else fun w => (Ok tt, w))
         (fun _ w => (Ok (mk_slpdb_frame db_dir None, requested_records), w))).

(** The body of [for record_id in requested_records] in [read_slpdb]: the
    record it yields and the frame it leaves.  It reads the local files
    and writes none. *)
Definition slpdb_body (c : collaborators) (frame : slpdb_frame)
    (record_id : string) (w : physionet_world)
  : result (SleepRecord * slpdb_frame) :=
  let record_file := path_join (sl_db_dir frame) record_id in
  record ← rdrecord record_file w;
  let start_time := base_time record in
  ecg ← ecg_channel record;
  let fs := fs record in
  let heartbeat_indices := detect_heartbeats c ecg (Py.Finite (inject_Z fs)) in
  let heartbeat_times :=
    np.divide_indices heartbeat_indices (Py.Finite (inject_Z fs)) in
  annot_st ← rdann record_file "st" w;
  number_of_sleep_stages ←
    last_stage_epochs fs
      (combine (rev (sample annot_st)) (rev (aux_note annot_st)))
      (sl_number_of_sleep_stages frame);
  n ← of_option number_of_sleep_stages (UnboundLocalError "number_of_sleep_stages");
  sleep_stages ← np_full n UNDEFINED;
  sleep_stages ←
    assign_stages fs (combine (sample annot_st) (aux_note annot_st)) sleep_stages;
  comment ← Py.index (comments record) 0;
  subject_data ← slpdb_subject_data comment;
  Ok (mk_SleepRecord sleep_stages 30 record_id start_time heartbeat_times
        subject_data None,
      mk_slpdb_frame (sl_db_dir frame) number_of_sleep_stages).

(** [read_slpdb(records_pattern, offline, data_dir)]: a generator function. *)
Definition read_slpdb (args : slpdb_args)
  : result (generator slpdb_args slpdb_frame) :=
  Ok (Created args).

(** The loop of [read_slpdb] up to its [yield]: no turn is skipped. *)
Definition slpdb_resume (c : collaborators) (frame : slpdb_frame)
    (requested_records : list string) (w : physionet_world)
  : outcome * generator slpdb_args slpdb_frame * physionet_world :=
  match requested_records with
  | [] => (Stopped, Finished, w)
  | record_id :: rest =>
      match slpdb_body c frame record_id w with
      | Ok (record, frame') => (Yielded record, Suspended frame' rest, w)
      | Raise e => (Failed e, Finished, w)
      end
  end.

(** [next(g)] on a generator of [read_slpdb]. *)
Definition slpdb_next (c : collaborators) (p : physionet)
    (g : generator slpdb_args slpdb_frame) (w : physionet_world)
  : outcome * generator slpdb_args slpdb_frame * physionet_world :=
  match g with
  | Created args =>
      match slpdb_prelude c p args w with
      | (Ok (frame, requested_records), w') => slpdb_resume c frame requested_records w'
      | (Raise e, w') => (Failed e, Finished, w')
      end
  | Suspended frame remaining => slpdb_resume c frame remaining w
  | Finished => (Stopped, Finished, w)
  end.

(* ===================================================================== *)
(** * Specification-level definitions *)
(* ===================================================================== *)

(** ** Annotation files *)

Definition ok_value {A} (r : result A) : option A :=
  match r with Ok a => Some a | Raise _ => None end.

(** The events of the recording: the children of the first
    [ScoredEvents] element. *)
Definition events_of (root : element) : list element :=
  match findall (Child "ScoredEvents") root with
  | scored_events :: _ => children_of scored_events
  | [] => []
  end.

Definition is_start_event (event : element) : Prop :=
  findtext (Child "EventConcept") event = Some "Recording Start Time"%string.

Definition is_stage_event (event : element) : Prop :=
  findtext (Child "EventType") event = Some "Stages|Stages"%string.

#[global] Instance is_start_event_dec event : Decision (is_start_event event) :=
  decide (findtext (Child "EventConcept") event = Some "Recording Start Time"%string).

#[global] Instance is_stage_event_dec event : Decision (is_stage_event event) :=
  decide (findtext (Child "EventType") event = Some "Stages|Stages"%string).

(** The declared duration of an event, its stage label looked up in the
    table, and the time of day of its clock time. *)
Definition event_duration (event : element) : option Py.pyfloat :=
  ok_value (Py.float (findtext_default (Child "Duration") "" event)).

Definition event_stage (event : element) : option SleepStage :=
  STAGE_MAPPING !! findtext_default (Child "EventConcept") "" event.

Definition event_clock_time (event : element) : option time :=
  ok_value
    (clock ← Py.index (Py.split (findtext_default (Child "ClockTime") "" event)) 1;
     strptime_HMS clock).

(** The recording-duration field: the [Duration] of the first
    [ScoredEvent] of the document. *)
Definition recording_duration_field (root : element) : option string :=
  match find (Descendant "ScoredEvent") root with
  | Some scored_event => findtext (Descendant "Duration") scored_event
  | None => None
  end.

(** What the specification lets one event contribute:
    [floor(event_duration / epoch_length)] copies of its stage. *)
Definition event_epochs (epoch_length : Z) (event : element) : list SleepStage :=
  if decide (is_stage_event event)
  then match event_duration event, event_stage event with
       | Some (Py.Finite d), Some stage =>
           repeat stage (Z.to_nat (Qfloor (d / inject_Z epoch_length)))
       | _, _ => []
       end
  else [].

(** The start time the events declare: the clock time of the last
    "Recording Start Time" event. *)
Definition declared_start_time (events : list element) : option time :=
  fold_left
    (fun acc event =>
       if decide (is_start_event event) then event_clock_time event else acc)
    events None.

(** A staging event is valid when its label is in the table and its
    duration is a finite, non-negative number; a start event when its clock
    time can be read. *)
Definition valid_event (event : element) : Prop :=
  (is_start_event event -> is_Some (event_clock_time event)) /\
  (is_stage_event event ->
     is_Some (event_stage event) /\
     exists d, event_duration event = Some (Py.Finite d) /\ (0 <= d)%Q).

(** A valid annotation file with the given epoch length and recording
    duration: the three required fields are present and can be read, the
    epoch length is positive and every event is valid. *)
Record valid_annotation (root : element) (epoch_length : Z)
    (recording_duration : Py.pyfloat) : Prop := mk_valid_annotation {
  va_epoch_length :
    exists s, findtext (Child "EpochLength") root = Some s /\
              Py.int s = Ok epoch_length;
  va_epoch_length_pos : 0 < epoch_length;
  va_recording_duration :
    exists s, recording_duration_field root = Some s /\
              Py.float s = Ok recording_duration;
  va_scored_events : findall (Child "ScoredEvents") root <> [];
  va_events : Forall valid_event (events_of root);
  va_start : Exists is_start_event (events_of root)
}.

(** The staging events of a document, in declaration order. *)
Definition staging_events (root : element) : list element :=
  List.filter (fun event => bool_decide (is_stage_event event)) (events_of root).

(** ** A small annotation file

    [EpochLength] is 30; the events are the start of the recording at
    22:15:07, lasting 120 seconds, and one "Stage 2 sleep|2" event of 60
    seconds. *)
Definition start_event_lasting (duration : string) : element :=
  Element "ScoredEvent" None
    [ Element "EventType" None [];
      Element "EventConcept" (Some "Recording Start Time"%string) [];
      Element "Start" (Some "0"%string) [];
      Element "Duration" (Some duration) [];
      Element "ClockTime" (Some "00.00.00 22.15.07"%string) [] ].

Definition start_event_example : element := start_event_lasting "120.0".

Definition stage_event_example (label duration : string) : element :=
  Element "ScoredEvent" None
    [ Element "EventType" (Some "Stages|Stages"%string) [];
      Element "EventConcept" (Some label) [];
      Element "Start" (Some "0"%string) [];
      Element "Duration" (Some duration) [] ].

Definition annotation_example (events : list element) : element :=
  Element "PSGAnnotation" None
    [ Element "SoftwareVersion" (Some "Compumedics"%string) [];
      Element "EpochLength" (Some "30"%string) [];
      Element "ScoredEvents" None events ].

Definition scenario_1 : element :=
  annotation_example
    [start_event_example; stage_event_example "Stage 2 sleep|2" "60"].

(** The same file with a label that the table does not know. *)
Definition unknown_label_example : element :=
  annotation_example
    [start_event_example; stage_event_example "Stage 5 sleep|6" "60"].

(** Three files that lack one required field each: the epoch length, every
    [ScoredEvent] (and with it the recording duration), and the
    "Recording Start Time" event. *)
Definition no_epoch_length_example : element :=
  Element "PSGAnnotation" None
    [ Element "ScoredEvents" None
        [start_event_example; stage_event_example "Stage 2 sleep|2" "60"] ].

Definition no_duration_example : element :=
  annotation_example [].

Definition no_start_example : element :=
  annotation_example [stage_event_example "Stage 2 sleep|2" "60"].

(** ** Subject rows *)

(** A row of [csv.DictReader] with the four columns the SHHS1 loader reads. *)
Definition shhs1_row_example (nsrrid gender_code age_s1 weight_str : string)
  : gmap string (option string) :=
  dict_update ∅
    [ ("nsrrid"%string, Some nsrrid); ("gender"%string, Some gender_code);
      ("age_s1"%string, Some age_s1); ("weight"%string, Some weight_str) ].

Definition shhs2_row_example (nsrrid gender_code age_s2 : string)
  : gmap string (option string) :=
  dict_update ∅
    [ ("nsrrid"%string, Some nsrrid); ("gender"%string, Some gender_code);
      ("age_s2"%string, Some age_s2) ].

(** ** A small installation

    The collaborators of the examples: globbing with [*] as the only
    wildcard, a server that lists and serves nothing, and a detector that
    reports the samples of at least one unit. *)

Fixpoint wildcard (pattern s : list ascii) : bool :=
  match pattern with
  | [] => match s with [] => true | _ :: _ => false end
  | x :: pattern' =>
      if Ascii.eqb x "*"
      then (fix star (s : list ascii) : bool :=
              wildcard pattern' s ||
              match s with
              | [] => false
              | y :: s' => negb (Ascii.eqb y "/") && star s'
              end) s
      else match s with
           | y :: s' => Ascii.eqb x y && wildcard pattern' s'
           | [] => false
           end
  end.

Definition glob_example (dir pattern : string) (paths : list string)
  : list string :=
  List.filter
    (fun p => wildcard (list_ascii_of_string (path_join dir pattern))
                (list_ascii_of_string p))
    paths.

Definition rglob_example (dir pattern : string) (paths : list string)
  : list string :=
  List.filter
    (fun p => startswith p (dir +:+ "/")
              && wildcard (list_ascii_of_string pattern)
                   (list_ascii_of_string (str_last (Py.split_on "/" p))))
    paths.

Fixpoint peaks_from (i : Z) (samples : list Py.pyfloat) : list Z :=
  match samples with
  | [] => []
  | x :: rest =>
      (if np.sort_leb (Py.Finite 1) x && negb (np.is_nan x) then [i] else [])
        ++ peaks_from (i + 1) rest
  end.

Definition collaborators_example : collaborators :=
  {| get_config_value := fun _ => "/data"%string;
     _get_nsrr_url := fun db_slug => "https://sleepdata.org/datasets/" +:+ db_slug +:+ "/files/";
     _list_nsrr := fun _ _ _ _ => [];
     served := ∅;
     md5 := fun _ => "d41d8cd98f00b204e9800998ecf8427e"%string;
     glob := glob_example;
     rglob := rglob_example;
     detect_heartbeats := fun samples _ => peaks_from 0 samples |}.

Definition offline_args (source : string) : reader_args :=
  mk_reader_args "*" source true false None.

Definition unsorted_times : list Py.pyfloat :=
  [Py.Finite 5; Py.Finite 2; Py.Finite 3].

(** A MESA directory with two records, both with heartbeat annotations:
    the annotation file of the first has no [EpochLength], that of the
    second is the file of scenario 1. *)
Definition mesa_files_example : gmap string file :=
  list_to_map
    [ ("/data/mesa/datasets/mesa-sleep-dataset-0.6.0.csv"%string,
       IntTable [(1, 0, 70); (2, 1, 65)]);
      ("/data/mesa/polysomnography/annotations-events-nsrr/mesa-sleep-0001-nsrr.xml"%string,
       Xml (Document no_epoch_length_example));
      ("/data/mesa/polysomnography/annotations-events-nsrr/mesa-sleep-0002-nsrr.xml"%string,
       Xml (Document scenario_1));
      ("/data/mesa/polysomnography/annotations-rpoints/mesa-sleep-0001-rpoint.csv"%string,
       FloatColumn unsorted_times);
      ("/data/mesa/polysomnography/annotations-rpoints/mesa-sleep-0002-rpoint.csv"%string,
       FloatColumn unsorted_times) ].

Definition mesa_world_example : world := mk_world mesa_files_example [].

(** The same directory without the heartbeat annotations of the first
    record. *)
Definition mesa_world_missing_rpoints : world :=
  mk_world
    (delete "/data/mesa/polysomnography/annotations-rpoints/mesa-sleep-0001-rpoint.csv"%string
       mesa_files_example) [].

Definition record_0002 : SleepRecord :=
  mk_SleepRecord [N2; N2] 30 "mesa-sleep-0002" (mk_time 22 15 7 0)
    [Py.Finite 2; Py.Finite 3; Py.Finite 5]
    (mk_SubjectData (Some MALE) (Some 65) None) None.

(** An SHHS directory with one record of the first visit: annotations,
    unsorted heartbeat annotations and the recording itself. *)
Definition ecg_example : signal :=
  mk_signal
    [Py.Finite 0; Py.Finite 1; Py.Finite 0; Py.Finite 0; Py.Finite 1;
     Py.Finite 0; Py.Finite 2]
    (Py.Finite 2).

Definition shhs_files_example : gmap string file :=
  list_to_map
    [ ("/data/shhs/datasets/shhs1-dataset-0.16.0.csv"%string,
       Csv [ ["nsrrid"; "gender"; "age_s1"; "weight"]%string;
             ["200001"; "1"; "55"; "80.5"]%string ]);
      ("/data/shhs/polysomnography/annotations-events-nsrr/shhs1/shhs1-200001-nsrr.xml"%string,
       Xml (Document scenario_1));
      ("/data/shhs/polysomnography/annotations-rpoints/shhs1/shhs1-200001-rpoint.csv"%string,
       FloatColumn unsorted_times);
      ("/data/shhs/polysomnography/edfs/shhs1/shhs1-200001.edf"%string,
       Edf [("ECG"%string, ecg_example)]) ].

Definition shhs_world_example : world := mk_world shhs_files_example [].

Definition record_200001 (times : list Py.pyfloat) : SleepRecord :=
  mk_SleepRecord [N2; N2] 30 "shhs1-200001" (mk_time 22 15 7 0) times
    (mk_SubjectData (Some MALE) (Some 55) (Some (Py.Finite (161 # 2)))) None.

(** ** The files of one record *)

Definition logged (w : world) (line : string) : world :=
  mk_world (files w) (stdout w ++ [line]).

Definition mesa_rpoints_filepath (L : mesa_frame) (record_id : string) : string :=
  path_join (m_db_dir L)
    (MESA.RPOINTS_DIRNAME +:+ "/" +:+ record_id +:+ "-rpoint.csv").

Definition mesa_heartbeats_file (L : mesa_frame) (record_id : string) : string :=
  path_join (path_join (m_db_dir L) MESA.HEARTBEATS_DIRNAME) (record_id +:+ ".npy").

Definition mesa_edf_filepath (L : mesa_frame) (record_id : string) : string :=
  path_join (m_db_dir L) (MESA.EDF_DIRNAME +:+ "/" +:+ record_id +:+ ".edf").

Definition mesa_xml_filename (record_id : string) : string :=
  MESA.ANNOTATION_DIRNAME +:+ "/" +:+ record_id +:+ "-nsrr.xml".

Definition mesa_activity_counts_file (L : mesa_frame) (record_id : string)
  : string :=
  path_join (path_join (m_db_dir L) MESA.ACTIVITY_COUNTS_DIRNAME)
    (record_id +:+ "-activity-counts.npy").

Definition shhs_rpoints_filepath (L : shhs_frame) (record_id : string) : string :=
  path_join (s_db_dir L)
    (SHHS.RPOINTS_DIRNAME +:+ "/" +:+ record_id +:+ "-rpoint.csv").

Definition shhs_heartbeats_file (L : shhs_frame) (record_id : string) : string :=
  path_join (path_join (s_db_dir L) SHHS.HEARTBEATS_DIRNAME) (record_id +:+ ".npy").

Definition shhs_edf_filepath (L : shhs_frame) (record_id : string) : string :=
  path_join (s_db_dir L) (SHHS.EDF_DIRNAME +:+ "/" +:+ record_id +:+ ".edf").

Definition shhs_xml_filename (record_id : string) : string :=
  SHHS.ANNOTATION_DIRNAME +:+ "/" +:+ record_id +:+ "-nsrr.xml".

(** The annotation step of the two loops. *)
Definition mesa_annotation (c : collaborators) (L : mesa_frame)
    (record_id : string) : M _ParseNsrrXmlResult :=
  read_annotation c (m_args L) (m_db_dir L) (m_download_url L) (m_checksums L)
    (mesa_xml_filename record_id).

Definition shhs_annotation (c : collaborators) (L : shhs_frame)
    (record_id : string) : M _ParseNsrrXmlResult :=
  read_annotation c (s_args L) (s_db_dir L) (s_download_url L) (s_checksums L)
    (shhs_xml_filename record_id).

(** A MESA directory with actigraphy for the second record.  The recording
    of scenario 1 ends at 22:17:07, which the rounding moves to 22:17:00,
    the clock time of line 5 of the actigraphy file. *)
Definition activity_rows_example : list (list string) :=
  [ ["mesaid"; "line"; "linetime"; "activity"];
    ["2"; "1"; "22:15:00"; "10"];
    ["2"; "2"; "22:15:30"; "20"];
    ["2"; "3"; "22:16:00"; ""];
    ["2"; "4"; "22:16:30"; "40"];
    ["2"; "5"; "22:17:00"; "50"];
    ["2"; "6"; "22:17:30"; "60"] ]%string.

Definition mesa_activity_files (overlap_line : string) (annotation : element)
  : gmap string file :=
  list_to_map
    [ ("/data/mesa/datasets/mesa-sleep-dataset-0.6.0.csv"%string,
       IntTable [(1, 0, 70); (2, 1, 65)]);
      ("/data/mesa/polysomnography/annotations-events-nsrr/mesa-sleep-0002-nsrr.xml"%string,
       Xml (Document annotation));
      ("/data/mesa/polysomnography/annotations-rpoints/mesa-sleep-0002-rpoint.csv"%string,
       FloatColumn unsorted_times);
      ("/data/mesa/overlap/mesa-actigraphy-psg-overlap.csv"%string,
       Csv [ ["mesaid"; "line"]%string; ["2"%string; overlap_line] ]);
      ("/data/mesa/actigraphy/mesa-sleep-0002.csv"%string,
       Csv activity_rows_example) ].

Definition mesa_activity_world (overlap_line : string) (annotation : element)
  : world :=
  mk_world (mesa_activity_files overlap_line annotation) [].

(** The file of scenario 1 with a staging event of 90 seconds: three
    epochs. *)
Definition three_epochs_example : element :=
  annotation_example
    [start_event_example; stage_event_example "Stage 2 sleep|2" "90"].

(** The file of scenario 1 for a recording of 300 seconds: it ends at
    22:20:07, and no line of the actigraphy file has the time 22:20:00. *)
Definition late_end_example : element :=
  annotation_example
    [start_event_lasting "300.0"; stage_event_example "Stage 2 sleep|2" "60"].

Definition actigraphy_generator
  : generator (reader_args * option string) mesa_frame :=
  Created (offline_args "annotation", Some "actigraphy"%string).

(** The actigraphy file of one record and the label of the end time that
    the alignment looks for. *)
Definition mesa_activity_filepath (L : mesa_frame) (record_id : string) : string :=
  path_join (m_db_dir L) (MESA.ACTIVITY_DIRNAME +:+ "/" +:+ record_id +:+ ".csv").

Definition end_time_label (recording_end_time : datetime.datetime) : string :=
  Py.lstrip "0" (datetime.strftime_HMS (rounded_end_time recording_end_time)).

(** The alignment proper, on the rows of the actigraphy file: the search
    for the end line, the slice, the reconciliation and the conversion.
    [inl] is a skip with its message. *)
Definition align (record_id : string) (activity_data : list (gmap string string))
    (label : string) (start_line : Z) (sleep_stages_len : nat)
  : result (string + list Py.pyfloat) :=
  found ← find_end_line activity_data label;
  match found with
  | None =>
      Ok (inl ("Skipping " +:+ record_id +:+ " due to missing line matching "
               +:+ label +:+ "."))
  | Some end_line =>
      candidate ←
        map_result (fun item => getitem item "activity")
          (Py.slice start_line end_line activity_data);
      match reconcile candidate sleep_stages_len with
      | None =>
          Ok (inl ("Skipping " +:+ record_id +:+ " due to invalid activity counts."))
      | Some counts => inr <$> counts_to_float counts
      end
  end.

(** The frames that the statements before the loops bind in these
    directories. *)
Definition mesa_subjects_example : gmap string SubjectData :=
  list_to_map
    [ ("mesa-sleep-0001"%string, mk_SubjectData (Some FEMALE) (Some 70) None);
      ("mesa-sleep-0002"%string, mk_SubjectData (Some MALE) (Some 65) None) ].

Definition mesa_frame_example (source : string) (activity_source : option string)
    (overlap_data : gmap Z Z) : mesa_frame :=
  mk_mesa_frame (offline_args source) activity_source "/data/mesa" EmptyString ∅
    mesa_subjects_example overlap_data.

Definition shhs_frame_example (source : string) : shhs_frame :=
  mk_shhs_frame (offline_args source) "/data/shhs" EmptyString ∅
    (list_to_map
       [ ("shhs1-200001"%string,
          mk_SubjectData (Some MALE) (Some 55) (Some (Py.Finite (161 # 2)))) ]).

(** ** Orders on arrays *)

(** The order in which [ndarray.sort] leaves an array: non-decreasing, a
    NaN counting as larger than every number. *)
Definition sort_le (x y : Py.pyfloat) : Prop := np.sort_leb x y = true.

Definition in_sort_order (a : list Py.pyfloat) : Prop := StronglySorted sort_le a.

Definition nan_free (a : list Py.pyfloat) : Prop :=
  Forall (fun x => np.is_nan x = false) a.

(** The mode of a generator of [read_mesa]. *)
Definition mesa_source (g : generator (reader_args * option string) mesa_frame)
  : string :=
  match g with
  | Created args => heartbeats_source args.1
  | Suspended L _ => heartbeats_source (m_args L)
  | Finished => EmptyString
  end.

(** ** Files that stay *)

(** A computation keeps the files [P]: if they are all there before it
    runs, they are all there afterwards, whatever its outcome. *)
Definition keeps {A} (P : string -> Prop) (m : M A) : Prop :=
  forall w,
    (forall path, P path -> is_Some (files w !! path)) ->
    (forall path, P path -> is_Some (files (m w).2 !! path)).

(** The mode of a generator of [read_shhs]. *)
Definition shhs_source (g : generator reader_args shhs_frame) : string :=
  match g with
  | Created args => heartbeats_source args
  | Suspended L _ => heartbeats_source (s_args L)
  | Finished => EmptyString
  end.

(** ** An installation with a server

    The NSRR server lists and serves the subject file, the annotation file
    and the recording of one SHHS record; nothing is local yet. *)
Definition shhs_listing_example (subfolder : string) : list (string * string) :=
  let checksum := "d41d8cd98f00b204e9800998ecf8427e"%string in
  if String.eqb subfolder "datasets"
  then [("datasets/shhs1-dataset-0.16.0.csv"%string, checksum)]
  else if String.eqb subfolder SHHS.ANNOTATION_DIRNAME
  then [("polysomnography/annotations-events-nsrr/shhs1/shhs1-200001-nsrr.xml"%string,
         checksum)]
  else if String.eqb subfolder SHHS.EDF_DIRNAME
  then [("polysomnography/edfs/shhs1/shhs1-200001.edf"%string, checksum)]
  else [].

Definition collaborators_online : collaborators :=
  {| get_config_value := fun _ => "/data"%string;
     _get_nsrr_url := fun db_slug => "https://sleepdata.org/datasets/" +:+ db_slug +:+ "/files/";
     _list_nsrr := fun _ subfolder _ _ => shhs_listing_example subfolder;
     served :=
       list_to_map
         [ ("https://sleepdata.org/datasets/shhs/files/datasets/shhs1-dataset-0.16.0.csv"%string,
            Csv [ ["nsrrid"; "gender"; "age_s1"; "weight"]%string;
                  ["200001"; "1"; "55"; "80.5"]%string ]);
           ("https://sleepdata.org/datasets/shhs/files/polysomnography/annotations-events-nsrr/shhs1/shhs1-200001-nsrr.xml"%string,
            Xml (Document scenario_1));
           ("https://sleepdata.org/datasets/shhs/files/polysomnography/edfs/shhs1/shhs1-200001.edf"%string,
            Edf [("ECG"%string, ecg_example)]) ];
     md5 := fun _ => "d41d8cd98f00b204e9800998ecf8427e"%string;
     glob := glob_example;
     rglob := rglob_example;
     detect_heartbeats := fun samples _ => peaks_from 0 samples |}.

Definition online_args (keep : bool) : reader_args :=
  mk_reader_args "*" "ecg" false keep None.

Definition empty_world : world := mk_world ∅ [].

Definition edf_example : string :=
  "/data/shhs/polysomnography/edfs/shhs1/shhs1-200001.edf".

Definition shhs_frame_online (keep : bool) : shhs_frame :=
  mk_shhs_frame (online_args keep) "/data/shhs"
    "https://sleepdata.org/datasets/shhs/files/"
    (dict_update ∅
       (shhs_listing_example SHHS.ANNOTATION_DIRNAME
        ++ shhs_listing_example SHHS.EDF_DIRNAME))
    (list_to_map
       [ ("shhs1-200001"%string,
          mk_SubjectData (Some MALE) (Some 55) (Some (Py.Finite (161 # 2)))) ]).

Definition heartbeats_example : list Py.pyfloat :=
  [Py.Finite (1 # 2); Py.Finite (4 # 2); Py.Finite (6 # 2)].

(** A computation leaves the file at [path] as it is, whatever its
    outcome. *)
Definition untouched {A} (path : string) (m : M A) : Prop :=
  forall w, files (m w).2 !! path = files w !! path.

(* ===================================================================== *)
(** * Further properties: definitions and examples *)
(* ===================================================================== *)

(** ** Annotation files *)

(** An annotation file with the given text in its [EpochLength] field. *)
Definition annotation_with_epoch_length (epoch_length : string)
    (events : list element) : element :=
  Element "PSGAnnotation" None
    [ Element "EpochLength" (Some epoch_length) [];
      Element "ScoredEvents" None events ].

(** The whole seconds of an event, [int(float(Duration))], and their sum
    over the staging events of a document. *)
Definition event_seconds (event : element) : Z :=
  match event_duration event with
  | Some (Py.Finite d) => Py.Qtrunc d
  | _ => 0
  end.

Definition staged_seconds (root : element) : Z :=
  fold_right Z.add 0 (map event_seconds (staging_events root)).

(** A start event with the given clock time. *)
Definition start_event_at (clock_time : string) : element :=
  Element "ScoredEvent" None
    [ Element "EventType" None [];
      Element "EventConcept" (Some "Recording Start Time"%string) [];
      Element "Start" (Some "0"%string) [];
      Element "Duration" (Some "120.0"%string) [];
      Element "ClockTime" (Some clock_time) [] ].

(** ** What the loops print *)

(** A line that reports the skip of a record. *)
Definition skip_line (record_id line : string) : Prop :=
  exists reason, line = "Skipping " +:+ record_id +:+ " due to " +:+ reason.

(** A computation is quiet: it prints nothing and does not leave the body
    of the loop by [continue]. *)
Definition quiet {A} (m : M A) : Prop :=
  forall w, (m w).1 <> Continued /\ stdout (m w).2 = stdout w.

(** A computation in the body of the loop reports its skips: when it
    leaves the body by [continue] it has printed one line, a skip line of
    its record; otherwise it has printed nothing. *)
Definition reports_skips {A} (record_id : string) (m : M A) : Prop :=
  forall w,
    match (m w).1 with
    | Continued =>
        exists line, skip_line record_id line /\ stdout (m w).2 = stdout w ++ [line]
    | _ => stdout (m w).2 = stdout w
    end.

(** What one [next] did with the record ids it was left with: the ids it
    skipped, then the id of the record it yielded or failed on, if any. *)
Definition turn (record_of : string -> string) (ids : list string)
    (o : outcome) (skipped : list string) (remaining : option (list string)) : Prop :=
  match o with
  | Yielded record =>
      exists record_id rest,
        ids = skipped ++ record_id :: rest /\ id record = record_of record_id /\
        remaining = Some rest
  | Stopped => ids = skipped /\ remaining = None
  | Failed _ =>
      exists record_id rest, ids = skipped ++ record_id :: rest /\ remaining = None
  end.

Definition remaining_ids {A F} (g : generator A F) : option (list string) :=
  match g with
  | Suspended _ rest => Some rest
  | _ => None
  end.

(** ** A second run from the caches *)

(** The frame of [read_mesa] for the same directory and subjects when the
    heartbeats, and the activity counts if any were asked for, are to be
    taken from the caches. *)
Definition cached_frame (L : mesa_frame) : mesa_frame :=
  let a := m_args L in
  mk_mesa_frame
    (mk_reader_args (records_pattern a) "cached" (offline a) (keep_edfs a) (data_dir a))
    (match m_activity_source L with
     | Some _ => Some "cached"%string
     | None => None
     end)
    (m_db_dir L) (m_download_url L) (m_checksums L) (m_subject_data L)
    (m_overlap_data L).

(** ** Heartbeats from the recording *)

(** The signal with the given label in what a path holds, if it is a
    recording that has one. *)
Definition signal_of (f : option file) (label : string) : option signal :=
  match f with
  | Some (Edf signals) =>
      snd <$> List.find (fun p => String.eqb (fst p) label) signals
  | _ => None
  end.

(** The times that the mode ['ecg'] computes from a signal. *)
Definition detected_times (c : collaborators) (ecg : signal) : list Py.pyfloat :=
  np.divide_indices
    (detect_heartbeats c (data ecg) (sampling_frequency ecg))
    (sampling_frequency ecg).

(** A float that is not a number of seconds. *)
Definition not_finite (x : Py.pyfloat) : Prop :=
  match x with Py.Finite _ => False | _ => True end.

(** ** The subject table of MESA *)

(** The branch of [if not offline] that the statements before the loop of
    [read_mesa] take. *)
Definition mesa_list (c : collaborators) (a : reader_args)
    (activity_source : option string) : M mesa_listing :=
  let data_dir :=
    match data_dir a with
    | None => get_config_value c "data_dir"
    | Some d => d
    end in
  let db_dir := path_join data_dir MESA.DB_SLUG in
  if negb (offline a)
  then mesa_online c a activity_source db_dir
  else mesa_offline c a activity_source db_dir.

(** The subject data that every record of [read_mesa] carries: a gender
    and an age, and no weight. *)
Definition mesa_subject (s : SubjectData) : Prop :=
  is_Some (gender s) /\ is_Some (age s) /\ weight s = None.

(** A MESA directory whose subject table has a gender code that the
    mapping does not know in its second row. *)
Definition mesa_world_unmapped_gender : world :=
  mk_world
    (<["/data/mesa/datasets/mesa-sleep-dataset-0.6.0.csv"%string
       := IntTable [(1, 0, 70); (2, 2, 65); (3, 1, 60)]]> mesa_files_example) [].

(** ** Offline *)

(** Two installations that differ in the NSRR server at most: in what it
    lists and serves, in its address and in the checksums. *)
Definition same_locally (c c' : collaborators) : Prop :=
  get_config_value c = get_config_value c' /\
  glob c = glob c' /\
  rglob c = rglob c' /\
  detect_heartbeats c = detect_heartbeats c'.

(** A generator of [read_mesa] or [read_shhs] that was called with
    [offline=True]. *)
Definition mesa_offline_generator
    (g : generator (reader_args * option string) mesa_frame) : Prop :=
  match g with
  | Created args => offline args.1 = true
  | Suspended L _ => offline (m_args L) = true
  | Finished => True
  end.

Definition shhs_offline_generator (g : generator reader_args shhs_frame) : Prop :=
  match g with
  | Created args => offline args = true
  | Suspended L _ => offline (s_args L) = true
  | Finished => True
  end.

(** The paths that globbing sees in a world. *)
Definition local_paths (w : world) : list string :=
  map fst (map_to_list (files w)).

(** [data_dir] after [if data_dir is None: data_dir = get_config_value("data_dir")]. *)
Definition data_dir_of (c : collaborators) (a : reader_args) : string :=
  match data_dir a with
  | None => get_config_value c "data_dir"
  | Some d => d
  end.

(** ** The stages of [read_slpdb] *)

(** The stage that an annotation stands for: its note starts with a key of
    the table. *)
Definition stage_of (annotation : string) : option SleepStage :=
  match annotation with
  | EmptyString => None
  | String ch _ => SLPDB.STAGE_MAPPING !! String ch EmptyString
  end.

(** The window of 30 seconds into which a sample falls. *)
Definition epoch_of (fs sample_time : Z) : Z :=
  np_floor_divide sample_time (30 * fs).

(** The stage that the annotations give to a window: that of the last
    stage annotation of the file that falls into it, [init] without one. *)
Definition epoch_stage_from (fs : Z) (pairs : list (Z * string)) (i : Z)
    (init : SleepStage) : SleepStage :=
  fold_left
    (fun acc (p : Z * string) =>
       match stage_of p.2 with
       | Some stage => if epoch_of fs p.1 =? i then stage else acc
       | None => acc
       end)
    pairs init.

Definition epoch_stage (fs : Z) (pairs : list (Z * string)) (i : Z) : SleepStage :=
  epoch_stage_from fs pairs i UNDEFINED.

(** The annotations of a file as the second loop pairs them. *)
Definition annotation_pairs (annot : wfdb_annotation) : list (Z * string) :=
  combine (sample annot) (aux_note annot).

(** The statements of a turn between [wfdb.rdann] and the comments: the
    stage array and the [number_of_sleep_stages] that the turn leaves. *)
Definition slpdb_stages (fs : Z) (annot_st : wfdb_annotation)
    (previous : option Z) : result (list SleepStage * option Z) :=
  number_of_sleep_stages ←
    last_stage_epochs fs
      (combine (rev (sample annot_st)) (rev (aux_note annot_st))) previous;
  n ← of_option number_of_sleep_stages (UnboundLocalError "number_of_sleep_stages");
  sleep_stages ← np_full n UNDEFINED;
  sleep_stages ←
    assign_stages fs (combine (sample annot_st) (aux_note annot_st)) sleep_stages;
  Ok (sleep_stages, number_of_sleep_stages).

(** What a turn of the loop reads for a record: the record with its "ECG"
    signal, the stage annotations, and the subject data of the first
    comment. *)
Record slpdb_inputs (frame : slpdb_frame) (record_id : string)
    (w : physionet_world) (record : wfdb_record) (annot : wfdb_annotation)
    (subject : SubjectData) : Prop := mk_slpdb_inputs {
  si_record : rdrecord (path_join (sl_db_dir frame) record_id) w = Ok record;
  si_ecg : is_ok (ecg_channel record) = true;
  si_annot : rdann (path_join (sl_db_dir frame) record_id) "st" w = Ok annot;
  si_subject :
    (comment ← Py.index (comments record) 0; slpdb_subject_data comment) = Ok subject
}.

(** ** A small PhysioNet directory

    Two records sampled at 250 Hz, so that a window has 7500 samples.  The
    first has stage annotations in the windows 0, 1 and 3 and a movement
    annotation after them; the second has a movement annotation only. *)
Definition slp01a : wfdb_record :=
  mk_wfdb_record (mk_time 23 7 0 0)
    [("ECG"%string, [Py.Finite 0; Py.Finite 1; Py.Finite 0]);
     ("BP"%string, [Py.Finite 80; Py.Finite 81; Py.Finite 80])]
    250 ["44 M 89 32-01-89"%string].

Definition slp01a_st : wfdb_annotation :=
  mk_wfdb_annotation [1; 7500; 22500; 23000; 30000]
    ["W"; "1"; "2 H"; "3"; "MT"]%string.

Definition slp01b : wfdb_record :=
  mk_wfdb_record (mk_time 2 13 0 0)
    [("ECG"%string, [Py.Finite 1; Py.Finite 0])] 250 ["x M x 32-01-89"%string].

Definition slp01b_st : wfdb_annotation :=
  mk_wfdb_annotation [1] ["MT"%string].

(** Annotations out of order: the stage annotation at the end of the file
    is in an earlier window than the one before it. *)
Definition out_of_order_st : wfdb_annotation :=
  mk_wfdb_annotation [1; 22500; 7500] ["W"; "2"; "1"]%string.

Definition physionet_world_example (st : wfdb_annotation) : physionet_world :=
  mk_physionet_world
    (list_to_map [("/data/slpdb/slp01a"%string, slp01a);
                  ("/data/slpdb/slp01b"%string, slp01b)])
    (list_to_map [("/data/slpdb/slp01a.st"%string, st);
                  ("/data/slpdb/slp01b.st"%string, slp01b_st)]).

Definition physionet_example : physionet :=
  {| _list_physionet := fun _ _ _ w => (Ok ["slp01a"; "slp01b"]%string, w);
     download_physionet := fun _ _ _ _ w => (Ok tt, w) |}.

Definition slpdb_frame_example (previous : option Z) : slpdb_frame :=
  mk_slpdb_frame "/data/slpdb" previous.

(** The record of the first turn in this directory. *)
Definition record_slp01a : SleepRecord :=
  mk_SleepRecord [WAKE; N1; UNDEFINED; N3] 30 "slp01a" (mk_time 23 7 0 0)
    [Py.Finite (1 # 250)]
    (mk_SubjectData (Some MALE) (Some 44) (Some (Py.Finite 89))) None.

(** ** The order of the records *)

(** The order of Python on strings, and lists that ascend in it. *)
Definition str_le (x y : string) : Prop := String.leb x y = true.

Definition ascending (l : list string) : Prop := StronglySorted str_le l.

(* ===================================================================== *)
(** * Theorems *)
(* ===================================================================== *)

(** ** Arithmetic of the epoch count *)

Lemma Qtrunc_nonneg (q : Q) : (0 <= q)%Q -> Py.Qtrunc q = Qfloor q.
Proof.
  destruct q as [n d]. unfold Qle, Py.Qtrunc, Qfloor. simpl. intros H.
  apply Z.quot_div_nonneg; lia.
Qed.

Lemma Qfloor_div_pos (q : Q) (e : Z) :
  0 < e -> Qfloor (q / inject_Z e) = Qfloor q / e.
Proof.
  intros He. destruct e as [|p|p]; try lia.
  destruct q as [n d].
  assert (E : ((n # d) / inject_Z (Z.pos p) == n # (d * p))%Q).
  { unfold Qdiv, Qinv, inject_Z, Qmult, Qeq. simpl. lia. }
  rewrite E. unfold Qfloor.
  rewrite Pos2Z.inj_mul. symmetry. apply Z.div_div; lia.
Qed.

(** [int(int(d) / e)] is [floor(d / e)] for [d >= 0] and [e > 0]. *)
Lemma truediv_floor (d : Q) (e : Z) :
  (0 <= d)%Q -> 0 < e ->
  (quotient ← Py.truediv (Py.Qtrunc d) e; Py.int_of_float quotient)
  = Ok (Qfloor (d / inject_Z e)).
Proof.
  intros Hd He. unfold Py.truediv.
  destruct (Z.eqb_spec e 0) as [->|_]; [lia|].
  unfold mbind, result_bind, Py.int_of_float. f_equal.
  rewrite (Qtrunc_nonneg d Hd).
  assert (H0 : (0 <= inject_Z (Qfloor d) / inject_Z e)%Q).
  { apply Qle_shift_div_l.
    - change 0%Q with (inject_Z 0). rewrite <- Zlt_Qlt. exact He.
    - rewrite Qmult_0_l. change 0%Q with (inject_Z 0). rewrite <- Zle_Qle.
      change 0 with (Qfloor 0). apply Qfloor_resp_le. exact Hd. }
  rewrite (Qtrunc_nonneg _ H0).
  rewrite !Qfloor_div_pos by exact He.
  now rewrite Qfloor_Z.
Qed.

(** ** The loop over the events *)

Lemma ok_value_Some {A} (r : result A) (a : A) : ok_value r = Some a -> r = Ok a.
Proof. destruct r; simpl; congruence. Qed.

(** One valid event: the parser adds what the specification lets the
    event contribute, and takes the start time from a start event. *)
Lemma stage_branch_valid (e : Z) (event : element) (start : option time)
    (acc : list SleepStage) (stage : SleepStage) (d : Q) :
  0 < e ->
  event_stage event = Some stage ->
  event_duration event = Some (Py.Finite d) -> (0 <= d)%Q ->
  (duration ← Py.float (findtext_default (Child "Duration") "" event);
   epoch_duration ← Py.int_of_float duration;
   stage ← getitem STAGE_MAPPING (findtext_default (Child "EventConcept") "" event);
   quotient ← Py.truediv epoch_duration e;
   count ← Py.int_of_float quotient;
   Ok (start, acc ++ Py.list_mul stage count))
  = Ok (start, acc ++ repeat stage (Z.to_nat (Qfloor (d / inject_Z e)))).
Proof.
  intros He Hl Hd Hpos.
  unfold event_duration in Hd. apply ok_value_Some in Hd.
  unfold event_stage in Hl. rewrite Hd.
  unfold getitem. rewrite Hl.
  pose proof (truediv_floor d e Hpos He) as Hq.
  unfold mbind, result_bind, of_option in *.
  change (Py.int_of_float (Py.Finite d)) with (Ok (Py.Qtrunc d)).
  cbv beta iota.
  destruct (Py.truediv (Py.Qtrunc d) e) as [quotient|]; [|discriminate].
  rewrite Hq. reflexivity.
Qed.

Lemma parse_event_valid (e : Z) (start : option time) (acc : list SleepStage)
    (event : element) :
  0 < e -> valid_event event ->
  parse_event e (start, acc) event
  = Ok (if decide (is_start_event event) then event_clock_time event else start,
        acc ++ event_epochs e event).
Proof.
  intros He [Hstart Hstage]. unfold parse_event, event_epochs.
  unfold is_start_event_dec, is_stage_event_dec, decide_rel.
  unfold is_start_event, is_stage_event in *.
  destruct (decide (findtext (Child "EventConcept") event
                    = Some "Recording Start Time"%string)) as [Hs|Hs];
    destruct (decide (findtext (Child "EventType") event
                      = Some "Stages|Stages"%string)) as [Hg|Hg].
  - destruct (Hstart Hs) as [t Ht]. rewrite Ht.
    destruct (Hstage Hg) as [[stage Hl] [d [Hd Hpos]]].
    rewrite Hd, Hl.
    unfold event_clock_time in Ht. apply ok_value_Some in Ht.
    unfold mbind at 1, result_bind at 1.
    unfold mbind at 1 2 3, result_bind at 1 2 3.
    unfold mbind, result_bind in Ht.
    destruct (Py.index _ 1) as [clock|]; [|discriminate].
    rewrite Ht.
    apply (stage_branch_valid e event (Some t) acc stage d); assumption.
  - destruct (Hstart Hs) as [t Ht]. rewrite Ht.
    unfold event_clock_time in Ht. apply ok_value_Some in Ht.
    unfold mbind, result_bind in *.
    destruct (Py.index _ 1) as [clock|]; [|discriminate].
    rewrite Ht. now rewrite app_nil_r.
  - destruct (Hstage Hg) as [[stage Hl] [d [Hd Hpos]]].
    rewrite Hd, Hl.
    unfold mbind at 1, result_bind at 1.
    apply (stage_branch_valid e event start acc stage d); assumption.
  - unfold mbind, result_bind. now rewrite app_nil_r.
Qed.

Lemma parse_events_valid (e : Z) (events : list element) :
  0 < e -> Forall valid_event events ->
  forall start acc,
    parse_events e events (start, acc)
    = Ok (fold_left
            (fun s event =>
               if decide (is_start_event event) then event_clock_time event else s)
            events start,
          acc ++ flat_map (event_epochs e) events).
Proof.
  intros He Hall. induction Hall as [|event events Hev _ IH]; intros start acc.
  - cbn [parse_events flat_map fold_left]. now rewrite app_nil_r.
  - cbn [parse_events flat_map fold_left].
    rewrite (parse_event_valid e start acc event He Hev).
    unfold mbind, result_bind. rewrite IH. now rewrite <- app_assoc.
Qed.

Lemma declared_start_time_Some (events : list element) :
  Forall valid_event events ->
  forall start,
    is_Some start \/ Exists is_start_event events ->
    is_Some
      (fold_left
         (fun s event =>
            if decide (is_start_event event) then event_clock_time event else s)
         events start).
Proof.
  induction 1 as [|event events [Hstart _] _ IH]; intros start [Hs|Hex].
  - exact Hs.
  - inversion Hex.
  - cbn [fold_left]. apply IH. left.
    destruct (decide (is_start_event event)); auto.
  - cbn [fold_left]. apply IH.
    destruct (decide (is_start_event event)) as [Hd|Hd].
    + left. auto.
    + right. inversion Hex; subst; [contradiction | assumption].
Qed.

(** Without a start event the loop leaves [start_time] as it was. *)
Lemma parse_event_start (e : Z) (event : element) start acc start' acc' :
  parse_event e (start, acc) event = Ok (start', acc') ->
  ~ is_start_event event -> start' = start.
Proof.
  unfold parse_event, is_start_event, decide_rel. intros H Hn.
  destruct (decide (findtext (Child "EventConcept") event
                    = Some "Recording Start Time"%string)); [contradiction|].
  unfold mbind, result_bind in H.
  repeat match type of H with
         | (if ?b then _ else _) = _ => destruct b
         | match ?x with _ => _ end = _ => destruct x; try discriminate
         end; congruence.
Qed.

Lemma parse_events_start (e : Z) (events : list element) :
  ~ Exists is_start_event events ->
  forall start acc start' acc',
    parse_events e events (start, acc) = Ok (start', acc') -> start' = start.
Proof.
  induction events as [|event events IH]; intros Hn start acc start' acc' H.
  - cbn in H. congruence.
  - cbn [parse_events] in H. unfold mbind, result_bind in H.
    destruct (parse_event e (start, acc) event) as [[s1 a1]|] eqn:E; [|discriminate].
    apply parse_event_start in E; [subst s1|].
    + eapply IH; [|exact H]. intros Hex. apply Hn. now apply Exists_cons_tl.
    + intros Hs. apply Hn. now apply Exists_cons_hd.
Qed.

(** A staging event with a label outside the table stops the loop. *)
Lemma parse_event_unknown_label (e : Z) (st : parse_state) (event : element) :
  is_stage_event event -> event_stage event = None ->
  is_error (parse_event e st event).
Proof.
  unfold parse_event, is_stage_event, event_stage, decide_rel.
  intros Hg Hl. destruct st as [start acc].
  unfold mbind, result_bind, getitem. rewrite Hl. unfold of_option.
  destruct (decide (findtext (Child "EventType") event
                    = Some "Stages|Stages"%string)); [|contradiction].
  repeat match goal with
         | |- is_error (match ?x with _ => _ end) => destruct x
         | |- is_error (if ?b then _ else _) => destruct b
         end; eexists; reflexivity.
Qed.

Lemma parse_events_unknown_label (e : Z) (events : list element) (event : element) :
  In event events -> is_stage_event event -> event_stage event = None ->
  forall st, is_error (parse_events e events st).
Proof.
  intros Hin Hg Hl. induction events as [|x events IH]; [inversion Hin|].
  intros st. cbn [parse_events]. unfold mbind, result_bind.
  destruct Hin as [->|Hin].
  - destruct (parse_event_unknown_label e st event Hg Hl) as [err ->].
    eexists; reflexivity.
  - destruct (parse_event e st x); [apply IH; exact Hin | eexists; reflexivity].
Qed.

(** ** The parser on a whole document *)

Lemma parse_root_valid (xml_filepath : string) (root : element) (e : Z)
    (rd : Py.pyfloat) :
  valid_annotation root e rd ->
  exists start,
    declared_start_time (events_of root) = Some start /\
    parse_root xml_filepath root
    = Ok (mk_ParseNsrrXmlResult
            (flat_map (event_epochs e) (events_of root)) e start rd).
Proof.
  intros [[s [Hs Hint]] Hpos [sd [Hsd Hfloat]] Hse Hall Hex].
  destruct (declared_start_time_Some (events_of root) Hall None (or_intror Hex))
    as [start Hstart].
  exists start. split; [exact Hstart|].
  unfold parse_root. rewrite Hs. unfold mbind at 1, result_bind at 1.
  rewrite Hint. unfold recording_duration_field in Hsd.
  destruct (find (Descendant "ScoredEvent") root) as [scored_event|]; [|discriminate].
  unfold findtext_default. rewrite Hsd. cbn [default from_option]; unfold Datatypes.id.
  rewrite Hfloat. unfold mbind at 1, result_bind at 1.
  unfold events_of in *.
  destruct (findall (Child "ScoredEvents") root) as [|scored_events rest];
    [contradiction|].
  cbn [Py.index nth_error of_option]. unfold mbind at 1, result_bind at 1.
  rewrite (parse_events_valid e _ Hpos Hall None []).
  unfold mbind, result_bind. cbn [app].
  unfold declared_start_time in Hstart. rewrite Hstart. reflexivity.
Qed.

Lemma parse_root_no_epoch_length (xml_filepath : string) (root : element) :
  findtext (Child "EpochLength") root = None ->
  parse_root xml_filepath root
  = Raise (RuntimeError ("EpochLength not found in " +:+ xml_filepath +:+ ".")).
Proof. intros H. unfold parse_root. now rewrite H. Qed.

Lemma parse_root_no_recording_duration (xml_filepath : string) (root : element) :
  recording_duration_field root = None ->
  is_error (parse_root xml_filepath root).
Proof.
  intros H. unfold parse_root, recording_duration_field in *.
  destruct (findtext (Child "EpochLength") root); [|eexists; reflexivity].
  unfold mbind at 1, result_bind at 1.
  destruct (Py.int s); [|eexists; reflexivity].
  destruct (find (Descendant "ScoredEvent") root); [|eexists; reflexivity].
  unfold findtext_default. rewrite H. cbn [default from_option]; unfold Datatypes.id.
  eexists. reflexivity.
Qed.

Lemma parse_root_no_start (xml_filepath : string) (root : element) :
  ~ Exists is_start_event (events_of root) ->
  is_error (parse_root xml_filepath root).
Proof.
  intros Hn. unfold parse_root, events_of in *.
  destruct (findtext (Child "EpochLength") root); [|eexists; reflexivity].
  unfold mbind at 1, result_bind at 1.
  destruct (Py.int s) as [e|]; [|eexists; reflexivity].
  destruct (find (Descendant "ScoredEvent") root); [|eexists; reflexivity].
  unfold mbind at 1, result_bind at 1.
  destruct (Py.float _); [|eexists; reflexivity].
  destruct (findall (Child "ScoredEvents") root) as [|scored_events rest];
    [eexists; reflexivity|].
  cbn [Py.index nth_error of_option]. unfold mbind at 1, result_bind at 1.
  unfold mbind, result_bind.
  destruct (parse_events e (children_of scored_events) (None, []))
    as [[start acc]|] eqn:E; [|eexists; reflexivity].
  apply parse_events_start in E; [|exact Hn]. subst start.
  eexists; reflexivity.
Qed.

Lemma parse_root_unknown_label (xml_filepath : string) (root event : element) :
  In event (events_of root) -> is_stage_event event -> event_stage event = None ->
  is_error (parse_root xml_filepath root).
Proof.
  intros Hin Hg Hl. unfold parse_root, events_of in *.
  destruct (findtext (Child "EpochLength") root); [|eexists; reflexivity].
  unfold mbind at 1, result_bind at 1.
  destruct (Py.int s) as [e|]; [|eexists; reflexivity].
  destruct (find (Descendant "ScoredEvent") root); [|eexists; reflexivity].
  unfold mbind at 1, result_bind at 1.
  destruct (Py.float _); [|eexists; reflexivity].
  destruct (findall (Child "ScoredEvents") root) as [|scored_events rest];
    [inversion Hin|].
  cbn [Py.index nth_error of_option]. unfold mbind at 1, result_bind at 1.
  unfold mbind, result_bind.
  destruct (parse_events_unknown_label e _ event Hin Hg Hl (None, [])) as [err ->].
  eexists; reflexivity.
Qed.

Lemma flat_map_staging (e : Z) (events : list element) :
  flat_map (event_epochs e) events
  = flat_map (event_epochs e)
      (List.filter (fun event => bool_decide (is_stage_event event)) events).
Proof.
  induction events as [|event events IH]; [reflexivity|].
  cbn [flat_map List.filter]. rewrite IH.
  destruct (bool_decide_reflect (is_stage_event event)) as [H|H].
  - reflexivity.
  - unfold event_epochs at 1. destruct (decide (is_stage_event event)); [contradiction|].
    reflexivity.
Qed.

Lemma scenario_1_valid : valid_annotation scenario_1 30 (Py.Finite 120).
Proof.
  constructor.
  - exists "30"%string. split; reflexivity.
  - lia.
  - exists "120.0"%string. split; [reflexivity | vm_compute; reflexivity].
  - discriminate.
  - constructor; [|constructor; [|constructor]].
    + split.
      * intros _. vm_compute. eexists; reflexivity.
      * intros H. vm_compute in H. discriminate.
    + split.
      * intros H. vm_compute in H. discriminate.
      * intros _. split.
        -- vm_compute. eexists; reflexivity.
        -- exists 60%Q. split; [vm_compute; reflexivity | discriminate].
  - apply Exists_cons_hd. reflexivity.
Qed.





(** ** The rounding of the end time *)

Lemma second_of_range (d : datetime.datetime) :
  0 <= datetime.second_of d < 60.
Proof. unfold datetime.second_of. apply Z.mod_pos_bound. lia. Qed.

Lemma second_of_shift (d : datetime.datetime) (n : Z) :
  datetime.second_of (d + datetime.timedelta_of_int n)
  = (datetime.second_of d + n) mod 60.
Proof.
  unfold datetime.second_of, datetime.timedelta_of_int.
  rewrite Z.div_add by lia. now rewrite Zplus_mod_idemp_l.
Qed.

(** C8. The end time is moved by its seconds component to a 30-second
    boundary: forward (by [30 - s mod 30] seconds) exactly when
    [s mod 30 >= 15], backward (by [s mod 30] seconds) otherwise, by at most
    15 seconds, and the seconds component of the result is a multiple of
    30. *)
Theorem end_time_rounding (recording_end_time : datetime.datetime) :
  let s := datetime.second_of recording_end_time in
  let rounded := rounded_end_time recording_end_time in
  (15 <= s mod 30 <-> recording_end_time < rounded) /\
  (15 <= s mod 30 -> rounding_seconds s = 30 - s mod 30) /\
  (s mod 30 < 15 -> rounding_seconds s = - (s mod 30)) /\
  Z.abs (rounding_seconds s) <= 15 /\
  rounded = recording_end_time + rounding_seconds s * 1000000 /\
  datetime.second_of rounded mod 30 = 0 /\
  (datetime.second_of rounded = 0 \/ datetime.second_of rounded = 30).
Proof.
  intros s rounded.
  pose proof (second_of_range recording_end_time) as Hs. fold s in Hs.
  assert (Hr : rounded = recording_end_time + rounding_seconds s * 1000000)
    by reflexivity.
  assert (Hsec : datetime.second_of rounded = (s + rounding_seconds s) mod 60).
  { unfold rounded, rounded_end_time. now rewrite second_of_shift. }
  pose proof (Z.mod_pos_bound s 30 ltac:(lia)) as Hm.
  unfold rounding_seconds in *.
  destruct (Z.geb_spec (s mod 30) 15) as [Hge|Hlt].
  - assert (Hcases : s + (30 - s mod 30) = 30 \/ s + (30 - s mod 30) = 60).
    { pose proof (Z.div_mod s 30 ltac:(lia)).
      assert (s / 30 = 0 \/ s / 30 = 1) as [H0|H0]
        by (assert (0 <= s / 30 < 2)
              by (split; [apply Z.div_pos; lia | apply Z.div_lt_upper_bound; lia]);
            lia); lia. }
    repeat split; try lia.
    + rewrite Hsec. destruct Hcases as [-> | ->]; reflexivity.
    + rewrite Hsec. destruct Hcases as [-> | ->]; [right | left]; reflexivity.
  - assert (Hcases : s + - (s mod 30) = 0 \/ s + - (s mod 30) = 30).
    { pose proof (Z.div_mod s 30 ltac:(lia)).
      assert (s / 30 = 0 \/ s / 30 = 1) as [H0|H0]
        by (assert (0 <= s / 30 < 2)
              by (split; [apply Z.div_pos; lia | apply Z.div_lt_upper_bound; lia]);
            lia); lia. }
    repeat split; try lia.
    + rewrite Hsec. destruct Hcases as [-> | ->]; reflexivity.
    + rewrite Hsec. destruct Hcases as [-> | ->]; [left | right]; reflexivity.
Qed.

Lemma end_time_rounding_witness :
  rounded_end_time (datetime.combine_today (mk_time 22 17 7 0))
  = datetime.combine_today (mk_time 22 17 0 0) /\
  rounded_end_time (datetime.combine_today (mk_time 22 17 45 0))
  = datetime.combine_today (mk_time 22 18 0 0).
Proof.
  split.
  - destruct (end_time_rounding (datetime.combine_today (mk_time 22 17 7 0)))
      as (_ & _ & Hdown & _ & Hr & _).
    rewrite Hr, Hdown; [reflexivity | vm_compute; reflexivity].
  - destruct (end_time_rounding (datetime.combine_today (mk_time 22 17 45 0)))
      as (_ & Hup & _ & _ & Hr & _).
    rewrite Hr, Hup; [reflexivity | vm_compute; discriminate].
Defined.

(** ** The reconciliation of the lengths *)

Lemma map_result_length {A B} (f : A -> result B) (l : list A) (l' : list B) :
  map_result f l = Ok l' -> length l' = length l.
Proof.
  revert l'. induction l as [|x l IH]; intros l' H.
  - cbn in H. injection H as <-. reflexivity.
  - cbn [map_result] in H. unfold mbind, result_bind in H.
    destruct (f x); [|discriminate].
    destruct (map_result f l) as [ys|]; [|discriminate].
    injection H as <-. cbn [length]. f_equal. now apply IH.
Qed.

Lemma counts_to_float_length (counts : list string) (floats : list Py.pyfloat) :
  counts_to_float counts = Ok floats -> length floats = length counts.
Proof.
  unfold counts_to_float. intros H. apply map_result_length in H.
  now rewrite length_map in H.
Qed.




(** ** Subject data *)

(** The counterexample to C6 as stated: MESA looks the gender code up with
    [GENDER_MAPPING[gender]], so a code outside the table raises [KeyError]
    instead of giving [None]; and SHHS converts every non-blank age, so the
    marker "x" raises [ValueError] instead of giving [None]. *)
Lemma subject_fields_raise :
  mesa_subject_row (1, 2, 70) = Raise (KeyError "2") /\
  shhs1_subject_row (shhs1_row_example "200001" "1" "x" "")
  = Raise (ValueError "invalid literal for int()").
Proof. split; vm_compute; reflexivity. Qed.

Lemma shhs_gender_unmapped (code : string) :
  code <> "1"%string -> code <> "2"%string -> shhs_gender (Some code) = None.
Proof.
  intros H1 H2. unfold shhs_gender, SHHS.GENDER_MAPPING.
  rewrite lookup_insert_ne by congruence.
  apply lookup_singleton_ne. congruence.
Qed.

(** C6, amended.  In [read_shhs] a gender code outside the table resolves
    to [None] and a blank age or weight resolves to [None], whatever the
    other fields hold; in [read_slpdb] an age or weight given as "x"
    resolves to [None]; and in neither reader does a blank or "x" field
    resolve to zero. *)
Theorem subject_fields_absent :
  (forall code, code <> "1"%string -> code <> "2"%string ->
     shhs_gender (Some code) = None) /\
  shhs_age (Some EmptyString) = Ok None /\
  shhs_weight (Some EmptyString) = Ok None /\
  (forall row nsrrid code age_s1 weight_str,
     row !! "nsrrid"%string = Some nsrrid ->
     row !! "gender"%string = Some code ->
     row !! "age_s1"%string = Some age_s1 ->
     row !! "weight"%string = Some weight_str ->
     forall age_value weight_value,
       shhs_age age_s1 = Ok age_value ->
       shhs_weight weight_str = Ok weight_value ->
       shhs1_subject_row row
       = Ok ("shhs1-" +:+ repr_option nsrrid,
             mk_SubjectData (shhs_gender code) age_value weight_value)) /\
  (forall row nsrrid code age_s2,
     row !! "nsrrid"%string = Some nsrrid ->
     row !! "gender"%string = Some code ->
     row !! "age_s2"%string = Some age_s2 ->
     forall age_value,
       shhs_age age_s2 = Ok age_value ->
       shhs2_subject_row row
       = Ok ("shhs2-" +:+ repr_option nsrrid,
             mk_SubjectData (shhs_gender code) age_value None)) /\
  (forall comment age_str g weight_str u,
     Py.split comment = [age_str; g; weight_str; u] ->
     forall sd, slpdb_subject_data comment = Ok sd ->
       (age_str = "x"%string -> age sd = None) /\
       (weight_str = "x"%string -> weight sd = None)) /\
  (forall comment g u,
     Py.split comment = ["x"%string; g; "x"%string; u] ->
     slpdb_subject_data comment = Ok (mk_SubjectData (Some MALE) None None)) /\
  (forall x, x = EmptyString \/ x = "x"%string ->
     shhs_age (Some x) <> Ok (Some 0) /\
     (forall w, shhs_weight (Some x) <> Ok (Some w))).
Proof.
  split; [exact shhs_gender_unmapped|].
  split; [reflexivity|]. split; [reflexivity|].
  split; [|split; [|split; [|split]]].
  - intros row nsrrid code age_s1 weight_str Hn Hg Ha Hw age_value weight_value
      Hage Hweight.
    unfold shhs1_subject_row, field. rewrite Hn, Hg, Ha, Hw. cbn [of_option].
    unfold mbind, result_bind. now rewrite Hage, Hweight.
  - intros row nsrrid code age_s2 Hn Hg Ha age_value Hage.
    unfold shhs2_subject_row, field. rewrite Hn, Hg, Ha. cbn [of_option].
    unfold mbind, result_bind. now rewrite Hage.
  - intros comment age_str g weight_str u Hsplit sd.
    unfold slpdb_subject_data. rewrite Hsplit. unfold mbind, result_bind.
    intros H. split; intros ->.
    + cbn in H. destruct (if String.eqb weight_str "x" then _ else _);
        [|discriminate]. injection H as <-. reflexivity.
    + destruct (if String.eqb age_str "x" then _ else _); [|discriminate].
      cbn in H. injection H as <-. reflexivity.
  - intros comment g u Hsplit. unfold slpdb_subject_data. rewrite Hsplit.
    reflexivity.
  - intros x [-> | ->]; split; try discriminate; intros w; discriminate.
Qed.

Lemma subject_fields_absent_witness :
  shhs_gender (Some "3"%string) = None /\
  shhs1_subject_row (shhs1_row_example "200001" "3" "" "")
  = Ok ("shhs1-200001"%string, mk_SubjectData None None None) /\
  shhs2_subject_row (shhs2_row_example "200002" "2" "")
  = Ok ("shhs2-200002"%string, mk_SubjectData (Some FEMALE) None None) /\
  slpdb_subject_data "x M x 32-01-89"
  = Ok (mk_SubjectData (Some MALE) None None) /\
  shhs_age (Some "x"%string) <> Ok (Some 0).
Proof.
  pose proof subject_fields_absent as [Hg [_ [_ [H1 [H2 [_ [Hx Hz]]]]]]].
  split; [|split; [|split; [|split]]].
  - apply Hg; discriminate.
  - apply (H1 _ (Some "200001"%string) (Some "3"%string) (Some EmptyString)
             (Some EmptyString)); reflexivity.
  - apply (H2 _ (Some "200002"%string) (Some "2"%string) (Some EmptyString));
      reflexivity.
  - apply (Hx _ "M"%string "32-01-89"%string). reflexivity.
  - apply (Hz "x"%string). now right.
Defined.

(** ** The monad *)

Lemma bind_Normal {A B} (m : M A) (f : A -> M B) (w w1 : world) (a : A) :
  m w = (Normal a, w1) -> bind m f w = f a w1.
Proof. unfold bind. now intros ->. Qed.

Lemma bind_Raised {A B} (m : M A) (f : A -> M B) (w w1 : world) (e : exn) :
  m w = (Raised e, w1) -> bind m f w = (Raised e, w1).
Proof. unfold bind. now intros ->. Qed.

Lemma bind_Continued {A B} (m : M A) (f : A -> M B) (w w1 : world) :
  m w = (Continued, w1) -> bind m f w = (Continued, w1).
Proof. unfold bind. now intros ->. Qed.

(** ** Calling a reader *)

(** The counterexample to C3 as stated: with an invalid [heartbeats_source]
    the call of [read_mesa] raises nothing and returns a generator; the
    [ValueError] comes out of the first [next] on it. *)
Lemma invalid_source_call_returns :
  exists g,
    read_mesa (offline_args "bogus") None = Ok g /\
    mesa_next collaborators_example g mesa_world_example
    = (Failed (invalid_heartbeats_source "bogus"), Finished, mesa_world_example).
Proof. eexists. split; reflexivity. Qed.

(** C3, amended.  For every invalid value of [heartbeats_source] the call
    of [read_mesa] or [read_shhs] returns a generator without running its
    body, and the first [next] on that generator raises the configuration
    error, before any record is yielded and with the world untouched; the
    same holds for an invalid [activity_source] of [read_mesa]. *)
Theorem invalid_source_raises_at_first_next (c : collaborators)
    (a : reader_args) (activity_source : option string) (w : world) :
  (heartbeats_source a ∉ heartbeats_source_options ->
   read_mesa a activity_source = Ok (Created (a, activity_source)) /\
   mesa_next c (Created (a, activity_source)) w
   = (Failed (invalid_heartbeats_source (heartbeats_source a)), Finished, w) /\
   read_shhs a = Ok (Created a) /\
   shhs_next c (Created a) w
   = (Failed (invalid_heartbeats_source (heartbeats_source a)), Finished, w)) /\
  (heartbeats_source a ∈ heartbeats_source_options ->
   activity_source ∉ MESA.activity_source_options ->
   read_mesa a activity_source = Ok (Created (a, activity_source)) /\
   mesa_next c (Created (a, activity_source)) w
   = (Failed (invalid_activity_source activity_source), Finished, w)).
Proof.
  split.
  - intros Hbad. repeat split.
    + unfold mesa_next, next, mesa_prelude.
      rewrite (bool_decide_eq_false_2 _ Hbad). reflexivity.
    + unfold shhs_next, next, shhs_prelude.
      rewrite (bool_decide_eq_false_2 _ Hbad). reflexivity.
  - intros Hok Hbad. split; [reflexivity|].
    unfold mesa_next, next, mesa_prelude.
    rewrite (bool_decide_eq_true_2 _ Hok), (bool_decide_eq_false_2 _ Hbad).
    reflexivity.
Qed.

Lemma invalid_source_raises_at_first_next_witness :
  (read_shhs (offline_args "rpoints") = Ok (Created (offline_args "rpoints")) /\
   shhs_next collaborators_example (Created (offline_args "rpoints"))
     shhs_world_example
   = (Failed (invalid_heartbeats_source "rpoints"), Finished, shhs_world_example)) /\
  mesa_next collaborators_example
    (Created (offline_args "ecg", Some "actiwatch"%string)) mesa_world_example
  = (Failed (invalid_activity_source (Some "actiwatch"%string)), Finished,
     mesa_world_example).
Proof.
  split.
  - destruct (proj1 (invalid_source_raises_at_first_next collaborators_example
                       (offline_args "rpoints") None shhs_world_example))
      as [_ [_ [H1 H2]]].
    + apply (bool_decide_eq_false_1 _). reflexivity.
    + split; assumption.
  - apply (proj2 (invalid_source_raises_at_first_next collaborators_example
                    (offline_args "ecg") (Some "actiwatch"%string)
                    mesa_world_example)).
    + apply (bool_decide_eq_true_1 _). reflexivity.
    + apply (bool_decide_eq_false_1 _). reflexivity.
Defined.

(** ** Per-record failures *)

Section Loop.

Context {A F : Type}.
Variable prelude : A -> M (F * list string).
Variable body : F -> string -> M SleepRecord.

(** A turn of the loop that takes [continue] goes on with the next id. *)
Lemma resume_Continued (frame : F) (record_id : string) (rest : list string)
    (w w' : world) :
  body frame record_id w = (Continued, w') ->
  resume (A := A) body frame (record_id :: rest) w
  = resume (A := A) body frame rest w'.
Proof. intros H. cbn [resume]. now rewrite H. Qed.

(** A turn of the loop that raises finishes the generator. *)
Lemma resume_Raised (frame : F) (record_id : string) (rest : list string)
    (w w' : world) (e : exn) :
  body frame record_id w = (Raised e, w') ->
  resume (A := A) body frame (record_id :: rest) w = (Failed e, Finished, w').
Proof. intros H. cbn [resume]. now rewrite H. Qed.

Lemma resume_Normal (frame : F) (record_id : string) (rest : list string)
    (w w' : world) (record : SleepRecord) :
  body frame record_id w = (Normal record, w') ->
  resume (A := A) body frame (record_id :: rest) w
  = (Yielded record, Suspended frame rest, w').
Proof. intros H. cbn [resume]. now rewrite H. Qed.

(** Once finished, a generator only stops. *)
Lemma next_Finished (w : world) :
  next prelude body Finished w = (Stopped, Finished, w).
Proof. reflexivity. Qed.

End Loop.

Lemma mesa_missing_rpoints (c : collaborators) (L : mesa_frame)
    (record_id : string) (w : world) :
  heartbeats_source (m_args L) = "annotation"%string ->
  files w !! mesa_rpoints_filepath L record_id = None ->
  offline (m_args L) = true \/
    m_checksums L !! (MESA.RPOINTS_DIRNAME +:+ "/" +:+ record_id +:+ "-rpoint.csv") = None ->
  mesa_heartbeats c L record_id w
  = (Continued,
     logged w ("Skipping " +:+ record_id +:+ " due to missing heartbeat annotations.")).
Proof.
  intros Hsrc Hfile Hoff. unfold mesa_heartbeats. rewrite Hsrc.
  rewrite String.eqb_refl. unfold mesa_rpoints_filepath in Hfile.
  unfold bind at 1, is_file. cbv beta. rewrite Hfile.
  replace (bool_decide (is_Some (@None file))) with false
    by (symmetry; apply bool_decide_eq_false; intros [? ?]; discriminate).
  cbn [negb when].
  assert (Hb : negb (offline (m_args L))
               && bool_decide (is_Some (m_checksums L !!
                    (MESA.RPOINTS_DIRNAME +:+ "/" +:+ record_id +:+ "-rpoint.csv")))
               = false).
  { destruct Hoff as [-> | ->]; [reflexivity|].
    rewrite andb_false_r. reflexivity. }
  rewrite Hb. reflexivity.
Qed.

Lemma bool_decide_is_Some_None {A} :
  bool_decide (is_Some (@None A)) = false.
Proof. apply bool_decide_eq_false. intros [? ?]; discriminate. Qed.

Lemma bool_decide_is_Some_Some {A} (a : A) :
  bool_decide (is_Some (Some a)) = true.
Proof. apply bool_decide_eq_true. eexists; reflexivity. Qed.

Lemma mesa_missing_cache (c : collaborators) (L : mesa_frame)
    (record_id : string) (w : world) :
  heartbeats_source (m_args L) = "cached"%string ->
  files w !! mesa_heartbeats_file L record_id = None ->
  mesa_heartbeats c L record_id w
  = (Continued,
     logged w ("Skipping " +:+ record_id +:+ " due to missing cached heartbeats.")).
Proof.
  intros Hsrc Hfile. unfold mesa_heartbeats. rewrite Hsrc.
  change (String.eqb "cached" "annotation") with false.
  rewrite String.eqb_refl. unfold mesa_heartbeats_file in Hfile.
  unfold bind at 1, is_file. cbv beta iota. rewrite Hfile.
  rewrite bool_decide_is_Some_None. reflexivity.
Qed.

Lemma shhs_missing_rpoints (c : collaborators) (L : shhs_frame)
    (record_id : string) (w : world) :
  heartbeats_source (s_args L) = "annotation"%string ->
  files w !! shhs_rpoints_filepath L record_id = None ->
  offline (s_args L) = true \/
    s_checksums L !! (SHHS.RPOINTS_DIRNAME +:+ "/" +:+ record_id +:+ "-rpoint.csv") = None ->
  shhs_heartbeats c L record_id w
  = (Continued,
     logged w ("Skipping " +:+ record_id +:+ " due to missing heartbeat annotations.")).
Proof.
  intros Hsrc Hfile Hoff. unfold shhs_heartbeats. rewrite Hsrc.
  rewrite String.eqb_refl. unfold shhs_rpoints_filepath in Hfile.
  unfold bind at 1, is_file. cbv beta. rewrite Hfile.
  rewrite bool_decide_is_Some_None. cbn [negb when].
  assert (Hb : negb (offline (s_args L))
               && bool_decide (is_Some (s_checksums L !!
                    (SHHS.RPOINTS_DIRNAME +:+ "/" +:+ record_id +:+ "-rpoint.csv")))
               = false).
  { destruct Hoff as [-> | ->]; [reflexivity|].
    rewrite bool_decide_is_Some_None. apply andb_false_r. }
  rewrite Hb. reflexivity.
Qed.

Lemma shhs_missing_cache (c : collaborators) (L : shhs_frame)
    (record_id : string) (w : world) :
  heartbeats_source (s_args L) = "cached"%string ->
  files w !! shhs_heartbeats_file L record_id = None ->
  shhs_heartbeats c L record_id w
  = (Continued,
     logged w ("Skipping " +:+ record_id +:+ " due to missing cached heartbeats.")).
Proof.
  intros Hsrc Hfile. unfold shhs_heartbeats. rewrite Hsrc.
  change (String.eqb "cached" "annotation") with false.
  rewrite String.eqb_refl. unfold shhs_heartbeats_file in Hfile.
  unfold bind at 1, is_file. cbv beta iota. rewrite Hfile.
  rewrite bool_decide_is_Some_None. reflexivity.
Qed.

Lemma mesa_missing_cached_activity (c : collaborators) (L : mesa_frame)
    (record_id : string) (parsed_xml : _ParseNsrrXmlResult) (w : world) :
  m_activity_source L = Some "cached"%string ->
  files w !! mesa_activity_counts_file L record_id = None ->
  mesa_activity c L record_id parsed_xml w
  = (Continued,
     logged w ("Skipping " +:+ record_id +:+ " due to missing cached activity counts.")).
Proof.
  intros Hsrc Hfile. unfold mesa_activity. rewrite Hsrc.
  rewrite String.eqb_refl. unfold mesa_activity_counts_file in Hfile.
  unfold bind at 1, is_file. cbv beta. rewrite Hfile.
  rewrite bool_decide_is_Some_None. reflexivity.
Qed.

(** Offline, a file that is there but structurally invalid makes the
    annotation step raise the parser's error. *)
Lemma read_annotation_invalid (c : collaborators) (a : reader_args)
    (db_dir download_url : string) (checksums : gmap string string)
    (xml_filename : string) (w : world) (root : element) (e : exn) :
  offline a = true ->
  files w !! path_join db_dir xml_filename = Some (Xml (Document root)) ->
  parse_root (path_join db_dir xml_filename) root = Raise e ->
  read_annotation c a db_dir download_url checksums xml_filename w = (Raised e, w).
Proof.
  intros Hoff Hfile Hparse. unfold read_annotation. rewrite Hoff.
  cbn [negb when]. unfold bind, ret, xml_at. rewrite Hfile.
  cbn [_parse_nsrr_xml]. rewrite Hparse. reflexivity.
Qed.

Lemma mesa_body_phases (c : collaborators) (L : mesa_frame) (record_id : string) :
  mesa_body c L record_id
  = (heartbeat_times <- mesa_heartbeats c L record_id;;
     parsed_xml <- mesa_annotation c L record_id;;
     activity_counts <- mesa_activity c L record_id parsed_xml;;
     heartbeat_times <- bound "heartbeat_times" heartbeat_times;;
     subject <- lift (getitem (m_subject_data L) record_id);;
     ret (mk_SleepRecord
            (px_sleep_stages parsed_xml) (px_sleep_stage_duration parsed_xml)
            record_id (px_recording_start_time parsed_xml)
            heartbeat_times subject activity_counts))%py.
Proof. reflexivity. Qed.

Lemma shhs_body_phases (c : collaborators) (L : shhs_frame) (record_id : string) :
  shhs_body c L record_id
  = (heartbeat_times <- shhs_heartbeats c L record_id;;
     parsed_xml <- shhs_annotation c L record_id;;
     heartbeat_times <- bound "heartbeat_times" heartbeat_times;;
     subject <- lift (getitem (s_subject_data L) (str_slice (Some 6) None record_id));;
     ret (mk_SleepRecord
            (px_sleep_stages parsed_xml) (px_sleep_stage_duration parsed_xml)
            (str_slice (Some 6) None record_id) (px_recording_start_time parsed_xml)
            heartbeat_times subject None))%py.
Proof. reflexivity. Qed.

(** Offline, with the overlap entry and the actigraphy file at hand, the
    actigraphy block of [read_mesa] is the alignment on the rows of the
    file: a skip is a [continue] with its message, and the counts it
    returns are saved before they are handed on. *)
Lemma mesa_actigraphy_offline (c : collaborators) (L : mesa_frame)
    (record_id : string) (parsed_xml : _ParseNsrrXmlResult) (file : string)
    (w : world) (id_part : string) (mesaid overlap_line : Z)
    (header : list string) (rows : list (list string))
    (recording_end_time : datetime.datetime) :
  offline (m_args L) = true ->
  Py.index (Py.split_on "-" record_id) 2 = Ok id_part ->
  Py.int id_part = Ok mesaid ->
  m_overlap_data L !! mesaid = Some overlap_line ->
  files w !! mesa_activity_filepath L record_id = Some (Csv (header :: rows)) ->
  end_time (px_recording_start_time parsed_xml) (px_recording_duration parsed_xml)
  = Ok recording_end_time ->
  mesa_actigraphy c L record_id parsed_xml file w
  = match align record_id (map (dict_zip header) rows)
            (end_time_label recording_end_time) (overlap_line + 1)
            (length (px_sleep_stages parsed_xml)) with
    | Raise e => (Raised e, w)
    | Ok (inl line) => (Continued, logged w line)
    | Ok (inr counts) =>
        (Normal counts, mk_world (<[file := Npy counts]> (files w)) (stdout w))
    end.
Proof.
  intros Hoff Hid Hint Hover Hfile Hend.
  unfold mesa_actigraphy, mesa_activity_filepath in *.
  rewrite Hoff, Hid. cbn [lift negb when].
  unfold bind at 1. unfold ret at 1. rewrite Hint. cbn [lift].
  unfold bind at 1. unfold ret at 1. rewrite Hover.
  rewrite bool_decide_is_Some_Some. cbn [negb when of_option lift].
  unfold bind at 1. unfold ret at 1.
  unfold bind at 1. unfold ret at 1.
  unfold bind at 1. unfold is_file at 1. rewrite Hfile.
  rewrite bool_decide_is_Some_Some. cbn [negb when].
  unfold bind at 1. unfold ret at 1.
  unfold bind at 1. unfold csv_rows, read_file, bind at 1. rewrite Hfile.
  unfold ret at 1. unfold bind at 1. unfold ret at 1.
  rewrite Hend. cbn [lift tail]. unfold bind at 1. unfold ret at 1.
  unfold bind at 1. unfold ret at 1.
  unfold align, end_time_label.
  destruct (find_end_line _ _) as [[end_line|]|e]; cbn [lift mbind result_bind];
    unfold mbind, result_bind.
  - unfold bind at 1. unfold ret at 1. unfold bind at 1. unfold ret at 1.
    destruct (map_result _ _) as [candidate|e]; cbn [lift]; [|reflexivity].
    unfold bind at 1. unfold ret at 1.
    destruct (reconcile candidate _) as [counts|]; [|reflexivity].
    unfold bind at 1. unfold ret at 1.
    destruct (counts_to_float counts) as [floats|e]; [|reflexivity].
    reflexivity.
  - reflexivity.
  - reflexivity.
Qed.

Lemma mesa_body_skip_heartbeats (c : collaborators) (L : mesa_frame)
    (record_id : string) (w w' : world) :
  mesa_heartbeats c L record_id w = (Continued, w') ->
  mesa_body c L record_id w = (Continued, w').
Proof. intros H. rewrite mesa_body_phases. now apply bind_Continued. Qed.

Lemma mesa_body_skip_activity (c : collaborators) (L : mesa_frame)
    (record_id : string) (w w1 w2 w3 : world) hb parsed_xml :
  mesa_heartbeats c L record_id w = (Normal hb, w1) ->
  mesa_annotation c L record_id w1 = (Normal parsed_xml, w2) ->
  mesa_activity c L record_id parsed_xml w2 = (Continued, w3) ->
  mesa_body c L record_id w = (Continued, w3).
Proof.
  intros H1 H2 H3. rewrite mesa_body_phases.
  rewrite (bind_Normal _ _ _ _ _ H1), (bind_Normal _ _ _ _ _ H2).
  now apply bind_Continued.
Qed.

Lemma mesa_body_raise_annotation (c : collaborators) (L : mesa_frame)
    (record_id : string) (w w1 w2 : world) hb (e : exn) :
  mesa_heartbeats c L record_id w = (Normal hb, w1) ->
  mesa_annotation c L record_id w1 = (Raised e, w2) ->
  mesa_body c L record_id w = (Raised e, w2).
Proof.
  intros H1 H2. rewrite mesa_body_phases.
  rewrite (bind_Normal _ _ _ _ _ H1). now apply bind_Raised.
Qed.

Lemma shhs_body_skip_heartbeats (c : collaborators) (L : shhs_frame)
    (record_id : string) (w w' : world) :
  shhs_heartbeats c L record_id w = (Continued, w') ->
  shhs_body c L record_id w = (Continued, w').
Proof. intros H. rewrite shhs_body_phases. now apply bind_Continued. Qed.

Lemma shhs_body_raise_annotation (c : collaborators) (L : shhs_frame)
    (record_id : string) (w w1 w2 : world) hb (e : exn) :
  shhs_heartbeats c L record_id w = (Normal hb, w1) ->
  shhs_annotation c L record_id w1 = (Raised e, w2) ->
  shhs_body c L record_id w = (Raised e, w2).
Proof.
  intros H1 H2. rewrite shhs_body_phases.
  rewrite (bind_Normal _ _ _ _ _ H1). now apply bind_Raised.
Qed.



Example mesa_prelude_example :
  mesa_prelude collaborators_example (offline_args "annotation", None)
    mesa_world_example
  = (Normal (mesa_frame_example "annotation" None ∅,
             ["mesa-sleep-0001"; "mesa-sleep-0002"]%string),
     mesa_world_example).
Proof. vm_compute. reflexivity. Qed.

Example mesa_prelude_actigraphy_example :
  mesa_prelude collaborators_example
    (offline_args "annotation", Some "actigraphy"%string)
    (mesa_activity_world "-1" scenario_1)
  = (Normal (mesa_frame_example "annotation" (Some "actigraphy"%string)
               {[ 2 := -1 ]},
             ["mesa-sleep-0002"%string]),
     mesa_activity_world "-1" scenario_1).
Proof. vm_compute. reflexivity. Qed.

Example shhs_prelude_example :
  shhs_prelude collaborators_example (offline_args "cached") shhs_world_example
  = (Normal (shhs_frame_example "cached", ["shhs1/shhs1-200001"%string]),
     shhs_world_example).
Proof. vm_compute. reflexivity. Qed.


(** ** Sorting *)

Lemma sort_leb_total (x y : Py.pyfloat) :
  np.sort_leb x y = false -> np.sort_leb y x = true.
Proof.
  destruct x as [a|[]|], y as [b|[]|]; cbn; try congruence.
  intros H. apply Qle_bool_iff. apply Qlt_le_weak. apply Qnot_le_lt.
  intros Hle. apply Qle_bool_iff in Hle. congruence.
Qed.

Lemma sort_le_trans (x y z : Py.pyfloat) :
  sort_le x y -> sort_le y z -> sort_le x z.
Proof.
  unfold sort_le.
  destruct x as [a|[]|], y as [b|[]|], z as [d|[]|]; cbn; try congruence.
  rewrite !Qle_bool_iff. apply Qle_trans.
Qed.

Lemma insert_Forall (P : Py.pyfloat -> Prop) (x : Py.pyfloat) (l : list Py.pyfloat) :
  P x -> Forall P l -> Forall P (np.insert x l).
Proof.
  intros Hx. induction 1 as [|y l Hy Hl IH]; cbn [np.insert].
  - now constructor.
  - destruct (np.sort_leb x y); repeat constructor; assumption.
Qed.

Lemma insert_sorted (x : Py.pyfloat) (l : list Py.pyfloat) :
  in_sort_order l -> in_sort_order (np.insert x l).
Proof.
  unfold in_sort_order. induction 1 as [|y l Hs IH Hall]; cbn [np.insert].
  - repeat constructor.
  - destruct (np.sort_leb x y) eqn:E.
    + constructor; [now constructor|].
      constructor; [exact E|].
      eapply Forall_impl; [exact Hall|]. intros z Hz.
      now apply sort_le_trans with y.
    + constructor; [exact IH|].
      apply insert_Forall; [|exact Hall]. now apply sort_leb_total.
Qed.

Lemma sort_sorted (a : list Py.pyfloat) : in_sort_order (np.sort a).
Proof.
  induction a as [|x a IH]; cbn [np.sort fold_right].
  - constructor.
  - now apply insert_sorted.
Qed.

Lemma insert_Permutation (x : Py.pyfloat) (l : list Py.pyfloat) :
  Permutation (x :: l) (np.insert x l).
Proof.
  induction l as [|y l IH]; cbn [np.insert]; [reflexivity|].
  destruct (np.sort_leb x y); [reflexivity|].
  rewrite perm_swap. now constructor.
Qed.

Lemma sort_Permutation (a : list Py.pyfloat) : Permutation a (np.sort a).
Proof.
  induction a as [|x a IH]; cbn [np.sort fold_right]; [reflexivity|].
  rewrite <- insert_Permutation. now constructor.
Qed.

Lemma sort_le_le (x y : Py.pyfloat) :
  np.is_nan x = false -> np.is_nan y = false -> sort_le x y -> np.le x y.
Proof.
  unfold sort_le.
  destruct x as [a|[]|], y as [b|[]|]; cbn; try congruence; try tauto.
  intros _ _. apply Qle_bool_iff.
Qed.

Lemma sort_order_non_decreasing (a : list Py.pyfloat) :
  nan_free a -> in_sort_order a -> non_decreasing a.
Proof.
  unfold nan_free, in_sort_order, non_decreasing.
  intros Hnan Hs. induction Hs as [|x l Hs IH Hall]; [constructor|].
  inversion Hnan as [|? ? Hx Hl]; subst.
  constructor; [now apply IH|].
  clear IH Hs Hnan. induction Hall as [|y l Hy Hall IH]; [constructor|].
  inversion Hl; subst. constructor; [now apply sort_le_le | now apply IH].
Qed.

(** ** What a yielded record holds *)

Lemma bind_inv_Normal {A B} (m : M A) (f : A -> M B) (w w' : world) (b : B) :
  bind m f w = (Normal b, w') ->
  exists a w1, m w = (Normal a, w1) /\ f a w1 = (Normal b, w').
Proof.
  unfold bind. destruct (m w) as [[a| |] w1]; try discriminate.
  intros H. now exists a, w1.
Qed.

Lemma ret_inv {A} (a b : A) (w w' : world) :
  ret a w = (Normal b, w') -> a = b /\ w = w'.
Proof. unfold ret. intros H. injection H as <- <-. now split. Qed.

Lemma lift_inv {A} (r : result A) (b : A) (w w' : world) :
  lift r w = (Normal b, w') -> r = Ok b /\ w = w'.
Proof.
  destruct r; cbn.
  - intros H. apply ret_inv in H as [<- <-]. now split.
  - discriminate.
Qed.

Ltac bind_inv H :=
  repeat (let a := fresh "a" in
          let w := fresh "w" in
          let E := fresh "E" in
          apply bind_inv_Normal in H as (a & w & E & H); cbv beta in H).

Section Loop_inversion.

Context {A F : Type}.
Variable body : F -> string -> M SleepRecord.

(** A record that the loop yields is the value of a turn of its body on
    one of the requested ids. *)
Lemma resume_Yielded_inv (frame : F) (ids : list string) (w w' : world)
    (record : SleepRecord) (g : generator A F) :
  resume body frame ids w = (Yielded record, g, w') ->
  exists record_id w0, In record_id ids /\
    body frame record_id w0 = (Normal record, w').
Proof.
  revert w. induction ids as [|record_id rest IH]; intros w H.
  - discriminate.
  - cbn [resume] in H.
    destruct (body frame record_id w) as [[r| |] w1] eqn:E.
    + injection H as <- _ <-. exists record_id, w. split; [now left | exact E].
    + discriminate.
    + destruct (IH _ H) as (r & w0 & Hin & Hb).
      exists r, w0. split; [now right | exact Hb].
Qed.

End Loop_inversion.

Lemma mesa_prelude_args (c : collaborators) (a : reader_args)
    (activity_source : option string) (w w' : world) (L : mesa_frame)
    (ids : list string) :
  mesa_prelude c (a, activity_source) w = (Normal (L, ids), w') ->
  m_args L = a.
Proof.
  unfold mesa_prelude. intros H. bind_inv H.
  apply ret_inv in H as [H _]. injection H as <- _. reflexivity.
Qed.

Lemma np_loadtxt_column_inv (path : string) (w w' : world) (a : list Py.pyfloat) :
  np_loadtxt_column path w = (Normal a, w') ->
  files w !! path = Some (FloatColumn a) /\ w' = w.
Proof.
  unfold np_loadtxt_column. intros H. bind_inv H.
  unfold read_file in E. destruct (files w !! path) as [f|]; [|discriminate].
  injection E as <- <-.
  destruct f; try discriminate.
  apply ret_inv in H as [-> ->]. now split.
Qed.

Lemma mesa_heartbeats_annotation (c : collaborators) (L : mesa_frame)
    (record_id : string) (w w' : world) (hb : option (list Py.pyfloat)) :
  heartbeats_source (m_args L) = "annotation"%string ->
  mesa_heartbeats c L record_id w = (Normal hb, w') ->
  exists a,
    files w' !! mesa_rpoints_filepath L record_id = Some (FloatColumn a) /\
    hb = Some (np.sort a).
Proof.
  intros Hsrc H. unfold mesa_heartbeats in H. rewrite Hsrc in H.
  rewrite String.eqb_refl in H. bind_inv H.
  apply np_loadtxt_column_inv in E1 as [Hfile ->].
  apply ret_inv in H as [<- <-]. exists a1. now split.
Qed.

Lemma mesa_body_heartbeats (c : collaborators) (L : mesa_frame)
    (record_id : string) (w w' : world) (record : SleepRecord) :
  mesa_body c L record_id w = (Normal record, w') ->
  exists w1,
    mesa_heartbeats c L record_id w = (Normal (Some (heartbeat_times record)), w1).
Proof.
  rewrite mesa_body_phases. intros H. bind_inv H.
  apply ret_inv in H as [<- _]. cbn [heartbeat_times].
  unfold bound in E2. apply lift_inv in E2 as [E2 _].
  destruct a; [|discriminate]. injection E2 as <-.
  now exists w0.
Qed.




(** ** Paths *)

Lemma append_assoc (a b d : string) : (a +:+ b) +:+ d = a +:+ (b +:+ d).
Proof.
  induction a as [|x a IH]; [reflexivity|].
  change (String x ((a +:+ b) +:+ d) = String x (a +:+ (b +:+ d))).
  now rewrite IH.
Qed.

(** Two paths below the same directory are different as soon as what
    follows the directory is. *)
Ltac path_neq :=
  let H := fresh "H" in
  intros H; unfold path_join in H; rewrite ?append_assoc in H;
  apply String.app_inj in H; cbn in H; discriminate.

Lemma mesa_edf_not_heartbeats (L : mesa_frame) (record_id : string) :
  mesa_edf_filepath L record_id <> mesa_heartbeats_file L record_id.
Proof. unfold mesa_edf_filepath, mesa_heartbeats_file. path_neq. Qed.

Lemma shhs_edf_not_heartbeats (L : shhs_frame) (record_id : string) :
  shhs_edf_filepath L record_id <> shhs_heartbeats_file L record_id.
Proof. unfold shhs_edf_filepath, shhs_heartbeats_file. path_neq. Qed.

(** ** The cache of heartbeat times *)

Lemma when_unlink_lookup (cond : bool) (path other : string) (w w' : world) :
  when cond (unlink path) w = (Normal tt, w') ->
  other <> path ->
  files w' !! other = files w !! other.
Proof.
  intros H Hne. destruct cond; cbn [when] in H.
  - unfold unlink in H. destruct (files w !! path); [|discriminate].
    injection H as <-. cbn [files]. now apply lookup_delete_ne.
  - apply ret_inv in H as [_ <-]. reflexivity.
Qed.

(** After the mode ['ecg'] of [read_mesa] has computed the heartbeat times
    of a record, the cache file of the record holds them. *)
Lemma mesa_ecg_saves (c : collaborators) (L : mesa_frame) (record_id : string)
    (w w' : world) (hb : option (list Py.pyfloat)) :
  heartbeats_source (m_args L) = "ecg"%string ->
  mesa_heartbeats c L record_id w = (Normal hb, w') ->
  exists times,
    hb = Some times /\
    files w' !! mesa_heartbeats_file L record_id = Some (Npy times).
Proof.
  intros Hsrc H. unfold mesa_heartbeats in H. rewrite Hsrc in H.
  change (String.eqb "ecg" "annotation") with false in H.
  change (String.eqb "ecg" "cached") with false in H.
  rewrite String.eqb_refl in H. cbv iota in H. bind_inv H.
  apply ret_inv in H as [<- <-]. eexists. split; [reflexivity|].
  destruct a3.
  rewrite (when_unlink_lookup _ _ _ _ _ E3)
    by (apply not_eq_sym, mesa_edf_not_heartbeats).
  unfold np_save, write_file in E2. inversion E2; subst.
  cbn [files]. apply lookup_insert_eq.
Qed.

(** The round trip of the cache in [read_mesa]: the heartbeat times that
    the mode ['ecg'] computed for a record are those that the mode
    ['cached'] returns for it afterwards. *)
Lemma mesa_cache_round_trip (c : collaborators) (L L' : mesa_frame)
    (record_id : string) (w w' : world) (hb : option (list Py.pyfloat)) :
  heartbeats_source (m_args L) = "ecg"%string ->
  heartbeats_source (m_args L') = "cached"%string ->
  m_db_dir L' = m_db_dir L ->
  mesa_heartbeats c L record_id w = (Normal hb, w') ->
  mesa_heartbeats c L' record_id w' = (Normal hb, w').
Proof.
  intros Hecg Hcached Hdir H.
  destruct (mesa_ecg_saves c L record_id w w' hb Hecg H) as (times & -> & Hfile).
  unfold mesa_heartbeats. rewrite Hcached.
  change (String.eqb "cached" "annotation") with false.
  rewrite String.eqb_refl. cbv iota.
  unfold mesa_heartbeats_file in Hfile. rewrite Hdir.
  unfold bind at 1, is_file. rewrite Hfile, bool_decide_is_Some_Some.
  cbn [negb when]. unfold bind at 1, ret at 1.
  unfold bind at 1, np_load, bind at 1, read_file. rewrite Hfile. reflexivity.
Qed.

(** In the mode ['cached'] the loop of [read_shhs] binds no
    [heartbeat_times]: no turn of it yields a record. *)
Lemma shhs_cached_never_yields (c : collaborators) (L : shhs_frame)
    (record_id : string) (w w' : world) (record : SleepRecord) :
  heartbeats_source (s_args L) = "cached"%string ->
  shhs_body c L record_id w <> (Normal record, w').
Proof.
  intros Hsrc H. rewrite shhs_body_phases in H. bind_inv H.
  unfold shhs_heartbeats in E. rewrite Hsrc in E.
  change (String.eqb "cached" "annotation") with false in E.
  rewrite String.eqb_refl in E. cbv iota in E. bind_inv E.
  apply ret_inv in E as [<- _].
  unfold bound in E1. apply lift_inv in E1 as [E1 _]. discriminate.
Qed.

(** C4 at the failing input.  [read_shhs] in the mode ['ecg'] computes the
    heartbeat times of the record and saves them in its cache file; run
    again in the mode ['cached'] on the directory it left, it yields no
    record: [heartbeat_times] was never bound, and the first [next] raises
    [UnboundLocalError]. *)
Theorem shhs_cached_unbound :
  let times := [Py.Finite (1 # 2); Py.Finite (4 # 2); Py.Finite (6 # 2)] in
  let first_run :=
    shhs_next collaborators_example (Created (offline_args "ecg"))
      shhs_world_example in
  first_run.1.1 = Yielded (record_200001 times) /\
  files first_run.2 !! "/data/shhs/preprocessed/heartbeats/shhs1/shhs1-200001.npy"%string
  = Some (Npy times) /\
  shhs_next collaborators_example (Created (offline_args "cached")) first_run.2
  = (Failed (UnboundLocalError "heartbeat_times"), Finished, first_run.2).
Proof. repeat split; vm_compute; reflexivity. Qed.

(** ** Files that stay *)

Section Keeps.

Variable P : string -> Prop.

Lemma keeps_ret {A} (a : A) : keeps P (ret a).
Proof. intros w H. exact H. Qed.

Lemma keeps_raise {A} (e : exn) : keeps P (@raise A e).
Proof. intros w H. exact H. Qed.

Lemma keeps_continue {A} : keeps P (@continue A).
Proof. intros w H. exact H. Qed.

Lemma keeps_lift {A} (r : result A) : keeps P (lift r).
Proof. destruct r; [apply keeps_ret | apply keeps_raise]. Qed.

Lemma keeps_print (line : string) : keeps P (print line).
Proof. intros w H. exact H. Qed.

Lemma keeps_bind {A B} (m : M A) (f : A -> M B) :
  keeps P m -> (forall a, keeps P (f a)) -> keeps P (bind m f).
Proof.
  intros Hm Hf w H. specialize (Hm w H). unfold bind.
  destruct (m w) as [[a| |] w1]; cbn [snd] in *; try exact Hm.
  now apply Hf.
Qed.

Lemma keeps_is_file (path : string) : keeps P (is_file path).
Proof. intros w H. exact H. Qed.

(** What follows a test [is_file] knows that a file that was not there is
    not one of the files to keep. *)
Lemma keeps_bind_is_file {B} (path : string) (f : bool -> M B) :
  (forall present, (present = false -> ~ P path) -> keeps P (f present)) ->
  keeps P (bind (is_file path) f).
Proof.
  intros Hf w H. unfold bind, is_file. apply Hf; [|exact H].
  intros Hb Hp. apply bool_decide_eq_false in Hb. apply Hb. now apply H.
Qed.

Lemma keeps_read_file (path : string) : keeps P (read_file path).
Proof. intros w H. unfold read_file. now destruct (files w !! path). Qed.

Lemma keeps_write_file (path : string) (f : file) : keeps P (write_file path f).
Proof.
  intros w H p Hp. cbn. destruct (decide (path = p)) as [->|Hne].
  - rewrite lookup_insert_eq. eexists; reflexivity.
  - rewrite lookup_insert_ne by exact Hne. now apply H.
Qed.

Lemma keeps_unlink (path : string) : ~ P path -> keeps P (unlink path).
Proof.
  intros Hn w H p Hp. unfold unlink.
  destruct (files w !! path) eqn:E; cbn; [|now apply H].
  rewrite lookup_delete_ne; [now apply H|]. intros ->. contradiction.
Qed.

Lemma keeps_when (cond : bool) (m : M unit) :
  (cond = true -> keeps P m) -> keeps P (when cond m).
Proof. destruct cond; cbn; [auto | intros _; apply keeps_ret]. Qed.

Lemma keeps_xml_at (path : string) : keeps P (xml_at path).
Proof. intros w H. unfold xml_at. now destruct (files w !! path) as [[]|]. Qed.

Lemma keeps_listdir : keeps P listdir.
Proof. intros w H. exact H. Qed.

Variable c : collaborators.

Lemma keeps_download (url path checksum : string) :
  keeps P (_download_nsrr_file c url path checksum).
Proof.
  intros w H. unfold _download_nsrr_file.
  assert (Hfetch :
    forall path0, P path0 ->
      is_Some (files
        (match served c !! url with
         | Some f =>
             if String.eqb (md5 c f) checksum
             then write_file path f w
             else (Raised (RuntimeError ("checksum mismatch for " +:+ url)), w)
         | None => (Raised (RuntimeError ("download failed for " +:+ url)), w)
         end).2 !! path0)).
  { destruct (served c !! url) as [f|]; [|exact H].
    destruct (String.eqb (md5 c f) checksum); [|exact H].
    now apply keeps_write_file. }
  destruct (files w !! path) as [f|]; [|exact Hfetch].
  destruct (String.eqb (md5 c f) checksum); [exact H | exact Hfetch].
Qed.

End Keeps.

Create HintDb keeps.

#[local] Hint Resolve keeps_ret keeps_raise keeps_continue keeps_lift
  keeps_print keeps_is_file keeps_read_file keeps_write_file keeps_xml_at
  keeps_listdir keeps_download : keeps.

(** Splits a computation into its steps, one [keeps] goal each. *)
Ltac keeps_steps :=
  repeat first
    [ apply keeps_bind_is_file; intros ? ?
    | apply keeps_bind; [|intros ?]
    | apply keeps_when; intros ?
    | match goal with
      | |- keeps _ (if ?b then _ else _) => destruct b
      | |- keeps _ (match ?x with _ => _ end) => destruct x
      | |- keeps _ (let '(_, _) := ?x in _) => destruct x
      end
    | solve [auto with keeps] ].

Section Keeps_readers.

Variable P : string -> Prop.
Variable c : collaborators.

Lemma keeps_decode_error {A} (path : string) : keeps P (@decode_error A path).
Proof. apply keeps_raise. Qed.

Lemma keeps_np_load (path : string) : keeps P (np_load path).
Proof. unfold np_load. keeps_steps; apply keeps_decode_error. Qed.

Lemma keeps_np_save (path : string) (a : list Py.pyfloat) : keeps P (np_save path a).
Proof. apply keeps_write_file. Qed.

Lemma keeps_np_loadtxt_column (path : string) : keeps P (np_loadtxt_column path).
Proof. unfold np_loadtxt_column. keeps_steps; apply keeps_decode_error. Qed.

Lemma keeps_np_loadtxt_int_table (path : string) :
  keeps P (np_loadtxt_int_table path).
Proof. unfold np_loadtxt_int_table. keeps_steps; apply keeps_decode_error. Qed.

Lemma keeps_csv_rows (path : string) : keeps P (csv_rows path).
Proof. unfold csv_rows. keeps_steps; apply keeps_decode_error. Qed.

Lemma keeps_read_edf_signal (path label : string) :
  keeps P (read_edf_signal path label).
Proof. unfold read_edf_signal. keeps_steps; apply keeps_decode_error. Qed.

Lemma keeps_download_listed (download_url : string)
    (checksums : gmap string string) (filename filepath : string) :
  keeps P (download_listed c download_url checksums filename filepath).
Proof. unfold download_listed. keeps_steps. Qed.

Lemma keeps_for_each {A} (body : A -> M unit) (l : list A) :
  (forall x, keeps P (body x)) -> keeps P (for_each body l).
Proof.
  intros Hb. induction l as [|x l IH]; cbn [for_each].
  - apply keeps_ret.
  - apply keeps_bind; [apply Hb | intros _; exact IH].
Qed.

Lemma keeps_download_nsrr (db_slug subfolder pattern : string) (shallow : bool)
    (data_dir : string) :
  keeps P (download_nsrr c db_slug subfolder pattern shallow data_dir).
Proof. unfold download_nsrr. apply keeps_for_each. intros x. apply keeps_download. Qed.

Lemma keeps_first_entry (l : list (string * string)) : keeps P (first_entry l).
Proof. apply keeps_lift. Qed.

Lemma keeps_next_path (l : list string) : keeps P (next_path l).
Proof. destruct l; [apply keeps_raise | apply keeps_ret]. Qed.

Lemma keeps_bound {A} (var : string) (x : option A) : keeps P (bound var x).
Proof. apply keeps_lift. Qed.

End Keeps_readers.

#[local] Hint Resolve keeps_decode_error keeps_np_load keeps_np_save
  keeps_np_loadtxt_column keeps_np_loadtxt_int_table keeps_csv_rows
  keeps_read_edf_signal keeps_download_listed keeps_download_nsrr
  keeps_first_entry keeps_next_path keeps_bound : keeps.

Section Keeps_bodies.

Variable P : string -> Prop.
Variable c : collaborators.

Lemma keeps_read_annotation (a : reader_args) (db_dir download_url : string)
    (checksums : gmap string string) (xml_filename : string) :
  keeps P (read_annotation c a db_dir download_url checksums xml_filename).
Proof. unfold read_annotation. keeps_steps. Qed.

(** The recording is removed only on the path where [is_file] found none,
    so it is none of the files that were there. *)
Lemma keeps_mesa_heartbeats (L : mesa_frame) (record_id : string) :
  keeps P (mesa_heartbeats c L record_id).
Proof.
  unfold mesa_heartbeats. keeps_steps.
  apply keeps_unlink.
  match goal with H : _ = false -> ~ P _ |- _ => apply H end.
  match goal with H : negb ?b && _ = true |- _ => now destruct b end.
Qed.

Lemma keeps_mesa_actigraphy (L : mesa_frame) (record_id : string)
    (parsed_xml : _ParseNsrrXmlResult) (file : string) :
  keeps P (mesa_actigraphy c L record_id parsed_xml file).
Proof. unfold mesa_actigraphy. keeps_steps. Qed.

Lemma keeps_mesa_activity (L : mesa_frame) (record_id : string)
    (parsed_xml : _ParseNsrrXmlResult) :
  keeps P (mesa_activity c L record_id parsed_xml).
Proof. unfold mesa_activity. keeps_steps. Qed.

Lemma keeps_mesa_body (L : mesa_frame) (record_id : string) :
  keeps P (mesa_body c L record_id).
Proof.
  rewrite mesa_body_phases. unfold mesa_annotation.
  apply keeps_bind; [apply keeps_mesa_heartbeats | intros ?].
  apply keeps_bind; [apply keeps_read_annotation | intros ?].
  apply keeps_bind; [apply keeps_mesa_activity | intros ?].
  keeps_steps.
Qed.

Lemma keeps_shhs_heartbeats (L : shhs_frame) (record_id : string) :
  keeps P (shhs_heartbeats c L record_id).
Proof.
  unfold shhs_heartbeats. keeps_steps.
  apply keeps_unlink.
  match goal with H : _ = false -> ~ P _ |- _ => apply H end.
  match goal with H : negb ?b && _ = true |- _ => now destruct b end.
Qed.

Lemma keeps_shhs_body (L : shhs_frame) (record_id : string) :
  keeps P (shhs_body c L record_id).
Proof.
  rewrite shhs_body_phases. unfold shhs_annotation.
  apply keeps_bind; [apply keeps_shhs_heartbeats | intros ?].
  apply keeps_bind; [apply keeps_read_annotation | intros ?].
  keeps_steps.
Qed.

Lemma keeps_mesa_prelude (args : reader_args * option string) :
  keeps P (mesa_prelude c args).
Proof.
  unfold mesa_prelude, mesa_online, mesa_offline. destruct args as [a act].
  keeps_steps.
Qed.

Lemma keeps_shhs_prelude (a : reader_args) : keeps P (shhs_prelude c a).
Proof.
  unfold shhs_prelude, shhs_load_subjects. keeps_steps.
Qed.

End Keeps_bodies.

Section Keeps_loop.

Context {A F : Type}.
Variable P : string -> Prop.
Variable prelude : A -> M (F * list string).
Variable body : F -> string -> M SleepRecord.
Hypothesis keeps_prelude : forall args, keeps P (prelude args).
Hypothesis keeps_body : forall frame record_id, keeps P (body frame record_id).

Lemma keeps_resume (frame : F) (ids : list string) (w : world) :
  (forall path, P path -> is_Some (files w !! path)) ->
  forall path, P path ->
    is_Some (files (resume (A := A) body frame ids w).2 !! path).
Proof.
  revert w. induction ids as [|record_id rest IH]; intros w H; [exact H|].
  cbn [resume]. pose proof (keeps_body frame record_id w H) as Hb.
  destruct (body frame record_id w) as [[r| |] w1]; cbn [snd] in *;
    [exact Hb | exact Hb | now apply IH].
Qed.

Lemma keeps_next (g : generator A F) (w : world) :
  (forall path, P path -> is_Some (files w !! path)) ->
  forall path, P path -> is_Some (files (next prelude body g w).2 !! path).
Proof.
  intros H. destruct g as [args|frame ids|]; cbn [next].
  - pose proof (keeps_prelude args w H) as Hp.
    destruct (prelude args w) as [[[frame ids]| |] w1]; cbn [snd] in *;
      [now apply keeps_resume | exact Hp | exact Hp].
  - now apply keeps_resume.
  - exact H.
Qed.

Lemma keeps_drain (fuel : nat) (g : generator A F) (w : world) :
  (forall path, P path -> is_Some (files w !! path)) ->
  forall path, P path ->
    is_Some (files (drain prelude body fuel g w).2 !! path).
Proof.
  revert g w. induction fuel as [|fuel IH]; intros g w H; [exact H|].
  cbn [drain]. pose proof (keeps_next g w H) as Hn.
  destruct (next prelude body g w) as [[[r| |e] g'] w1]; cbn [snd] in *;
    [|exact Hn|exact Hn].
  specialize (IH g' w1 Hn).
  destruct (drain prelude body fuel g' w1) as [[rs e] w2]. exact IH.
Qed.

End Keeps_loop.

(** ** The recording after the detection *)

Lemma is_file_inv (path : string) (w w' : world) (present : bool) :
  is_file path w = (Normal present, w') ->
  present = bool_decide (is_Some (files w !! path)) /\ w' = w.
Proof. unfold is_file. intros H. injection H as <- <-. now split. Qed.

Lemma read_edf_signal_inv (path label : string) (w w' : world) (s : signal) :
  read_edf_signal path label w = (Normal s, w') ->
  is_Some (files w !! path) /\ w' = w.
Proof.
  unfold read_edf_signal. intros H. bind_inv H.
  unfold read_file in E. destruct (files w !! path) as [f|] eqn:Ef; [|discriminate].
  injection E as <- <-. split; [eexists; reflexivity|].
  destruct f; try discriminate.
  destruct (List.find _ _); [|discriminate].
  now apply ret_inv in H as [_ ->].
Qed.

(** The end of the branch ['ecg'] of both loops: the times are saved, and
    the recording is removed when it was not there before and is not to be
    kept. *)
Lemma removal_after_save (edf_filepath heartbeats_file : string)
    (times : list Py.pyfloat) (was_available keep : bool) (w w' : world) :
  edf_filepath <> heartbeats_file ->
  is_Some (files w !! edf_filepath) ->
  ((np_save heartbeats_file times;;
    when (negb was_available && negb keep) (unlink edf_filepath))%py w
   = (Normal tt, w')) ->
  (files w' !! edf_filepath = None <-> was_available = false /\ keep = false).
Proof.
  intros Hne [f Hf] H. bind_inv H.
  unfold np_save, write_file in E. inversion E; subst; clear E.
  destruct was_available, keep; cbn [negb andb when] in H.
  1-3: apply ret_inv in H as [_ <-]; cbn [files];
       rewrite lookup_insert_ne by congruence; rewrite Hf;
       split; [discriminate | intros [? ?]; discriminate].
  unfold unlink in H. cbn [files] in H.
  rewrite lookup_insert_ne in H by congruence. rewrite Hf in H.
  injection H as <-. cbn [files]. rewrite lookup_delete_eq. now split.
Qed.

Lemma mesa_ecg_removal (c : collaborators) (L : mesa_frame) (record_id : string)
    (w w' : world) (hb : option (list Py.pyfloat)) :
  heartbeats_source (m_args L) = "ecg"%string ->
  mesa_heartbeats c L record_id w = (Normal hb, w') ->
  (files w' !! mesa_edf_filepath L record_id = None <->
   files w !! mesa_edf_filepath L record_id = None /\
   keep_edfs (m_args L) = false).
Proof.
  intros Hsrc H. unfold mesa_heartbeats in H. rewrite Hsrc in H.
  change (String.eqb "ecg" "annotation") with false in H.
  change (String.eqb "ecg" "cached") with false in H.
  rewrite String.eqb_refl in H. cbv iota in H.
  apply bind_inv_Normal in H as (present & w0 & E & H). cbv beta in H.
  apply is_file_inv in E as [-> ->].
  apply bind_inv_Normal in H as ([] & w1 & E0 & H). cbv beta in H.
  apply bind_inv_Normal in H as (ecg & w2 & E1 & H). cbv beta in H.
  apply read_edf_signal_inv in E1 as [Hsome ->].
  assert (Hstep : exists w3,
    (np_save (mesa_heartbeats_file L record_id)
       (np.divide_indices (detect_heartbeats c (data ecg) (sampling_frequency ecg))
          (sampling_frequency ecg));;
     when (negb (bool_decide (is_Some (files w !! mesa_edf_filepath L record_id)))
           && negb (keep_edfs (m_args L)))
       (unlink (mesa_edf_filepath L record_id)))%py w1 = (Normal tt, w3) /\ w' = w3).
  { apply bind_inv_Normal in H as ([] & w3 & E2 & H). cbv beta in H.
    apply bind_inv_Normal in H as ([] & w4 & E3 & H). cbv beta in H.
    apply ret_inv in H as [_ <-]. exists w4. split; [|reflexivity].
    unfold bind. unfold mesa_heartbeats_file, mesa_edf_filepath.
    rewrite E2. exact E3. }
  destruct Hstep as (w3 & Hstep & ->).
  rewrite (removal_after_save _ _ _ _ _ _ _ (mesa_edf_not_heartbeats L record_id)
             Hsome Hstep).
  rewrite bool_decide_eq_false.
  split; intros [H1 H2]; (split; [|exact H2]).
  - destruct (files w !! mesa_edf_filepath L record_id) eqn:E; [|reflexivity].
    exfalso. apply H1. eexists; reflexivity.
  - rewrite H1. intros [? ?]; discriminate.
Qed.

Lemma shhs_ecg_removal (c : collaborators) (L : shhs_frame) (record_id : string)
    (w w' : world) (hb : option (list Py.pyfloat)) :
  heartbeats_source (s_args L) = "ecg"%string ->
  shhs_heartbeats c L record_id w = (Normal hb, w') ->
  (files w' !! shhs_edf_filepath L record_id = None <->
   files w !! shhs_edf_filepath L record_id = None /\
   keep_edfs (s_args L) = false).
Proof.
  intros Hsrc H. unfold shhs_heartbeats in H. rewrite Hsrc in H.
  change (String.eqb "ecg" "annotation") with false in H.
  change (String.eqb "ecg" "cached") with false in H.
  rewrite String.eqb_refl in H. cbv iota in H.
  apply bind_inv_Normal in H as (present & w0 & E & H). cbv beta in H.
  apply is_file_inv in E as [-> ->].
  apply bind_inv_Normal in H as ([] & w1 & E0 & H). cbv beta in H.
  apply bind_inv_Normal in H as (ecg & w2 & E1 & H). cbv beta in H.
  apply read_edf_signal_inv in E1 as [Hsome ->].
  assert (Hstep : exists w3,
    (np_save (shhs_heartbeats_file L record_id)
       (np.divide_indices (detect_heartbeats c (data ecg) (sampling_frequency ecg))
          (sampling_frequency ecg));;
     when (negb (bool_decide (is_Some (files w !! shhs_edf_filepath L record_id)))
           && negb (keep_edfs (s_args L)))
       (unlink (shhs_edf_filepath L record_id)))%py w1 = (Normal tt, w3) /\ w' = w3).
  { apply bind_inv_Normal in H as ([] & w3 & E2 & H). cbv beta in H.
    apply bind_inv_Normal in H as ([] & w4 & E3 & H). cbv beta in H.
    apply ret_inv in H as [_ <-]. exists w4. split; [|reflexivity].
    unfold bind. unfold shhs_heartbeats_file, shhs_edf_filepath.
    rewrite E2. exact E3. }
  destruct Hstep as (w3 & Hstep & ->).
  rewrite (removal_after_save _ _ _ _ _ _ _ (shhs_edf_not_heartbeats L record_id)
             Hsome Hstep).
  rewrite bool_decide_eq_false.
  split; intros [H1 H2]; (split; [|exact H2]).
  - destruct (files w !! shhs_edf_filepath L record_id) eqn:E; [|reflexivity].
    exfalso. apply H1. eexists; reflexivity.
  - rewrite H1. intros [? ?]; discriminate.
Qed.

(** ** Files that are left alone *)

Section Untouched.

Variable path : string.

Lemma untouched_ret {A} (a : A) : untouched path (ret a).
Proof. intros w. reflexivity. Qed.

Lemma untouched_raise {A} (e : exn) : untouched path (@raise A e).
Proof. intros w. reflexivity. Qed.

Lemma untouched_continue {A} : untouched path (@continue A).
Proof. intros w. reflexivity. Qed.

Lemma untouched_lift {A} (r : result A) : untouched path (lift r).
Proof. destruct r; [apply untouched_ret | apply untouched_raise]. Qed.

Lemma untouched_print (line : string) : untouched path (print line).
Proof. intros w. reflexivity. Qed.

Lemma untouched_bind {A B} (m : M A) (f : A -> M B) :
  untouched path m -> (forall a, untouched path (f a)) ->
  untouched path (bind m f).
Proof.
  intros Hm Hf w. specialize (Hm w). unfold bind.
  destruct (m w) as [[a| |] w1]; cbn [snd] in *; try exact Hm.
  now rewrite Hf.
Qed.

Lemma untouched_is_file (p : string) : untouched path (is_file p).
Proof. intros w. reflexivity. Qed.

Lemma untouched_read_file (p : string) : untouched path (read_file p).
Proof. intros w. unfold read_file. now destruct (files w !! p). Qed.

Lemma untouched_write_file (p : string) (f : file) :
  p <> path -> untouched path (write_file p f).
Proof. intros Hne w. cbn. now apply lookup_insert_ne. Qed.

Lemma untouched_when (cond : bool) (m : M unit) :
  untouched path m -> untouched path (when cond m).
Proof. destruct cond; cbn; [auto | intros _; apply untouched_ret]. Qed.

Lemma untouched_xml_at (p : string) : untouched path (xml_at p).
Proof. intros w. unfold xml_at. now destruct (files w !! p) as [[]|]. Qed.

Variable c : collaborators.

Lemma untouched_download (url p checksum : string) :
  p <> path -> untouched path (_download_nsrr_file c url p checksum).
Proof.
  intros Hne w. unfold _download_nsrr_file.
  assert (Hfetch :
    files
      (match served c !! url with
       | Some f =>
           if String.eqb (md5 c f) checksum
           then write_file p f w
           else (Raised (RuntimeError ("checksum mismatch for " +:+ url)), w)
       | None => (Raised (RuntimeError ("download failed for " +:+ url)), w)
       end).2 !! path = files w !! path).
  { destruct (served c !! url) as [f|]; [|reflexivity].
    destruct (String.eqb (md5 c f) checksum); [|reflexivity].
    now apply untouched_write_file. }
  destruct (files w !! p) as [f|]; [|exact Hfetch].
  destruct (String.eqb (md5 c f) checksum); [reflexivity | exact Hfetch].
Qed.

Lemma untouched_download_listed (download_url : string)
    (checksums : gmap string string) (filename p : string) :
  p <> path -> untouched path (download_listed c download_url checksums filename p).
Proof.
  intros Hne. unfold download_listed.
  apply untouched_bind; [apply untouched_lift | intros ?].
  now apply untouched_download.
Qed.

Lemma untouched_np_load (p : string) : untouched path (np_load p).
Proof.
  unfold np_load. apply untouched_bind; [apply untouched_read_file | intros f].
  destruct f; first [apply untouched_ret | apply untouched_raise].
Qed.

Lemma untouched_csv_rows (p : string) : untouched path (csv_rows p).
Proof.
  unfold csv_rows. apply untouched_bind; [apply untouched_read_file | intros f].
  destruct f; first [apply untouched_ret | apply untouched_raise].
Qed.

Lemma untouched_read_annotation (a : reader_args) (db_dir download_url : string)
    (checksums : gmap string string) (xml_filename : string) :
  path_join db_dir xml_filename <> path ->
  untouched path (read_annotation c a db_dir download_url checksums xml_filename).
Proof.
  intros Hne. unfold read_annotation.
  apply untouched_bind; [|intros ?].
  - apply untouched_when. now apply untouched_download_listed.
  - apply untouched_bind; [apply untouched_xml_at | intros ?].
    apply untouched_lift.
Qed.

End Untouched.

Create HintDb untouched.

#[local] Hint Resolve untouched_ret untouched_raise untouched_continue
  untouched_lift untouched_print untouched_is_file untouched_read_file
  untouched_xml_at untouched_np_load untouched_csv_rows : untouched.

Ltac untouched_steps :=
  repeat first
    [ apply untouched_bind; [|intros ?]
    | apply untouched_when
    | match goal with
      | |- untouched _ (if ?b then _ else _) => destruct b
      | |- untouched _ (match ?x with _ => _ end) => destruct x
      end
    | solve [auto with untouched] ].

Lemma mesa_edf_not_xml (L : mesa_frame) (record_id : string) :
  path_join (m_db_dir L) (mesa_xml_filename record_id)
  <> mesa_edf_filepath L record_id.
Proof. unfold mesa_edf_filepath, mesa_xml_filename. path_neq. Qed.

Lemma mesa_edf_not_activity (L : mesa_frame) (record_id : string) :
  mesa_activity_filepath L record_id <> mesa_edf_filepath L record_id.
Proof. unfold mesa_edf_filepath, mesa_activity_filepath. path_neq. Qed.

Lemma mesa_edf_not_activity_counts (L : mesa_frame) (record_id : string) :
  mesa_activity_counts_file L record_id <> mesa_edf_filepath L record_id.
Proof. unfold mesa_edf_filepath, mesa_activity_counts_file. path_neq. Qed.

Lemma shhs_edf_not_xml (L : shhs_frame) (record_id : string) :
  path_join (s_db_dir L) (shhs_xml_filename record_id)
  <> shhs_edf_filepath L record_id.
Proof. unfold shhs_edf_filepath, shhs_xml_filename. path_neq. Qed.

(** The activity block of [read_mesa] writes the actigraphy file it
    fetches and the counts it saves, not the recording. *)
Lemma untouched_mesa_activity (c : collaborators) (L : mesa_frame)
    (record_id : string) (parsed_xml : _ParseNsrrXmlResult) :
  untouched (mesa_edf_filepath L record_id)
    (mesa_activity c L record_id parsed_xml).
Proof.
  pose proof (mesa_edf_not_activity L record_id) as H1.
  pose proof (mesa_edf_not_activity_counts L record_id) as H2.
  unfold mesa_activity_filepath, mesa_activity_counts_file in *.
  unfold mesa_activity, mesa_actigraphy.
  untouched_steps;
    first [ apply untouched_raise
          | now apply untouched_download
          | now apply untouched_write_file ].
Qed.

(** After the heartbeats of a record, the rest of the turn of either loop
    leaves the recording as it is. *)
Lemma mesa_body_edf (c : collaborators) (L : mesa_frame) (record_id : string)
    (w w' : world) (record : SleepRecord) :
  mesa_body c L record_id w = (Normal record, w') ->
  exists hb w1,
    mesa_heartbeats c L record_id w = (Normal hb, w1) /\
    (files w' !! mesa_edf_filepath L record_id)
    = (files w1 !! mesa_edf_filepath L record_id).
Proof.
  rewrite mesa_body_phases. intros H.
  apply bind_inv_Normal in H as (hb & w1 & E & H). cbv beta in H.
  exists hb, w1. split; [exact E|].
  apply bind_inv_Normal in H as (parsed_xml & w2 & E1 & H). cbv beta in H.
  apply bind_inv_Normal in H as (counts & w3 & E2 & H). cbv beta in H.
  bind_inv H. apply ret_inv in H as [_ <-].
  unfold bound in E0. apply lift_inv in E0 as [_ <-].
  apply lift_inv in E3 as [_ <-].
  pose proof (untouched_mesa_activity c L record_id parsed_xml w2) as H3.
  rewrite E2 in H3. cbn [snd] in H3. rewrite H3.
  pose proof (untouched_read_annotation (mesa_edf_filepath L record_id) c
                (m_args L) (m_db_dir L) (m_download_url L) (m_checksums L)
                (mesa_xml_filename record_id) (mesa_edf_not_xml L record_id) w1)
    as H2.
  unfold mesa_annotation in E1. rewrite E1 in H2. exact H2.
Qed.

Lemma shhs_body_edf (c : collaborators) (L : shhs_frame) (record_id : string)
    (w w' : world) (record : SleepRecord) :
  shhs_body c L record_id w = (Normal record, w') ->
  exists hb w1,
    shhs_heartbeats c L record_id w = (Normal hb, w1) /\
    (files w' !! shhs_edf_filepath L record_id)
    = (files w1 !! shhs_edf_filepath L record_id).
Proof.
  rewrite shhs_body_phases. intros H.
  apply bind_inv_Normal in H as (hb & w1 & E & H). cbv beta in H.
  exists hb, w1. split; [exact E|].
  apply bind_inv_Normal in H as (parsed_xml & w2 & E1 & H). cbv beta in H.
  bind_inv H. apply ret_inv in H as [_ <-].
  unfold bound in E0. apply lift_inv in E0 as [_ <-].
  apply lift_inv in E2 as [_ <-].
  pose proof (untouched_read_annotation (shhs_edf_filepath L record_id) c
                (s_args L) (s_db_dir L) (s_download_url L) (s_checksums L)
                (shhs_xml_filename record_id) (shhs_edf_not_xml L record_id) w1)
    as H2.
  unfold shhs_annotation in E1. rewrite E1 in H2. exact H2.
Qed.

(** C10.  In the mode ['ecg'] of [read_mesa] and [read_shhs], when a turn
    of the loop yields its record the recording of that record is gone
    exactly when it was not there before the turn and [keep_edfs] is false;
    and whatever the mode and the flag, every file that is there before a
    [next], or before a whole iteration, is still there afterwards. *)
Theorem edf_removed_only_if_fetched (c : collaborators) :
  (forall (L : mesa_frame) record_id w w' record,
     heartbeats_source (m_args L) = "ecg"%string ->
     mesa_body c L record_id w = (Normal record, w') ->
     (files w' !! mesa_edf_filepath L record_id = None <->
      files w !! mesa_edf_filepath L record_id = None /\
      keep_edfs (m_args L) = false)) /\
  (forall (L : shhs_frame) record_id w w' record,
     heartbeats_source (s_args L) = "ecg"%string ->
     shhs_body c L record_id w = (Normal record, w') ->
     (files w' !! shhs_edf_filepath L record_id = None <->
      files w !! shhs_edf_filepath L record_id = None /\
      keep_edfs (s_args L) = false)) /\
  (forall g w path,
     is_Some (files w !! path) ->
     is_Some (files (mesa_next c g w).2 !! path) /\
     forall fuel,
       is_Some (files (drain (mesa_prelude c) (mesa_body c) fuel g w).2 !! path)) /\
  (forall g w path,
     is_Some (files w !! path) ->
     is_Some (files (shhs_next c g w).2 !! path) /\
     forall fuel,
       is_Some (files (drain (shhs_prelude c) (shhs_body c) fuel g w).2 !! path)).
Proof.
  split; [|split; [|split]].
  - intros L record_id w w' record Hsrc H.
    apply mesa_body_edf in H as (hb & w1 & H & ->).
    now apply (mesa_ecg_removal c L record_id w w1 hb).
  - intros L record_id w w' record Hsrc H.
    apply shhs_body_edf in H as (hb & w1 & H & ->).
    now apply (shhs_ecg_removal c L record_id w w1 hb).
  - intros g w path H.
    assert (Hp : forall args, keeps (fun p => is_Some (files w !! p))
                                (mesa_prelude c args))
      by (intros args; apply keeps_mesa_prelude).
    assert (Hb : forall L r, keeps (fun p => is_Some (files w !! p))
                               (mesa_body c L r))
      by (intros L r; apply keeps_mesa_body).
    split; [|intros fuel].
    + apply (keeps_next _ _ _ Hp Hb); auto.
    + apply (keeps_drain _ _ _ Hp Hb); auto.
  - intros g w path H.
    assert (Hp : forall args, keeps (fun p => is_Some (files w !! p))
                                (shhs_prelude c args))
      by (intros args; apply keeps_shhs_prelude).
    assert (Hb : forall L r, keeps (fun p => is_Some (files w !! p))
                               (shhs_body c L r))
      by (intros L r; apply keeps_shhs_body).
    split; [|intros fuel].
    + apply (keeps_next _ _ _ Hp Hb); auto.
    + apply (keeps_drain _ _ _ Hp Hb); auto.
Qed.

Lemma edf_removed_only_if_fetched_witness :
  (* fetched and not to be kept: removed *)
  (exists w',
     shhs_body collaborators_online (shhs_frame_online false)
       "shhs1/shhs1-200001" empty_world
     = (Normal (record_200001 heartbeats_example), w') /\
     files w' !! edf_example = None) /\
  (* fetched and to be kept: still there *)
  (exists w',
     shhs_body collaborators_online (shhs_frame_online true)
       "shhs1/shhs1-200001" empty_world
     = (Normal (record_200001 heartbeats_example), w') /\
     files w' !! edf_example <> None) /\
  (* there before: still there, although [keep_edfs] is false *)
  is_Some (files (shhs_next collaborators_example (Created (offline_args "ecg"))
                    shhs_world_example).2 !! edf_example).
Proof.
  pose proof (edf_removed_only_if_fetched collaborators_online) as [_ [Hs _]].
  pose proof (edf_removed_only_if_fetched collaborators_example) as [_ [_ [_ Hn]]].
  split; [|split].
  - eexists. split; [vm_compute; reflexivity|].
    eapply (proj2 (Hs (shhs_frame_online false) "shhs1/shhs1-200001"%string
                     empty_world _ _ eq_refl ltac:(vm_compute; reflexivity))).
    split; reflexivity.
  - eexists. split; [vm_compute; reflexivity|].
    intros Habs.
    apply (proj1 (Hs (shhs_frame_online true) "shhs1/shhs1-200001"%string
                    empty_world _ _ eq_refl ltac:(vm_compute; reflexivity)))
      in Habs as [_ Hkeep].
    discriminate.
  - apply Hn. vm_compute. eexists; reflexivity.
Defined.

(* ===================================================================== *)
(** * Further properties of the parser *)
(* ===================================================================== *)

(** The parser on a document whose epoch length and recording duration can
    be read: what is left is the loop over the events. *)
Lemma parse_root_events (xml_filepath : string) (root : element)
    (s sd : string) (e : Z) (rd : Py.pyfloat) :
  findtext (Child "EpochLength") root = Some s -> Py.int s = Ok e ->
  recording_duration_field root = Some sd -> Py.float sd = Ok rd ->
  findall (Child "ScoredEvents") root <> [] ->
  parse_root xml_filepath root
  = match parse_events e (events_of root) (None, []) with
    | Ok (Some start, stages) => Ok (mk_ParseNsrrXmlResult stages e start rd)
    | Ok (None, _) =>
        Raise (RuntimeError
                 ("'Recording Start Time' not found in " +:+ xml_filepath +:+ "."))
    | Raise err => Raise err
    end.
Proof.
  intros Hs Hint Hsd Hfloat Hse.
  unfold parse_root. rewrite Hs. unfold mbind at 1, result_bind at 1.
  rewrite Hint. unfold recording_duration_field in Hsd.
  destruct (find (Descendant "ScoredEvent") root) as [scored_event|]; [|discriminate].
  unfold findtext_default. rewrite Hsd. cbn [default from_option]; unfold Datatypes.id.
  rewrite Hfloat. unfold mbind at 1, result_bind at 1.
  unfold events_of in *.
  destruct (findall (Child "ScoredEvents") root) as [|scored_events rest];
    [contradiction|].
  cbn [Py.index nth_error of_option]. unfold mbind at 1, result_bind at 1.
  unfold mbind, result_bind.
  destruct (parse_events e (children_of scored_events) (None, [])) as [[[start|] stages]|];
    reflexivity.
Qed.

Lemma events_of_nonempty (root : element) :
  events_of root <> [] -> findall (Child "ScoredEvents") root <> [].
Proof.
  unfold events_of. destruct (findall (Child "ScoredEvents") root); congruence.
Qed.

Lemma Exists_nonempty {A} (P : A -> Prop) (l : list A) : Exists P l -> l <> [].
Proof. intros H; inversion H; discriminate. Qed.

(** ** An epoch length that is not positive *)

Lemma Qtrunc_div_neg (a e : Z) :
  0 <= a -> e < 0 -> Py.Qtrunc (inject_Z a / inject_Z e) <= 0.
Proof.
  intros Ha He. destruct e as [|p|p]; try lia.
  unfold Py.Qtrunc, Qdiv, Qinv, Qmult, inject_Z. cbn [Qnum Qden].
  replace (a * -1) with (- a) by lia.
  rewrite Z.quot_opp_l by lia.
  pose proof (Z.quot_pos a (Z.pos (1 * p)) Ha ltac:(lia)). lia.
Qed.

Lemma stage_branch_negative (e : Z) (event : element) (start : option time)
    (acc : list SleepStage) (stage : SleepStage) (d : Q) :
  e < 0 ->
  event_stage event = Some stage ->
  event_duration event = Some (Py.Finite d) -> (0 <= d)%Q ->
  (duration ← Py.float (findtext_default (Child "Duration") "" event);
   epoch_duration ← Py.int_of_float duration;
   stage ← getitem STAGE_MAPPING (findtext_default (Child "EventConcept") "" event);
   quotient ← Py.truediv epoch_duration e;
   count ← Py.int_of_float quotient;
   Ok (start, acc ++ Py.list_mul stage count))
  = Ok (start, acc).
Proof.
  intros He Hl Hd Hpos.
  unfold event_duration in Hd. apply ok_value_Some in Hd.
  unfold event_stage in Hl. rewrite Hd.
  unfold getitem. rewrite Hl.
  unfold mbind, result_bind, of_option, Py.truediv.
  change (Py.int_of_float (Py.Finite d)) with (Ok (Py.Qtrunc d)).
  cbv beta iota.
  destruct (Z.eqb_spec e 0) as [->|_]; [lia|].
  unfold Py.int_of_float, Py.list_mul.
  assert (Hq : 0 <= Py.Qtrunc d).
  { rewrite (Qtrunc_nonneg d Hpos). change 0 with (Qfloor 0).
    now apply Qfloor_resp_le. }
  pose proof (Qtrunc_div_neg (Py.Qtrunc d) e Hq He) as Hc.
  replace (Z.to_nat _) with 0%nat by lia.
  cbn [repeat]. now rewrite app_nil_r.
Qed.

Lemma stage_branch_zero (event : element) (start : option time)
    (acc : list SleepStage) (stage : SleepStage) (d : Q) :
  event_stage event = Some stage ->
  event_duration event = Some (Py.Finite d) ->
  (duration ← Py.float (findtext_default (Child "Duration") "" event);
   epoch_duration ← Py.int_of_float duration;
   stage ← getitem STAGE_MAPPING (findtext_default (Child "EventConcept") "" event);
   quotient ← Py.truediv epoch_duration 0;
   count ← Py.int_of_float quotient;
   Ok (start, acc ++ Py.list_mul stage count))
  = Raise ZeroDivisionError.
Proof.
  intros Hl Hd.
  unfold event_duration in Hd. apply ok_value_Some in Hd.
  unfold event_stage in Hl. rewrite Hd.
  unfold getitem. rewrite Hl. reflexivity.
Qed.

(** One valid event under an epoch length that is not positive: a staging
    event divides by the epoch length, so zero raises and a negative length
    gives a count below one; every other event is read as usual. *)
Lemma parse_event_unchecked (e : Z) (start : option time) (acc : list SleepStage)
    (event : element) :
  e <= 0 -> valid_event event ->
  parse_event e (start, acc) event
  = if decide (is_stage_event event /\ e = 0)
    then Raise ZeroDivisionError
    else Ok (if decide (is_start_event event) then event_clock_time event else start,
             acc).
Proof.
  intros He [Hstart Hstage]. unfold parse_event.
  unfold is_start_event_dec, is_stage_event_dec, decide_rel.
  unfold is_start_event, is_stage_event in *.
  destruct (decide (findtext (Child "EventConcept") event
                    = Some "Recording Start Time"%string)) as [Hs|Hs];
    destruct (decide (findtext (Child "EventType") event
                      = Some "Stages|Stages"%string)) as [Hg|Hg].
  - destruct (Hstart Hs) as [t Ht]. rewrite Ht.
    destruct (Hstage Hg) as [[stage Hl] [d [Hd Hpos]]].
    unfold event_clock_time in Ht. apply ok_value_Some in Ht.
    unfold mbind at 1, result_bind at 1.
    unfold mbind at 1 2 3, result_bind at 1 2 3.
    unfold mbind, result_bind in Ht.
    destruct (Py.index _ 1) as [clock|]; [|discriminate].
    rewrite Ht.
    destruct (decide ((findtext (Child "EventType") event
                       = Some "Stages|Stages"%string) /\ e = 0)) as [[_ ->]|Hn].
    + apply (stage_branch_zero event (Some t) acc stage d); assumption.
    + apply (stage_branch_negative e event (Some t) acc stage d); try assumption.
      destruct (Z.eq_dec e 0); [tauto | lia].
  - destruct (Hstart Hs) as [t Ht]. rewrite Ht.
    unfold event_clock_time in Ht. apply ok_value_Some in Ht.
    unfold mbind, result_bind in *.
    destruct (Py.index _ 1) as [clock|]; [|discriminate].
    rewrite Ht.
    destruct (decide ((findtext (Child "EventType") event
                       = Some "Stages|Stages"%string) /\ e = 0)) as [[? _]|_];
      [contradiction | reflexivity].
  - destruct (Hstage Hg) as [[stage Hl] [d [Hd Hpos]]].
    unfold mbind at 1, result_bind at 1.
    destruct (decide ((findtext (Child "EventType") event
                       = Some "Stages|Stages"%string) /\ e = 0)) as [[_ ->]|Hn].
    + apply (stage_branch_zero event start acc stage d); assumption.
    + apply (stage_branch_negative e event start acc stage d); try assumption.
      destruct (Z.eq_dec e 0); [tauto | lia].
  - unfold mbind, result_bind.
    destruct (decide ((findtext (Child "EventType") event
                       = Some "Stages|Stages"%string) /\ e = 0)) as [[? _]|_];
      [contradiction | reflexivity].
Qed.

Lemma parse_events_unchecked (e : Z) (events : list element) :
  e <= 0 -> Forall valid_event events ->
  forall start acc,
    parse_events e events (start, acc)
    = if decide (Exists is_stage_event events /\ e = 0)
      then Raise ZeroDivisionError
      else Ok (fold_left
                 (fun s event =>
                    if decide (is_start_event event) then event_clock_time event else s)
                 events start,
               acc).
Proof.
  intros He Hall. induction Hall as [|event events Hev _ IH]; intros start acc.
  - cbn [parse_events fold_left].
    destruct (decide (Exists is_stage_event [] /\ e = 0)) as [[H _]|_];
      [inversion H | reflexivity].
  - cbn [parse_events fold_left].
    rewrite (parse_event_unchecked e start acc event He Hev).
    destruct (decide (is_stage_event event /\ e = 0)) as [[Hg H0]|Hn].
    + destruct (decide (Exists is_stage_event (event :: events) /\ e = 0))
        as [_|Hn]; [reflexivity|].
      exfalso. apply Hn. split; [now apply Exists_cons_hd | exact H0].
    + unfold mbind, result_bind. rewrite IH.
      destruct (decide (Exists is_stage_event events /\ e = 0)) as [[Hex H0]|Hn'];
        destruct (decide (Exists is_stage_event (event :: events) /\ e = 0))
          as [[Hex' H0']|Hn'']; try reflexivity.
      * exfalso. apply Hn''. split; [now apply Exists_cons_tl | exact H0].
      * exfalso. inversion Hex'; subst; tauto.
Qed.

(** X1. [EpochLength] is not checked for positivity.  On a document that
    is valid otherwise, an epoch length of zero makes the parser raise
    [ZeroDivisionError] as soon as there is a staging event, and a negative
    epoch length (or zero without staging events) is accepted: the parser
    returns no sleep stages at all and hands the epoch length on. *)
Theorem epoch_length_unchecked (xml_filepath : string) (root : element)
    (s : string) (e : Z) (rd : Py.pyfloat) :
  findtext (Child "EpochLength") root = Some s -> Py.int s = Ok e -> e <= 0 ->
  (exists sd, recording_duration_field root = Some sd /\ Py.float sd = Ok rd) ->
  Forall valid_event (events_of root) ->
  Exists is_start_event (events_of root) ->
  (e = 0 -> Exists is_stage_event (events_of root) ->
   _parse_nsrr_xml xml_filepath (Some (Document root)) = Raise ZeroDivisionError) /\
  (e < 0 \/ ~ Exists is_stage_event (events_of root) ->
   exists start,
     declared_start_time (events_of root) = Some start /\
     _parse_nsrr_xml xml_filepath (Some (Document root))
     = Ok (mk_ParseNsrrXmlResult [] e start rd)).
Proof.
  intros Hs Hint He [sd [Hsd Hfloat]] Hall Hex.
  pose proof (events_of_nonempty root (Exists_nonempty _ _ Hex)) as Hse.
  cbn [_parse_nsrr_xml].
  rewrite (parse_root_events xml_filepath root s sd e rd Hs Hint Hsd Hfloat Hse).
  rewrite (parse_events_unchecked e _ He Hall None []).
  split.
  - intros H0 Hg.
    destruct (decide (Exists is_stage_event (events_of root) /\ e = 0)) as [_|Hn];
      [reflexivity | tauto].
  - intros Hcase.
    destruct (decide (Exists is_stage_event (events_of root) /\ e = 0)) as [[Hg H0]|_];
      [destruct Hcase; [lia | tauto]|].
    destruct (declared_start_time_Some (events_of root) Hall None (or_intror Hex))
      as [start Hstart].
    exists start. unfold declared_start_time. rewrite Hstart. split; reflexivity.
Qed.

Lemma epoch_length_unchecked_witness :
  _parse_nsrr_xml "zero.xml"
    (Some (Document (annotation_with_epoch_length "0"
       [start_event_example; stage_event_example "Stage 2 sleep|2" "60"])))
  = Raise ZeroDivisionError /\
  _parse_nsrr_xml "negative.xml"
    (Some (Document (annotation_with_epoch_length "-30"
       [start_event_example; stage_event_example "Stage 2 sleep|2" "60"])))
  = Ok (mk_ParseNsrrXmlResult [] (-30) (mk_time 22 15 7 0) (Py.Finite 120)).
Proof.
  assert (Hvalid : forall s,
    Forall valid_event
      (events_of (annotation_with_epoch_length s
         [start_event_example; stage_event_example "Stage 2 sleep|2" "60"]))).
  { intros s. constructor; [|constructor; [|constructor]].
    - split.
      + intros _. vm_compute. eexists; reflexivity.
      + intros H. vm_compute in H. discriminate.
    - split.
      + intros H. vm_compute in H. discriminate.
      + intros _. split.
        * vm_compute. eexists; reflexivity.
        * exists 60%Q. split; [vm_compute; reflexivity | discriminate]. }
  split.
  - refine (proj1 (epoch_length_unchecked "zero.xml" _ "0" 0 (Py.Finite 120)
                     _ _ _ _ (Hvalid "0"%string) _) _ _).
    + reflexivity.
    + reflexivity.
    + lia.
    + exists "120.0"%string. split; [reflexivity | vm_compute; reflexivity].
    + apply Exists_cons_hd. reflexivity.
    + reflexivity.
    + apply Exists_cons_tl, Exists_cons_hd. reflexivity.
  - set (root := annotation_with_epoch_length "-30"
                   [start_event_example; stage_event_example "Stage 2 sleep|2" "60"]).
    assert (Hs : Exists is_start_event (events_of root))
      by (apply Exists_cons_hd; reflexivity).
    assert (Hd : exists sd, recording_duration_field root = Some sd /\
                            Py.float sd = Ok (Py.Finite 120))
      by (exists "120.0"%string; split; [reflexivity | vm_compute; reflexivity]).
    assert (Hle : -30 <= 0) by lia.
    destruct (proj2 (epoch_length_unchecked "negative.xml" root "-30" (-30)
                       (Py.Finite 120) eq_refl eq_refl Hle Hd
                       (Hvalid "-30"%string) Hs)) as [start [Hstart ->]].
    + left. lia.
    + vm_compute in Hstart. injection Hstart as <-. reflexivity.
Defined.

(** ** The stages against the staged time *)

Lemma Qtrunc_nonneg_le (d : Q) : (0 <= d)%Q -> 0 <= Py.Qtrunc d.
Proof.
  intros Hd. rewrite (Qtrunc_nonneg d Hd). change 0 with (Qfloor 0).
  now apply Qfloor_resp_le.
Qed.

(** The epochs of one valid staging event against its whole seconds. *)
Lemma event_epochs_seconds (e : Z) (event : element) :
  0 < e -> valid_event event -> is_stage_event event ->
  let n := Z.of_nat (length (event_epochs e event)) in
  n * e <= event_seconds event <= n * e + (e - 1).
Proof.
  intros He [_ Hstage] Hg. destruct (Hstage Hg) as [[stage Hl] [d [Hd Hpos]]].
  unfold event_epochs, event_seconds.
  destruct (decide (is_stage_event event)); [|contradiction].
  rewrite Hd, Hl. rewrite repeat_length.
  rewrite (Qfloor_div_pos d e He), (Qtrunc_nonneg d Hpos).
  pose proof (Qtrunc_nonneg_le d Hpos) as Hq. rewrite (Qtrunc_nonneg d Hpos) in Hq.
  cbv zeta. rewrite Z2Nat.id by (apply Z.div_pos; lia).
  pose proof (Z.div_mod (Qfloor d) e ltac:(lia)) as Hdm.
  pose proof (Z.mod_pos_bound (Qfloor d) e He) as Hm.
  rewrite (Z.mul_comm (Qfloor d / e) e). lia.
Qed.

Lemma flat_map_epochs_seconds (e : Z) (events : list element) :
  0 < e -> Forall valid_event events ->
  let n := Z.of_nat (length (flat_map (event_epochs e) events)) in
  let staging := List.filter (fun event => bool_decide (is_stage_event event)) events in
  let k := Z.of_nat (length staging) in
  n * e <= fold_right Z.add 0 (map event_seconds staging) <= n * e + k * (e - 1).
Proof.
  intros He Hall. induction Hall as [|event events Hev _ IH].
  - cbn. lia.
  - cbn [flat_map List.filter]. cbv zeta in *.
    destruct (bool_decide_reflect (is_stage_event event)) as [Hg|Hg].
    + pose proof (event_epochs_seconds e event He Hev Hg) as H1. cbv zeta in H1.
      cbn [map fold_right length]. rewrite length_app, !Nat2Z.inj_add, Nat2Z.inj_succ.
      nia.
    + unfold event_epochs at 1 3.
      destruct (decide (is_stage_event event)); [contradiction|].
      cbn [app]. exact IH.
Qed.



(** ** Several start events *)

Lemma fold_start_no_start (events : list element) (start : option time) :
  ~ Exists is_start_event events ->
  fold_left
    (fun s event => if decide (is_start_event event) then event_clock_time event else s)
    events start = start.
Proof.
  revert start. induction events as [|event events IH]; intros start Hn; [reflexivity|].
  cbn [fold_left].
  destruct (decide (is_start_event event)) as [Hs|_].
  - exfalso. apply Hn. now apply Exists_cons_hd.
  - apply IH. intros Hex. apply Hn. now apply Exists_cons_tl.
Qed.

(** X3. When a valid annotation file holds several "Recording Start Time"
    events, the start time of the result is the clock time of the last of
    them in document order: every such event overwrites [start_time]. *)
Theorem last_start_event_wins (xml_filepath : string) (root : element)
    (e : Z) (rd : Py.pyfloat) (before after : list element) (event : element) :
  valid_annotation root e rd ->
  events_of root = before ++ event :: after ->
  is_start_event event ->
  ~ Exists is_start_event after ->
  exists r,
    _parse_nsrr_xml xml_filepath (Some (Document root)) = Ok r /\
    event_clock_time event = Some (px_recording_start_time r).
Proof.
  intros Hvalid Hevents Hs Hafter.
  destruct (parse_root_valid xml_filepath root e rd Hvalid) as [start [Hstart Hparse]].
  eexists. split; [exact Hparse|]. cbn [px_recording_start_time].
  unfold declared_start_time in Hstart. rewrite Hevents in Hstart.
  rewrite fold_left_app in Hstart. cbn [fold_left] in Hstart.
  destruct (decide (is_start_event event)); [|contradiction].
  now rewrite (fold_start_no_start after _ Hafter) in Hstart.
Qed.

Lemma two_starts_valid :
  valid_annotation
    (annotation_example
       [start_event_at "00.00.00 21.00.00"; stage_event_example "Wake|0" "30";
        start_event_at "00.00.00 23.30.15"])
    30 (Py.Finite 120).
Proof.
  constructor.
  - exists "30"%string. split; reflexivity.
  - lia.
  - exists "120.0"%string. split; [reflexivity | vm_compute; reflexivity].
  - discriminate.
  - constructor; [|constructor; [|constructor; [|constructor]]].
    + split.
      * intros _. vm_compute. eexists; reflexivity.
      * intros H. vm_compute in H. discriminate.
    + split.
      * intros H. vm_compute in H. discriminate.
      * intros _. split.
        -- vm_compute. eexists; reflexivity.
        -- exists 30%Q. split; [vm_compute; reflexivity | discriminate].
    + split.
      * intros _. vm_compute. eexists; reflexivity.
      * intros H. vm_compute in H. discriminate.
  - apply Exists_cons_hd. reflexivity.
Qed.

Lemma last_start_event_wins_witness :
  exists r,
    _parse_nsrr_xml "two-starts.xml"
      (Some (Document
         (annotation_example
            [start_event_at "00.00.00 21.00.00"; stage_event_example "Wake|0" "30";
             start_event_at "00.00.00 23.30.15"]))) = Ok r /\
    event_clock_time (start_event_at "00.00.00 23.30.15")
    = Some (px_recording_start_time r).
Proof.
  apply (last_start_event_wins "two-starts.xml" _ 30 (Py.Finite 120)
           [start_event_at "00.00.00 21.00.00"; stage_event_example "Wake|0" "30"]
           [] (start_event_at "00.00.00 23.30.15") two_starts_valid).
  - reflexivity.
  - reflexivity.
  - intros H. inversion H.
Defined.

(* ===================================================================== *)
(** * Further properties of the activity alignment *)
(* ===================================================================== *)

(** ** The label of the end time *)

Lemma hour_of_range (d : datetime.datetime) : 0 <= datetime.hour_of d < 24.
Proof. unfold datetime.hour_of. apply Z.mod_pos_bound. lia. Qed.

Lemma list_ascii_string_app (a b : string) :
  list_ascii_of_string (a +:+ b) = list_ascii_of_string a ++ list_ascii_of_string b.
Proof.
  induction a as [|x a IH]; [reflexivity|].
  change (x :: list_ascii_of_string (a +:+ b)
          = x :: (list_ascii_of_string a ++ list_ascii_of_string b)).
  now rewrite IH.
Qed.

Lemma string_of_list_ascii_app (a b : list ascii) :
  string_of_list_ascii (a ++ b) = string_of_list_ascii a +:+ string_of_list_ascii b.
Proof.
  induction a as [|x a IH]; [reflexivity|].
  change (String x (string_of_list_ascii (a ++ b))
          = String x (string_of_list_ascii a +:+ string_of_list_ascii b)).
  now rewrite IH.
Qed.

Lemma drop_while_app_stop {A} (p : A -> bool) (l : list A) (x : A) (rest : list A) :
  p x = false ->
  Py.drop_while p (l ++ x :: rest) = Py.drop_while p l ++ x :: rest.
Proof.
  intros Hx. induction l as [|y l IH]; cbn [app Py.drop_while].
  - now rewrite Hx.
  - destruct (p y); [exact IH | reflexivity].
Qed.

(** [lstrip("0")] in front of a separator: only the zeros of the first
    field can go. *)
Lemma lstrip_field (field rest : string) :
  Py.lstrip "0" (field +:+ ":" +:+ rest)
  = string_of_list_ascii
      (Py.drop_while (fun x => Ascii.eqb x "0") (list_ascii_of_string field))
    +:+ ":" +:+ rest.
Proof.
  unfold Py.lstrip. rewrite list_ascii_string_app.
  change (list_ascii_of_string (":" +:+ rest))
    with (":"%char :: list_ascii_of_string rest).
  rewrite drop_while_app_stop by reflexivity.
  rewrite string_of_list_ascii_app.
  change (string_of_list_ascii (":"%char :: list_ascii_of_string rest))
    with (String ":" (string_of_list_ascii (list_ascii_of_string rest))).
  now rewrite string_of_list_ascii_of_string.
Qed.

(** X4. The label that the alignment looks for in the [linetime] column is
    the rounded end time formatted as [%H:%M:%S] and stripped of its
    leading zeros: from 10 o'clock on it is the full [HH:MM:SS]; from 1 to
    9 o'clock the hour is a single digit; and in the hour after midnight
    both zeros of the hour go, so that the label starts with the colon. *)
Theorem end_time_label_format (recording_end_time : datetime.datetime) :
  let t := rounded_end_time recording_end_time in
  let minutes_seconds :=
    zero_pad 2 (datetime.minute_of t) +:+ ":" +:+ zero_pad 2 (datetime.second_of t) in
  (10 <= datetime.hour_of t ->
   end_time_label recording_end_time = datetime.strftime_HMS t) /\
  (1 <= datetime.hour_of t <= 9 ->
   end_time_label recording_end_time
   = pretty (datetime.hour_of t) +:+ ":" +:+ minutes_seconds) /\
  (datetime.hour_of t = 0 ->
   end_time_label recording_end_time = ":" +:+ minutes_seconds).
Proof.
  cbv zeta. unfold end_time_label, datetime.strftime_HMS.
  generalize (rounded_end_time recording_end_time) as t. intros t.
  rewrite lstrip_field.
  pose proof (hour_of_range t) as Hr.
  generalize dependent (datetime.hour_of t). intros h Hr.
  assert (Hcases : h = 0 \/ h = 1 \/ h = 2 \/ h = 3 \/ h = 4 \/ h = 5 \/ h = 6 \/
                   h = 7 \/ h = 8 \/ h = 9 \/ h = 10 \/ h = 11 \/ h = 12 \/ h = 13 \/
                   h = 14 \/ h = 15 \/ h = 16 \/ h = 17 \/ h = 18 \/ h = 19 \/
                   h = 20 \/ h = 21 \/ h = 22 \/ h = 23) by lia.
  repeat (destruct Hcases as [->|Hcases]; [repeat split; intros; try lia; reflexivity|]).
  subst h. repeat split; intros; try lia; reflexivity.
Qed.

Lemma end_time_label_format_witness :
  end_time_label (datetime.combine_today (mk_time 22 17 7 0)) = "22:17:00"%string /\
  end_time_label (datetime.combine_today (mk_time 7 59 50 0)) = "8:00:00"%string /\
  end_time_label (datetime.combine_today (mk_time 23 59 50 0)) = ":00:00"%string.
Proof.
  split; [|split].
  - rewrite (proj1 (end_time_label_format (datetime.combine_today (mk_time 22 17 7 0))));
      [reflexivity | vm_compute; discriminate].
  - rewrite (proj1 (proj2 (end_time_label_format
                             (datetime.combine_today (mk_time 7 59 50 0)))));
      [reflexivity | vm_compute; split; discriminate].
  - rewrite (proj2 (proj2 (end_time_label_format
                             (datetime.combine_today (mk_time 23 59 50 0)))));
      [reflexivity | reflexivity].
Defined.

(** ** The search for the end line *)

(** X5. The search for the end line runs over the whole actigraphy file
    from its first row, whatever the start line: the end line is the [line]
    field of the first row whose [linetime] equals the label, and the
    search finds nothing when no row has that [linetime]. *)
Theorem end_line_is_first_match (label : string)
    (activity_data : list (gmap string string)) :
  (forall before item after line end_line,
     activity_data = before ++ item :: after ->
     Forall (fun row => row !! "linetime"%string <> Some label) before ->
     item !! "linetime"%string = Some label ->
     item !! "line"%string = Some line ->
     Py.int line = Ok end_line ->
     find_end_line activity_data label = Ok (Some end_line)) /\
  (Forall (fun row => row !! "linetime"%string <> Some label) activity_data ->
   find_end_line activity_data label = Ok None).
Proof.
  split.
  - intros before item after line end_line -> Hbefore Htime Hline Hint.
    induction Hbefore as [|row before Hrow _ IH].
    + cbn [app find_end_line].
      destruct (decide (item !! "linetime"%string = Some label)); [|contradiction].
      unfold getitem. rewrite Hline. cbn [of_option].
      unfold mbind, result_bind. now rewrite Hint.
    + cbn [app find_end_line].
      destruct (decide (row !! "linetime"%string = Some label)); [contradiction|].
      exact IH.
  - induction 1 as [|row rows Hrow _ IH]; [reflexivity|].
    cbn [find_end_line].
    destruct (decide (row !! "linetime"%string = Some label)); [contradiction|].
    exact IH.
Qed.

Lemma end_line_is_first_match_witness :
  find_end_line
    (map (dict_zip ["line"; "linetime"]%string)
       [ ["7"; "22:16:30"]; ["8"; "22:17:00"]; ["9"; "22:17:00"] ]%string)
    "22:17:00"
  = Ok (Some 8) /\
  find_end_line
    (map (dict_zip ["line"; "linetime"]%string) [ ["7"; "22:16:30"] ]%string)
    "22:17:00"
  = Ok None.
Proof.
  split.
  - apply (proj1 (end_line_is_first_match "22:17:00" _)
             [dict_zip ["line"; "linetime"]%string ["7"; "22:16:30"]%string]
             (dict_zip ["line"; "linetime"]%string ["8"; "22:17:00"]%string)
             [dict_zip ["line"; "linetime"]%string ["9"; "22:17:00"]%string]
             "8"%string 8).
    + reflexivity.
    + constructor; [|constructor]. vm_compute. discriminate.
    + vm_compute. reflexivity.
    + vm_compute. reflexivity.
    + reflexivity.
  - apply (proj2 (end_line_is_first_match "22:17:00" _)).
    constructor; [|constructor]. vm_compute. discriminate.
Defined.

(** ** Reconciliation *)

(** X6. The reconciliation of the lengths never changes a count that
    lines up with a sleep stage and never invents one: where the candidate
    has a value for an epoch, the emitted sequence has that value for it,
    and every emitted value occurs in the candidate. *)
Theorem reconcile_keeps_candidate {A} (activity_counts : list A)
    (sleep_stages_len : nat) (out : list A) :
  reconcile activity_counts sleep_stages_len = Some out ->
  (forall i,
     (i < length activity_counts)%nat -> (i < sleep_stages_len)%nat ->
     nth_error out i = nth_error activity_counts i) /\
  (forall x, In x out -> In x activity_counts).
Proof.
  unfold reconcile, Py.slice_to, Py.slice_from, Py.clamp_index.
  set (len := length activity_counts).
  intros H.
  destruct (Z.abs _ >? 2); [discriminate|].
  destruct (Z.gtb_spec (Z.of_nat len - Z.of_nat sleep_stages_len) 0) as [Hpos|Hle].
  - injection H as <-.
    destruct (Z.ltb_spec (- (Z.of_nat len - Z.of_nat sleep_stages_len)) 0); [|lia].
    replace (Z.to_nat _) with sleep_stages_len by lia.
    split.
    + intros i _ Hi. now rewrite nth_error_firstn, (proj2 (Nat.ltb_lt _ _) Hi).
    + intros x Hin. rewrite <- (firstn_skipn sleep_stages_len activity_counts).
      apply in_or_app. now left.
  - destruct (Z.ltb_spec (Z.of_nat len - Z.of_nat sleep_stages_len) 0) as [Hneg|Hge].
    + injection H as <-. split.
      * intros i Hi _. now apply nth_error_app1.
      * intros x Hin. apply in_app_or in Hin as [Hin|Hin]; [exact Hin|].
        match type of Hin with
        | In _ (skipn ?n _) => rewrite <- (firstn_skipn n activity_counts)
        end.
        apply in_or_app. now right.
    + injection H as <-. split; auto.
Qed.

Lemma reconcile_keeps_candidate_witness :
  reconcile [10; 20; 30; 40; 50] 3 = Some [10; 20; 30] /\
  nth_error [10; 20; 30] 2 = nth_error [10; 20; 30; 40; 50] 2.
Proof.
  split; [reflexivity|].
  apply (proj1 (reconcile_keeps_candidate [10; 20; 30; 40; 50] 3 [10; 20; 30] eq_refl) 2%nat);
    cbn; lia.
Defined.

(* ===================================================================== *)
(** * Further properties of the readers *)
(* ===================================================================== *)

(** ** What the loops print *)

Section Quiet.

Lemma quiet_ret {A} (a : A) : quiet (ret a).
Proof. intros w. split; [discriminate | reflexivity]. Qed.

Lemma quiet_raise {A} (e : exn) : quiet (@raise A e).
Proof. intros w. split; [discriminate | reflexivity]. Qed.

Lemma quiet_lift {A} (r : result A) : quiet (lift r).
Proof. destruct r; [apply quiet_ret | apply quiet_raise]. Qed.

Lemma quiet_bind {A B} (m : M A) (f : A -> M B) :
  quiet m -> (forall a, quiet (f a)) -> quiet (bind m f).
Proof.
  intros Hm Hf w. unfold bind. specialize (Hm w).
  destruct (m w) as [[a|e|] w1]; cbn [fst snd] in *.
  - destruct (Hf a w1) as [H1 H2]. split; [exact H1 | now rewrite H2].
  - split; [discriminate | tauto].
  - tauto.
Qed.

Lemma quiet_when (cond : bool) (m : M unit) : quiet m -> quiet (when cond m).
Proof. destruct cond; [auto | intros _; apply quiet_ret]. Qed.

Lemma quiet_is_file (path : string) : quiet (is_file path).
Proof. intros w. split; [discriminate | reflexivity]. Qed.

Lemma quiet_read_file (path : string) : quiet (read_file path).
Proof.
  intros w. unfold read_file. destruct (files w !! path);
    (split; [discriminate | reflexivity]).
Qed.

Lemma quiet_write_file (path : string) (f : file) : quiet (write_file path f).
Proof. intros w. split; [discriminate | reflexivity]. Qed.

Lemma quiet_unlink (path : string) : quiet (unlink path).
Proof.
  intros w. unfold unlink. destruct (files w !! path);
    (split; [discriminate | reflexivity]).
Qed.

Lemma quiet_xml_at (path : string) : quiet (xml_at path).
Proof.
  intros w. unfold xml_at. destruct (files w !! path) as [[]|];
    (split; [discriminate | reflexivity]).
Qed.

Lemma quiet_listdir : quiet listdir.
Proof. intros w. split; [discriminate | reflexivity]. Qed.

Lemma quiet_next_path (l : list string) : quiet (next_path l).
Proof. destruct l; [apply quiet_raise | apply quiet_ret]. Qed.

Lemma quiet_first_entry (l : list (string * string)) : quiet (first_entry l).
Proof. apply quiet_lift. Qed.

Lemma quiet_decode_error {A} (path : string) : quiet (@decode_error A path).
Proof. apply quiet_raise. Qed.

Variable c : collaborators.

Lemma quiet_download (url path checksum : string) :
  quiet (_download_nsrr_file c url path checksum).
Proof.
  intros w. unfold _download_nsrr_file, write_file.
  destruct (files w !! path) as [f|]; [destruct (String.eqb (md5 c f) checksum)|];
    destruct (served c !! url) as [g|];
    try destruct (String.eqb (md5 c g) checksum);
    (split; [discriminate | reflexivity]).
Qed.

Lemma quiet_for_each {A} (body : A -> M unit) (l : list A) :
  (forall x, quiet (body x)) -> quiet (for_each body l).
Proof.
  intros Hbody. induction l as [|x l IH]; cbn [for_each].
  - apply quiet_ret.
  - apply quiet_bind; [apply Hbody | intros _; exact IH].
Qed.

Lemma quiet_download_nsrr (db_slug subfolder pattern : string) (shallow : bool)
    (data_dir : string) :
  quiet (download_nsrr c db_slug subfolder pattern shallow data_dir).
Proof. apply quiet_for_each. intros x. apply quiet_download. Qed.

End Quiet.

Create HintDb quiet.

#[local] Hint Resolve quiet_ret quiet_raise quiet_lift quiet_is_file
  quiet_read_file quiet_write_file quiet_unlink quiet_xml_at quiet_listdir
  quiet_next_path quiet_first_entry quiet_decode_error quiet_download
  quiet_download_nsrr : quiet.

Ltac quiet_steps :=
  repeat first
    [ apply quiet_bind; [|intros ?]
    | apply quiet_when
    | match goal with
      | |- quiet (if ?b then _ else _) => destruct b
      | |- quiet (match ?x with _ => _ end) => destruct x
      | |- quiet (let '(_, _) := ?x in _) => destruct x
      end
    | solve [auto with quiet] ].

Lemma quiet_np_save (path : string) (a : list Py.pyfloat) : quiet (np_save path a).
Proof. apply quiet_write_file. Qed.

Lemma quiet_np_load (path : string) : quiet (np_load path).
Proof. unfold np_load. quiet_steps. Qed.

Lemma quiet_np_loadtxt_column (path : string) : quiet (np_loadtxt_column path).
Proof. unfold np_loadtxt_column. quiet_steps. Qed.

Lemma quiet_np_loadtxt_int_table (path : string) : quiet (np_loadtxt_int_table path).
Proof. unfold np_loadtxt_int_table. quiet_steps. Qed.

Lemma quiet_csv_rows (path : string) : quiet (csv_rows path).
Proof. unfold csv_rows. quiet_steps. Qed.

Lemma quiet_read_edf_signal (path label : string) : quiet (read_edf_signal path label).
Proof. unfold read_edf_signal. quiet_steps. Qed.

Lemma quiet_bound {A} (var : string) (x : option A) : quiet (bound var x).
Proof. apply quiet_lift. Qed.

Lemma quiet_download_listed (c : collaborators) (download_url : string)
    (checksums : gmap string string) (filename filepath : string) :
  quiet (download_listed c download_url checksums filename filepath).
Proof. unfold download_listed. quiet_steps. Qed.

#[local] Hint Resolve quiet_np_save quiet_np_load quiet_np_loadtxt_column
  quiet_np_loadtxt_int_table quiet_csv_rows quiet_read_edf_signal quiet_bound
  quiet_download_listed : quiet.

Lemma quiet_read_annotation (c : collaborators) (a : reader_args)
    (db_dir download_url : string) (checksums : gmap string string)
    (xml_filename : string) :
  quiet (read_annotation c a db_dir download_url checksums xml_filename).
Proof. unfold read_annotation. quiet_steps. Qed.

#[local] Hint Resolve quiet_read_annotation : quiet.

Lemma quiet_mesa_prelude (c : collaborators) (args : reader_args * option string) :
  quiet (mesa_prelude c args).
Proof.
  destruct args as [a activity_source].
  unfold mesa_prelude, mesa_online, mesa_offline. quiet_steps.
Qed.

Lemma quiet_shhs_prelude (c : collaborators) (a : reader_args) :
  quiet (shhs_prelude c a).
Proof. unfold shhs_prelude, shhs_load_subjects. quiet_steps. Qed.

Section Reports.

Variable record_id : string.

Lemma quiet_reports {A} (m : M A) : quiet m -> reports_skips record_id m.
Proof.
  intros H w. destruct (H w) as [H1 H2].
  destruct (m w).1; [exact H2 | exact H2 | contradiction].
Qed.

Lemma reports_skip {A} (line : string) :
  skip_line record_id line ->
  reports_skips record_id (bind (print line) (fun _ => @continue A)).
Proof. intros H w. cbn. exists line. split; [exact H | reflexivity]. Qed.

Lemma reports_bind {A B} (m : M A) (f : A -> M B) :
  reports_skips record_id m -> (forall a, reports_skips record_id (f a)) ->
  reports_skips record_id (bind m f).
Proof.
  intros Hm Hf w. unfold bind. specialize (Hm w).
  destruct (m w) as [[a|e|] w1]; cbn [fst snd] in *.
  - specialize (Hf a w1). destruct (f a w1).1; rewrite Hm in Hf; exact Hf.
  - exact Hm.
  - exact Hm.
Qed.

Lemma reports_when (cond : bool) (m : M unit) :
  reports_skips record_id m -> reports_skips record_id (when cond m).
Proof. destruct cond; [auto | intros _; apply quiet_reports, quiet_ret]. Qed.

End Reports.

Ltac reports_steps :=
  repeat first
    [ solve [apply reports_skip; eexists; reflexivity]
    | apply reports_bind; [|intros ?]
    | apply reports_when
    | match goal with
      | |- reports_skips _ (if ?b then _ else _) => destruct b
      | |- reports_skips _ (match ?x with _ => _ end) => destruct x
      end
    | solve [apply quiet_reports; quiet_steps] ].

Lemma reports_mesa_body (c : collaborators) (L : mesa_frame) (record_id : string) :
  reports_skips record_id (mesa_body c L record_id).
Proof.
  unfold mesa_body, mesa_heartbeats, mesa_activity, mesa_actigraphy.
  reports_steps.
Qed.

Lemma reports_shhs_body (c : collaborators) (L : shhs_frame) (record_id : string) :
  reports_skips record_id (shhs_body c L record_id).
Proof.
  unfold shhs_body, shhs_heartbeats.
  reports_steps.
Qed.

Lemma mesa_body_id (c : collaborators) (L : mesa_frame) (record_id : string)
    (w w' : world) (record : SleepRecord) :
  mesa_body c L record_id w = (Normal record, w') -> id record = record_id.
Proof.
  rewrite mesa_body_phases. intros H. bind_inv H.
  apply ret_inv in H as [<- _]. reflexivity.
Qed.

Lemma shhs_body_id (c : collaborators) (L : shhs_frame) (record_id : string)
    (w w' : world) (record : SleepRecord) :
  shhs_body c L record_id w = (Normal record, w') ->
  id record = str_slice (Some 6) None record_id.
Proof.
  rewrite shhs_body_phases. intros H. bind_inv H.
  apply ret_inv in H as [<- _]. reflexivity.
Qed.

Section Loop_output.

Context {A F : Type}.
Variable prelude : A -> M (F * list string).
Variable body : F -> string -> M SleepRecord.
Variable record_of : string -> string.
Hypothesis prelude_quiet : forall args, quiet (prelude args).
Hypothesis body_reports :
  forall frame record_id, reports_skips record_id (body frame record_id).
Hypothesis body_id :
  forall frame record_id w w' record,
    body frame record_id w = (Normal record, w') -> id record = record_of record_id.

Lemma resume_turn (frame : F) (ids : list string) (w w' : world) (o : outcome)
    (g : generator A F) :
  resume body frame ids w = (o, g, w') ->
  exists skipped lines,
    Forall2 skip_line skipped lines /\
    stdout w' = stdout w ++ lines /\
    turn record_of ids o skipped (remaining_ids g).
Proof.
  revert w. induction ids as [|record_id rest IH]; intros w H.
  - injection H as <- <- <-. exists [], []. cbn. rewrite app_nil_r. now repeat split.
  - cbn [resume] in H. pose proof (body_reports frame record_id w) as Hr.
    destruct (body frame record_id w) as [[r|e|] w1] eqn:E; cbn [fst snd] in Hr.
    + injection H as <- <- <-. exists [], []. rewrite app_nil_r.
      repeat split; [constructor | exact Hr|].
      exists record_id, rest. repeat split. eapply body_id; exact E.
    + injection H as <- <- <-. exists [], []. rewrite app_nil_r.
      repeat split; [constructor | exact Hr|].
      exists record_id, rest. now split.
    + destruct Hr as (line & Hline & Hout).
      destruct (IH _ H) as (skipped & lines & Hall & Hout' & Hturn).
      exists (record_id :: skipped), (line :: lines).
      split; [now constructor|]. split.
      * rewrite Hout', Hout, <- app_assoc. reflexivity.
      * destruct o as [r| |e]; cbn in *.
        -- destruct Hturn as (rid & rest' & -> & Hid & Hrem).
           exists rid, rest'. now repeat split.
        -- destruct Hturn as [-> Hrem]. now split.
        -- destruct Hturn as (rid & rest' & -> & Hrem).
           exists rid, rest'. now split.
Qed.

Lemma next_output (g g' : generator A F) (w w' : world) (o : outcome) :
  next prelude body g w = (o, g', w') ->
  exists skipped lines,
    Forall2 skip_line skipped lines /\ stdout w' = stdout w ++ lines.
Proof.
  destruct g as [args|frame remaining|]; cbn [next].
  - destruct (prelude_quiet args w) as [Hc Hout].
    destruct (prelude args w) as [[[frame ids]|e|] w1]; cbn [fst snd] in *.
    + intros H. destruct (resume_turn _ _ _ _ _ _ H) as (skipped & lines & H1 & H2 & _).
      exists skipped, lines. split; [exact H1 | now rewrite H2, Hout].
    + intros H. injection H as <- <- <-. exists [], [].
      split; [constructor | now rewrite app_nil_r].
    + contradiction.
  - intros H. destruct (resume_turn _ _ _ _ _ _ H) as (skipped & lines & H1 & H2 & _).
    now exists skipped, lines.
  - intros H. injection H as <- <- <-. exists [], [].
    split; [constructor | now rewrite app_nil_r].
Qed.

End Loop_output.

(** X7. The only output of the two readers is the report of their skips.
    In one [next] the loop skips zero or more of the ids it was left with,
    printing one line "Skipping <id> due to ..." for each of them in
    order, and then yields the record of the following id, fails on it, or
    stops at the end of the ids; a turn that yields or fails prints nothing.
    [read_mesa] yields the record under its id, [read_shhs] under the id
    without its first six characters (the subdirectory). *)
Theorem skips_are_reported (c : collaborators) :
  (forall L ids w o g w',
     mesa_resume c L ids w = (o, g, w') ->
     exists skipped lines,
       Forall2 skip_line skipped lines /\
       stdout w' = stdout w ++ lines /\
       turn (fun record_id => record_id) ids o skipped (remaining_ids g)) /\
  (forall L ids w o g w',
     shhs_resume c L ids w = (o, g, w') ->
     exists skipped lines,
       Forall2 skip_line skipped lines /\
       stdout w' = stdout w ++ lines /\
       turn (str_slice (Some 6) None) ids o skipped (remaining_ids g)) /\
  (forall g w o g' w',
     mesa_next c g w = (o, g', w') ->
     exists skipped lines,
       Forall2 skip_line skipped lines /\ stdout w' = stdout w ++ lines) /\
  (forall g w o g' w',
     shhs_next c g w = (o, g', w') ->
     exists skipped lines,
       Forall2 skip_line skipped lines /\ stdout w' = stdout w ++ lines).
Proof.
  repeat split.
  - intros L ids w o g w'.
    apply (resume_turn (mesa_body c) (fun record_id => record_id)
             (reports_mesa_body c) (mesa_body_id c)).
  - intros L ids w o g w'.
    apply (resume_turn (shhs_body c) (str_slice (Some 6) None)
             (reports_shhs_body c) (shhs_body_id c)).
  - intros g w o g' w'.
    apply (next_output (mesa_prelude c) (mesa_body c) (fun record_id => record_id)
             (quiet_mesa_prelude c) (reports_mesa_body c) (mesa_body_id c)).
  - intros g w o g' w'.
    apply (next_output (shhs_prelude c) (shhs_body c) (str_slice (Some 6) None)
             (quiet_shhs_prelude c) (reports_shhs_body c) (shhs_body_id c)).
Qed.

Lemma skips_are_reported_witness :
  exists skipped lines,
    Forall2 skip_line skipped lines /\
    ["Skipping mesa-sleep-0001 due to missing heartbeat annotations."%string]
    = [] ++ lines /\
    turn (fun record_id => record_id) ["mesa-sleep-0001"; "mesa-sleep-0002"]%string
      (Yielded record_0002) skipped (Some []).
Proof.
  apply (proj1 (skips_are_reported collaborators_example)
           (mesa_frame_example "annotation" None ∅)
           ["mesa-sleep-0001"; "mesa-sleep-0002"]%string
           mesa_world_missing_rpoints
           (Yielded record_0002)
           (Suspended (mesa_frame_example "annotation" None ∅) [])
           (logged mesa_world_missing_rpoints
              "Skipping mesa-sleep-0001 due to missing heartbeat annotations.")).
  vm_compute. reflexivity.
Defined.

(** ** The files of a record that a turn of the loop leaves alone *)

Lemma untouched_mesa_activity_other (c : collaborators) (L : mesa_frame)
    (record_id path : string) (parsed_xml : _ParseNsrrXmlResult) :
  mesa_activity_filepath L record_id <> path ->
  mesa_activity_counts_file L record_id <> path ->
  untouched path (mesa_activity c L record_id parsed_xml).
Proof.
  intros H1 H2.
  unfold mesa_activity_filepath, mesa_activity_counts_file in *.
  unfold mesa_activity, mesa_actigraphy.
  untouched_steps;
    first [ apply untouched_raise
          | now apply untouched_download
          | now apply untouched_write_file ].
Qed.

(** After the heartbeats of a record, the rest of a turn of the loop of
    [read_mesa] writes the annotation file, the actigraphy file and the
    cache of the activity counts of the record at most. *)
Lemma mesa_body_rest (c : collaborators) (L : mesa_frame) (record_id path : string)
    (w w' : world) (record : SleepRecord) :
  path_join (m_db_dir L) (mesa_xml_filename record_id) <> path ->
  mesa_activity_filepath L record_id <> path ->
  mesa_activity_counts_file L record_id <> path ->
  mesa_body c L record_id w = (Normal record, w') ->
  exists w1,
    mesa_heartbeats c L record_id w = (Normal (Some (heartbeat_times record)), w1) /\
    files w' !! path = files w1 !! path.
Proof.
  intros Hxml Hact Hcounts H.
  destruct (mesa_body_heartbeats c L record_id w w' record H) as [w1 E].
  exists w1. split; [exact E|].
  rewrite mesa_body_phases in H. unfold bind at 1 in H. rewrite E in H.
  apply bind_inv_Normal in H as (parsed_xml & w2 & E1 & H). cbv beta in H.
  apply bind_inv_Normal in H as (counts & w3 & E2 & H). cbv beta in H.
  bind_inv H. apply ret_inv in H as [_ <-].
  unfold bound in E0. apply lift_inv in E0 as [_ <-].
  apply lift_inv in E3 as [_ <-].
  pose proof (untouched_mesa_activity_other c L record_id path parsed_xml
                Hact Hcounts w2) as H3.
  rewrite E2 in H3. cbn [snd] in H3. rewrite H3.
  pose proof (untouched_read_annotation path c
                (m_args L) (m_db_dir L) (m_download_url L) (m_checksums L)
                (mesa_xml_filename record_id) Hxml w1) as H2.
  unfold mesa_annotation in E1. rewrite E1 in H2. exact H2.
Qed.

Lemma shhs_body_heartbeats (c : collaborators) (L : shhs_frame)
    (record_id : string) (w w' : world) (record : SleepRecord) :
  shhs_body c L record_id w = (Normal record, w') ->
  exists w1,
    shhs_heartbeats c L record_id w = (Normal (Some (heartbeat_times record)), w1).
Proof.
  rewrite shhs_body_phases. intros H. bind_inv H.
  apply ret_inv in H as [<- _]. cbn [heartbeat_times].
  unfold bound in E1. apply lift_inv in E1 as [E1 _].
  destruct a; [|discriminate]. injection E1 as <-.
  now exists w0.
Qed.

Lemma shhs_body_rest (c : collaborators) (L : shhs_frame) (record_id path : string)
    (w w' : world) (record : SleepRecord) :
  path_join (s_db_dir L) (shhs_xml_filename record_id) <> path ->
  shhs_body c L record_id w = (Normal record, w') ->
  exists w1,
    shhs_heartbeats c L record_id w = (Normal (Some (heartbeat_times record)), w1) /\
    files w' !! path = files w1 !! path.
Proof.
  intros Hxml H.
  destruct (shhs_body_heartbeats c L record_id w w' record H) as [w1 E].
  exists w1. split; [exact E|].
  rewrite shhs_body_phases in H. unfold bind at 1 in H. rewrite E in H.
  apply bind_inv_Normal in H as (parsed_xml & w2 & E1 & H). cbv beta in H.
  bind_inv H. apply ret_inv in H as [_ <-].
  unfold bound in E0. apply lift_inv in E0 as [_ <-].
  apply lift_inv in E2 as [_ <-].
  pose proof (untouched_read_annotation path c
                (s_args L) (s_db_dir L) (s_download_url L) (s_checksums L)
                (shhs_xml_filename record_id) Hxml w1) as H2.
  unfold shhs_annotation in E1. rewrite E1 in H2. exact H2.
Qed.

Lemma mesa_xml_not_heartbeats (L : mesa_frame) (record_id : string) :
  path_join (m_db_dir L) (mesa_xml_filename record_id)
  <> mesa_heartbeats_file L record_id.
Proof. unfold mesa_heartbeats_file, mesa_xml_filename. path_neq. Qed.

Lemma mesa_activity_not_heartbeats (L : mesa_frame) (record_id : string) :
  mesa_activity_filepath L record_id <> mesa_heartbeats_file L record_id.
Proof. unfold mesa_heartbeats_file, mesa_activity_filepath. path_neq. Qed.

Lemma mesa_counts_not_heartbeats (L : mesa_frame) (record_id : string) :
  mesa_activity_counts_file L record_id <> mesa_heartbeats_file L record_id.
Proof. unfold mesa_heartbeats_file, mesa_activity_counts_file. path_neq. Qed.

Lemma shhs_xml_not_heartbeats (L : shhs_frame) (record_id : string) :
  path_join (s_db_dir L) (shhs_xml_filename record_id)
  <> shhs_heartbeats_file L record_id.
Proof. unfold shhs_heartbeats_file, shhs_xml_filename. path_neq. Qed.

Lemma shhs_xml_not_rpoints (L : shhs_frame) (record_id : string) :
  path_join (s_db_dir L) (shhs_xml_filename record_id)
  <> shhs_rpoints_filepath L record_id.
Proof. unfold shhs_rpoints_filepath, shhs_xml_filename. path_neq. Qed.

(** ** The cache of the heartbeat times *)

Lemma shhs_ecg_saves (c : collaborators) (L : shhs_frame) (record_id : string)
    (w w' : world) (hb : option (list Py.pyfloat)) :
  heartbeats_source (s_args L) = "ecg"%string ->
  shhs_heartbeats c L record_id w = (Normal hb, w') ->
  exists times,
    hb = Some times /\
    files w' !! shhs_heartbeats_file L record_id = Some (Npy times).
Proof.
  intros Hsrc H. unfold shhs_heartbeats in H. rewrite Hsrc in H.
  change (String.eqb "ecg" "annotation") with false in H.
  change (String.eqb "ecg" "cached") with false in H.
  rewrite String.eqb_refl in H. cbv iota in H. bind_inv H.
  apply ret_inv in H as [<- <-]. eexists. split; [reflexivity|].
  destruct a3.
  rewrite (when_unlink_lookup _ _ _ _ _ E3)
    by (apply not_eq_sym, shhs_edf_not_heartbeats).
  unfold np_save, write_file in E2. inversion E2; subst.
  cbn [files]. apply lookup_insert_eq.
Qed.

(** X8. In the mode ['ecg'] both readers leave the heartbeat times of
    every record they yield in the cache file of that record: when a turn
    of the loop yields, the file [preprocessed/heartbeats/<record_id>.npy]
    of the dataset holds exactly the [heartbeat_times] of the record. *)
Theorem ecg_times_are_cached (c : collaborators) :
  (forall (L : mesa_frame) record_id w w' record,
     heartbeats_source (m_args L) = "ecg"%string ->
     mesa_body c L record_id w = (Normal record, w') ->
     files w' !! mesa_heartbeats_file L record_id
     = Some (Npy (heartbeat_times record))) /\
  (forall (L : shhs_frame) record_id w w' record,
     heartbeats_source (s_args L) = "ecg"%string ->
     shhs_body c L record_id w = (Normal record, w') ->
     files w' !! shhs_heartbeats_file L record_id
     = Some (Npy (heartbeat_times record))).
Proof.
  split.
  - intros L record_id w w' record Hsrc H.
    destruct (mesa_body_rest c L record_id _ w w' record
                (mesa_xml_not_heartbeats L record_id)
                (mesa_activity_not_heartbeats L record_id)
                (mesa_counts_not_heartbeats L record_id) H) as (w1 & E & ->).
    destruct (mesa_ecg_saves c L record_id w w1 _ Hsrc E) as (times & Ht & Hfile).
    injection Ht as <-. exact Hfile.
  - intros L record_id w w' record Hsrc H.
    destruct (shhs_body_rest c L record_id _ w w' record
                (shhs_xml_not_heartbeats L record_id) H) as (w1 & E & ->).
    destruct (shhs_ecg_saves c L record_id w w1 _ Hsrc E) as (times & Ht & Hfile).
    injection Ht as <-. exact Hfile.
Qed.

Lemma ecg_times_are_cached_witness :
  exists w',
    shhs_body collaborators_example (shhs_frame_example "ecg") "shhs1/shhs1-200001"
      shhs_world_example
    = (Normal (record_200001 heartbeats_example), w') /\
    files w' !! "/data/shhs/preprocessed/heartbeats/shhs1/shhs1-200001.npy"%string
    = Some (Npy heartbeats_example).
Proof.
  eexists. split; [vm_compute; reflexivity|].
  refine (proj2 (ecg_times_are_cached collaborators_example)
            (shhs_frame_example "ecg") "shhs1/shhs1-200001" shhs_world_example _
            (record_200001 heartbeats_example) eq_refl _).
  vm_compute. reflexivity.
Defined.

(** ** Heartbeat times that are read from a file *)

Lemma np_load_inv (path : string) (w w' : world) (a : list Py.pyfloat) :
  np_load path w = (Normal a, w') ->
  files w !! path = Some (Npy a) /\ w' = w.
Proof.
  unfold np_load. intros H. bind_inv H.
  unfold read_file in E. destruct (files w !! path) as [f|]; [|discriminate].
  injection E as <- <-.
  destruct f; try discriminate.
  apply ret_inv in H as [-> ->]. now split.
Qed.

Lemma shhs_heartbeats_annotation (c : collaborators) (L : shhs_frame)
    (record_id : string) (w w' : world) (hb : option (list Py.pyfloat)) :
  heartbeats_source (s_args L) = "annotation"%string ->
  shhs_heartbeats c L record_id w = (Normal hb, w') ->
  exists a,
    files w' !! shhs_rpoints_filepath L record_id = Some (FloatColumn a) /\
    hb = Some a.
Proof.
  intros Hsrc H. unfold shhs_heartbeats in H. rewrite Hsrc in H.
  rewrite String.eqb_refl in H. bind_inv H.
  apply np_loadtxt_column_inv in E1 as [Hfile ->].
  apply ret_inv in H as [<- <-]. exists a1. now split.
Qed.

Lemma mesa_heartbeats_cached (c : collaborators) (L : mesa_frame)
    (record_id : string) (w w' : world) (hb : option (list Py.pyfloat)) :
  heartbeats_source (m_args L) = "cached"%string ->
  mesa_heartbeats c L record_id w = (Normal hb, w') ->
  exists times,
    files w !! mesa_heartbeats_file L record_id = Some (Npy times) /\
    hb = Some times /\ w' = w.
Proof.
  intros Hsrc H. unfold mesa_heartbeats in H. rewrite Hsrc in H.
  change (String.eqb "cached" "annotation") with false in H.
  rewrite String.eqb_refl in H. cbv iota in H. bind_inv H.
  apply np_load_inv in E1 as [Hfile ->].
  apply ret_inv in H as [<- <-].
  apply is_file_inv in E as [-> ->].
  destruct (bool_decide _); cbn [negb when] in E0; [|discriminate].
  apply ret_inv in E0 as [_ <-].
  exists a1. now repeat split.
Qed.

(** X9. The heartbeat times that are read from a file are handed on as
    they are stored.  [read_shhs] in the mode ['annotation'] yields the
    'seconds' column of the heartbeat annotations of the record, value
    for value in the order of the file; [read_mesa] in the mode ['cached']
    yields the array of the cache file of the record. *)
Theorem heartbeats_as_stored (c : collaborators) :
  (forall (L : shhs_frame) record_id w w' record,
     heartbeats_source (s_args L) = "annotation"%string ->
     shhs_body c L record_id w = (Normal record, w') ->
     files w' !! shhs_rpoints_filepath L record_id
     = Some (FloatColumn (heartbeat_times record))) /\
  (forall (L : mesa_frame) record_id w w' record,
     heartbeats_source (m_args L) = "cached"%string ->
     mesa_body c L record_id w = (Normal record, w') ->
     files w !! mesa_heartbeats_file L record_id
     = Some (Npy (heartbeat_times record)) /\
     files w' !! mesa_heartbeats_file L record_id
     = Some (Npy (heartbeat_times record))).
Proof.
  split.
  - intros L record_id w w' record Hsrc H.
    destruct (shhs_body_rest c L record_id _ w w' record
                (shhs_xml_not_rpoints L record_id) H) as (w1 & E & ->).
    destruct (shhs_heartbeats_annotation c L record_id w w1 _ Hsrc E)
      as (a & Hfile & Ha).
    injection Ha as ->. exact Hfile.
  - intros L record_id w w' record Hsrc H.
    destruct (mesa_body_rest c L record_id _ w w' record
                (mesa_xml_not_heartbeats L record_id)
                (mesa_activity_not_heartbeats L record_id)
                (mesa_counts_not_heartbeats L record_id) H) as (w1 & E & ->).
    destruct (mesa_heartbeats_cached c L record_id w w1 _ Hsrc E)
      as (times & Hfile & Ht & ->).
    injection Ht as ->. now split.
Qed.

Lemma heartbeats_as_stored_witness :
  exists w',
    shhs_body collaborators_example (shhs_frame_example "annotation")
      "shhs1/shhs1-200001" shhs_world_example
    = (Normal (record_200001 unsorted_times), w') /\
    files w'
      !! "/data/shhs/polysomnography/annotations-rpoints/shhs1/shhs1-200001-rpoint.csv"%string
    = Some (FloatColumn unsorted_times).
Proof.
  eexists. split; [vm_compute; reflexivity|].
  refine (proj1 (heartbeats_as_stored collaborators_example)
            (shhs_frame_example "annotation") "shhs1/shhs1-200001"
            shhs_world_example _ (record_200001 unsorted_times) eq_refl _).
  vm_compute. reflexivity.
Defined.

(** ** A second run from the caches *)

Lemma mesa_xml_not_activity (L : mesa_frame) (record_id : string) :
  mesa_activity_filepath L record_id
  <> path_join (m_db_dir L) (mesa_xml_filename record_id).
Proof. unfold mesa_activity_filepath, mesa_xml_filename. path_neq. Qed.

Lemma mesa_xml_not_counts (L : mesa_frame) (record_id : string) :
  mesa_activity_counts_file L record_id
  <> path_join (m_db_dir L) (mesa_xml_filename record_id).
Proof. unfold mesa_activity_counts_file, mesa_xml_filename. path_neq. Qed.

(** Offline, the annotation step reads one file and changes nothing. *)
Lemma read_annotation_offline (c : collaborators) (a : reader_args)
    (db_dir download_url : string) (checksums : gmap string string)
    (xml_filename : string) (w : world) :
  offline a = true ->
  read_annotation c a db_dir download_url checksums xml_filename w
  = lift (_parse_nsrr_xml (path_join db_dir xml_filename)
            (match files w !! path_join db_dir xml_filename with
             | Some (Xml content) => Some content
             | Some _ => Some Malformed
             | None => None
             end)) w.
Proof.
  intros Hoff. unfold read_annotation. rewrite Hoff. cbn [negb when].
  unfold bind at 1, ret at 1. unfold bind at 1, xml_at.
  destruct (files w !! path_join db_dir xml_filename) as [[]|]; reflexivity.
Qed.

Lemma lift_world {A} (r : result A) (w v : world) (a : A) (w' : world) :
  lift r w = (Normal a, w') -> w' = w /\ lift r v = (Normal a, v).
Proof.
  destruct r; cbn; intros H; [|discriminate]. injection H as <- <-. now split.
Qed.

Lemma mesa_heartbeats_from_cache (c : collaborators) (L : mesa_frame)
    (record_id : string) (w : world) (times : list Py.pyfloat) :
  heartbeats_source (m_args L) = "cached"%string ->
  files w !! mesa_heartbeats_file L record_id = Some (Npy times) ->
  mesa_heartbeats c L record_id w = (Normal (Some times), w).
Proof.
  intros Hcached Hfile.
  unfold mesa_heartbeats. rewrite Hcached.
  change (String.eqb "cached" "annotation") with false.
  rewrite String.eqb_refl. cbv iota.
  unfold mesa_heartbeats_file in Hfile.
  unfold bind at 1, is_file. rewrite Hfile, bool_decide_is_Some_Some.
  cbn [negb when]. unfold bind at 1, ret at 1.
  unfold bind at 1, np_load, bind at 1, read_file. rewrite Hfile. reflexivity.
Qed.

Lemma mesa_activity_from_cache (c : collaborators) (L : mesa_frame)
    (record_id : string) (parsed_xml : _ParseNsrrXmlResult) (w : world)
    (counts : list Py.pyfloat) :
  m_activity_source L = Some "cached"%string ->
  files w !! mesa_activity_counts_file L record_id = Some (Npy counts) ->
  mesa_activity c L record_id parsed_xml w = (Normal (Some counts), w).
Proof.
  intros Hsrc Hfile. unfold mesa_activity. rewrite Hsrc.
  rewrite String.eqb_refl.
  unfold mesa_activity_counts_file in Hfile.
  unfold bind at 1, is_file. rewrite Hfile, bool_decide_is_Some_Some.
  cbn [negb when]. unfold bind at 1, ret at 1.
  unfold bind at 1, np_load, bind at 1, read_file. rewrite Hfile. reflexivity.
Qed.

(** The activity counts that the activity block returns are in the cache
    of the record afterwards, whether they were computed or read. *)
Lemma mesa_activity_saves (c : collaborators) (L : mesa_frame)
    (record_id : string) (parsed_xml : _ParseNsrrXmlResult) (w w' : world)
    (counts : list Py.pyfloat) :
  mesa_activity c L record_id parsed_xml w = (Normal (Some counts), w') ->
  files w' !! mesa_activity_counts_file L record_id = Some (Npy counts).
Proof.
  unfold mesa_activity. destruct (m_activity_source L) as [source|].
  - destruct (String.eqb source "cached").
    + intros H. bind_inv H. apply ret_inv in H as [H <-]. injection H as <-.
      apply np_load_inv in E1 as [Hfile ->]. exact Hfile.
    + intros H. bind_inv H. apply ret_inv in H as [H <-]. injection H as <-.
      unfold mesa_actigraphy in E. bind_inv E.
      apply ret_inv in E as [<- <-].
      match goal with
      | Hsave : np_save _ _ _ = _ |- _ =>
          unfold np_save, write_file in Hsave; inversion Hsave; subst
      end.
      cbn [files]. apply lookup_insert_eq.
  - intros H. apply ret_inv in H as [H _]. discriminate.
Qed.

Lemma mesa_activity_none (c : collaborators) (L : mesa_frame)
    (record_id : string) (parsed_xml : _ParseNsrrXmlResult) (w w' : world) :
  mesa_activity c L record_id parsed_xml w = (Normal None, w') ->
  m_activity_source L = None /\ w' = w.
Proof.
  unfold mesa_activity. destruct (m_activity_source L) as [source|].
  - destruct (String.eqb source "cached"); intros H; bind_inv H;
      apply ret_inv in H as [H _]; discriminate.
  - intros H. apply ret_inv in H as [_ <-]. now split.
Qed.

(** X10. The caches of [read_mesa] make a second run reproduce the first.
    When a turn of the loop in the mode ['ecg'], offline, has yielded a
    record, the turn for the same record on the directory it left, with
    the heartbeats taken from the cache (and the activity counts too, if
    any were asked for), yields the same record and changes nothing. *)
Theorem mesa_second_run_from_cache (c : collaborators) (L : mesa_frame)
    (record_id : string) (w w' : world) (record : SleepRecord) :
  heartbeats_source (m_args L) = "ecg"%string ->
  offline (m_args L) = true ->
  mesa_body c L record_id w = (Normal record, w') ->
  mesa_body c (cached_frame L) record_id w' = (Normal record, w').
Proof.
  intros Hsrc Hoff H.
  destruct (mesa_body_rest c L record_id _ w w' record
              (mesa_xml_not_heartbeats L record_id)
              (mesa_activity_not_heartbeats L record_id)
              (mesa_counts_not_heartbeats L record_id) H) as (w1 & E & Hhb).
  destruct (mesa_ecg_saves c L record_id w w1 _ Hsrc E) as (times & Ht & Hfile).
  injection Ht as Ht. rewrite <- Hhb in Hfile.
  rewrite mesa_body_phases in H. unfold bind at 1 in H. rewrite E in H.
  apply bind_inv_Normal in H as (parsed_xml & w2 & E1 & H). cbv beta in H.
  apply bind_inv_Normal in H as (counts & w3 & E2 & H). cbv beta in H.
  apply bind_inv_Normal in H as (hb & w4 & E3 & H). cbv beta in H.
  apply bind_inv_Normal in H as (subject & w5 & E4 & H). cbv beta in H.
  apply ret_inv in H as [Hrecord <-].
  unfold bound in E3. apply lift_inv in E3 as [E3 <-]. injection E3 as <-.
  apply (lift_world _ _ w3) in E4 as [-> E4].
  (* the annotation, read again on the directory that the turn left *)
  assert (Hxml : files w3 !! path_join (m_db_dir L) (mesa_xml_filename record_id)
                 = files w1 !! path_join (m_db_dir L) (mesa_xml_filename record_id)).
  { pose proof (untouched_mesa_activity_other c L record_id _ parsed_xml
                  (mesa_xml_not_activity L record_id)
                  (mesa_xml_not_counts L record_id) w2) as H3.
    rewrite E2 in H3. cbn [snd] in H3. rewrite H3.
    unfold mesa_annotation in E1. rewrite read_annotation_offline in E1 by exact Hoff.
    now apply (lift_world _ _ w1) in E1 as [-> _]. }
  assert (E1' : mesa_annotation c (cached_frame L) record_id w3
                = (Normal parsed_xml, w3)).
  { unfold mesa_annotation in *.
    rewrite read_annotation_offline in E1 by exact Hoff.
    rewrite read_annotation_offline by exact Hoff.
    cbn [cached_frame m_db_dir]. rewrite Hxml.
    now apply (lift_world _ _ w3) in E1 as [_ E1]. }
  (* the activity counts, read from their cache *)
  assert (E2' : mesa_activity c (cached_frame L) record_id parsed_xml w3
                = (Normal counts, w3)).
  { destruct counts as [counts|].
    - apply mesa_activity_from_cache.
      + cbn [cached_frame m_activity_source].
        destruct (m_activity_source L) eqn:Hact; [reflexivity|].
        unfold mesa_activity in E2. rewrite Hact in E2.
        apply ret_inv in E2 as [E2 _]. discriminate.
      + exact (mesa_activity_saves c L record_id parsed_xml w2 w3 counts E2).
    - apply mesa_activity_none in E2 as [Hact ->].
      unfold mesa_activity. cbn [cached_frame m_activity_source]. now rewrite Hact. }
  rewrite mesa_body_phases.
  rewrite (bind_Normal _ _ _ _ _
             (mesa_heartbeats_from_cache c (cached_frame L) record_id w3 times
                eq_refl Hfile)).
  rewrite (bind_Normal _ _ _ _ _ E1').
  rewrite (bind_Normal _ _ _ _ _ E2').
  unfold bound at 1. cbn [of_option lift]. unfold bind at 1, ret at 1.
  cbn [cached_frame m_subject_data].
  rewrite (bind_Normal _ _ _ _ _ E4).
  rewrite <- Hrecord, Ht. reflexivity.
Qed.

Lemma mesa_second_run_from_cache_witness :
  let L := mesa_frame_example "ecg" None ∅ in
  let w := mk_world
    (<["/data/mesa/polysomnography/edfs/mesa-sleep-0002.edf"%string
       := Edf [("EKG"%string, ecg_example)]]> mesa_files_example) [] in
  exists record w',
    mesa_body collaborators_example L "mesa-sleep-0002" w = (Normal record, w') /\
    heartbeat_times record = heartbeats_example /\
    mesa_body collaborators_example (cached_frame L) "mesa-sleep-0002" w'
    = (Normal record, w').
Proof.
  intros L w. eexists. eexists.
  split; [vm_compute; reflexivity|]. split; [reflexivity|].
  apply (mesa_second_run_from_cache collaborators_example L "mesa-sleep-0002" w).
  - reflexivity.
  - reflexivity.
  - vm_compute. reflexivity.
Defined.

(** ** Heartbeats from the recording *)

Lemma divide_indices_non_decreasing (indices : list Z) (q : Q) :
  (0 < q)%Q -> StronglySorted Z.le indices ->
  non_decreasing (np.divide_indices indices (Py.Finite q)).
Proof.
  intros Hq Hs. unfold non_decreasing, np.divide_indices.
  assert (Hne : Qeq_bool q 0 = false).
  { destruct (Qeq_bool q 0) eqn:E; [|reflexivity].
    apply Qeq_bool_eq in E. rewrite E in Hq. now apply Qlt_irrefl in Hq. }
  induction Hs as [|i indices Hs IH Hall]; cbn [map]; constructor.
  - exact IH.
  - clear IH Hs. induction Hall as [|j indices Hij _ IH]; cbn [map]; constructor.
    + unfold np.divide. rewrite Hne. cbn [np.le]. unfold Qdiv.
      apply Qmult_le_compat_r.
      * now rewrite <- Zle_Qle.
      * apply Qlt_le_weak, Qinv_lt_0_compat, Hq.
    + exact IH.
Qed.

Lemma divide_indices_zero (indices : list Z) (q : Q) :
  (q == 0)%Q -> Forall not_finite (np.divide_indices indices (Py.Finite q)).
Proof.
  intros Hq. apply Qeq_bool_iff in Hq.
  unfold np.divide_indices. induction indices as [|i indices IH]; cbn [map];
    constructor; [|exact IH].
  unfold np.divide. rewrite Hq. now destruct (Qeq_bool (inject_Z i) 0).
Qed.

Lemma read_edf_signal_signal (path label : string) (w w' : world) (s : signal) :
  read_edf_signal path label w = (Normal s, w') ->
  signal_of (files w !! path) label = Some s /\ w' = w.
Proof.
  unfold read_edf_signal, signal_of. intros H. bind_inv H.
  unfold read_file in E. destruct (files w !! path) as [f|]; [|discriminate].
  injection E as <- <-. destruct f; try discriminate.
  destruct (List.find _ signals) as [p|]; [|discriminate].
  apply ret_inv in H as [<- <-]. now split.
Qed.

Lemma mesa_heartbeats_ecg (c : collaborators) (L : mesa_frame) (record_id : string)
    (w w' : world) (hb : option (list Py.pyfloat)) :
  heartbeats_source (m_args L) = "ecg"%string ->
  mesa_heartbeats c L record_id w = (Normal hb, w') ->
  exists ecg,
    hb = Some (detected_times c ecg) /\
    (offline (m_args L) = true ->
     signal_of (files w !! mesa_edf_filepath L record_id) "EKG" = Some ecg).
Proof.
  intros Hsrc H. unfold mesa_heartbeats in H. rewrite Hsrc in H.
  change (String.eqb "ecg" "annotation") with false in H.
  change (String.eqb "ecg" "cached") with false in H.
  rewrite String.eqb_refl in H. cbv iota in H. bind_inv H.
  apply ret_inv in H as [<- <-].
  apply read_edf_signal_signal in E1 as [Hsig ->].
  apply is_file_inv in E as [_ ->].
  exists a1. split; [reflexivity|].
  intros Hoff. rewrite Hoff in E0. cbn [negb when] in E0.
  apply ret_inv in E0 as [_ <-]. exact Hsig.
Qed.

Lemma shhs_heartbeats_ecg (c : collaborators) (L : shhs_frame) (record_id : string)
    (w w' : world) (hb : option (list Py.pyfloat)) :
  heartbeats_source (s_args L) = "ecg"%string ->
  shhs_heartbeats c L record_id w = (Normal hb, w') ->
  exists ecg,
    hb = Some (detected_times c ecg) /\
    (offline (s_args L) = true ->
     signal_of (files w !! shhs_edf_filepath L record_id) "ECG" = Some ecg).
Proof.
  intros Hsrc H. unfold shhs_heartbeats in H. rewrite Hsrc in H.
  change (String.eqb "ecg" "annotation") with false in H.
  change (String.eqb "ecg" "cached") with false in H.
  rewrite String.eqb_refl in H. cbv iota in H. bind_inv H.
  apply ret_inv in H as [<- <-].
  apply read_edf_signal_signal in E1 as [Hsig ->].
  apply is_file_inv in E as [_ ->].
  exists a1. split; [reflexivity|].
  intros Hoff. rewrite Hoff in E0. cbn [negb when] in E0.
  apply ret_inv in E0 as [_ <-]. exact Hsig.
Qed.

(** X11. In the mode ['ecg'] the heartbeat times of a yielded record are
    the sample indices that the detector reports for one signal of the
    recording ("EKG" in MESA, "ECG" in SHHS; offline, the signal of the
    local file), each divided by the sampling frequency of that signal.
    They are as many as the indices; they are non-decreasing whenever the
    frequency is positive and the indices are non-decreasing; and a
    frequency of zero raises nothing: the record is yielded with times
    that are infinite or NaN. *)
Theorem ecg_times_from_detector (c : collaborators) :
  (forall (L : mesa_frame) record_id w w' record,
     heartbeats_source (m_args L) = "ecg"%string ->
     mesa_body c L record_id w = (Normal record, w') ->
     exists ecg,
       heartbeat_times record = detected_times c ecg /\
       (offline (m_args L) = true ->
        signal_of (files w !! mesa_edf_filepath L record_id) "EKG" = Some ecg)) /\
  (forall (L : shhs_frame) record_id w w' record,
     heartbeats_source (s_args L) = "ecg"%string ->
     shhs_body c L record_id w = (Normal record, w') ->
     exists ecg,
       heartbeat_times record = detected_times c ecg /\
       (offline (s_args L) = true ->
        signal_of (files w !! shhs_edf_filepath L record_id) "ECG" = Some ecg)) /\
  (forall ecg,
     length (detected_times c ecg)
     = length (detect_heartbeats c (data ecg) (sampling_frequency ecg)) /\
     (forall q,
        sampling_frequency ecg = Py.Finite q -> (0 < q)%Q ->
        StronglySorted Z.le (detect_heartbeats c (data ecg) (sampling_frequency ecg)) ->
        non_decreasing (detected_times c ecg)) /\
     (forall q,
        sampling_frequency ecg = Py.Finite q -> (q == 0)%Q ->
        Forall not_finite (detected_times c ecg))).
Proof.
  split; [|split].
  - intros L record_id w w' record Hsrc H.
    destruct (mesa_body_heartbeats c L record_id w w' record H) as [w1 E].
    destruct (mesa_heartbeats_ecg c L record_id w w1 _ Hsrc E) as (ecg & Hhb & Hsig).
    exists ecg. split; [congruence | exact Hsig].
  - intros L record_id w w' record Hsrc H.
    destruct (shhs_body_heartbeats c L record_id w w' record H) as [w1 E].
    destruct (shhs_heartbeats_ecg c L record_id w w1 _ Hsrc E) as (ecg & Hhb & Hsig).
    exists ecg. split; [congruence | exact Hsig].
  - intros ecg. unfold detected_times. split; [|split].
    + unfold np.divide_indices. apply length_map.
    + intros q -> Hq Hs. now apply divide_indices_non_decreasing.
    + intros q -> Hq. now apply divide_indices_zero.
Qed.

Lemma ecg_times_from_detector_witness :
  (exists ecg,
     heartbeat_times (record_200001 heartbeats_example)
     = detected_times collaborators_example ecg /\
     (offline (s_args (shhs_frame_example "ecg")) = true ->
      signal_of
        (files shhs_world_example
           !! shhs_edf_filepath (shhs_frame_example "ecg") "shhs1/shhs1-200001")
        "ECG" = Some ecg)) /\
  non_decreasing (detected_times collaborators_example ecg_example) /\
  Forall not_finite
    (detected_times collaborators_example (mk_signal (data ecg_example) (Py.Finite 0))).
Proof.
  split; [|split].
  - eapply (proj1 (proj2 (ecg_times_from_detector collaborators_example))
              (shhs_frame_example "ecg") "shhs1/shhs1-200001" shhs_world_example).
    + reflexivity.
    + vm_compute. reflexivity.
  - apply (proj1 (proj2 (proj2 (proj2 (ecg_times_from_detector collaborators_example))
                           ecg_example)) 2%Q).
    + reflexivity.
    + reflexivity.
    + vm_compute. repeat constructor; discriminate.
  - apply (proj2 (proj2 (proj2 (proj2 (ecg_times_from_detector collaborators_example))
                           (mk_signal (data ecg_example) (Py.Finite 0)))) 0%Q);
      reflexivity.
Defined.

(** ** The subject table of MESA *)

Lemma mesa_gender_lookup (code : Z) :
  MESA.GENDER_MAPPING !! code
  = if code =? 0 then Some FEMALE else if code =? 1 then Some MALE else None.
Proof.
  unfold MESA.GENDER_MAPPING.
  destruct (Z.eqb_spec code 0) as [->|H0]; [apply lookup_insert_eq|].
  rewrite lookup_insert_ne by congruence.
  destruct (Z.eqb_spec code 1) as [->|H1]; [apply lookup_singleton_eq|].
  apply lookup_singleton_ne. congruence.
Qed.

Lemma mesa_subject_rows_unmapped (before after : list (Z * Z * Z))
    (mesaid code age_value : Z) :
  Forall (fun row : Z * Z * Z => row.1.2 = 0 \/ row.1.2 = 1) before ->
  code <> 0 -> code <> 1 ->
  forall subject_data,
    mesa_subject_rows (before ++ (mesaid, code, age_value) :: after) subject_data
    = Raise (KeyError (pretty code)).
Proof.
  intros Hbefore H0 H1. induction Hbefore as [|[[i g] y] before Hrow _ IH];
    intros subject_data; cbn [app mesa_subject_rows mesa_subject_row].
  - rewrite mesa_gender_lookup.
    destruct (Z.eqb_spec code 0); [contradiction|].
    destruct (Z.eqb_spec code 1); [contradiction|]. reflexivity.
  - rewrite mesa_gender_lookup. cbn [fst snd] in Hrow.
    destruct Hrow as [->| ->]; cbn; apply IH.
Qed.

Lemma mesa_prelude_list (c : collaborators) (a : reader_args)
    (activity_source : option string) :
  heartbeats_source a ∈ heartbeats_source_options ->
  activity_source ∈ MESA.activity_source_options ->
  mesa_prelude c (a, activity_source)
  = (l <- mesa_list c a activity_source;;
     subject_data_array <- np_loadtxt_int_table (ml_subject_data_filepath l);;
     subject_data <- lift (mesa_subject_rows subject_data_array ∅);;
     overlap_data <-
       (if decide (activity_source = Some "actigraphy"%string)
        then
          rows <- csv_rows (ml_overlap_filepath l);;
          lift (overlap_rows (DictReader rows) ∅)
        else ret ∅);;
     ret (mk_mesa_frame a activity_source
            (path_join (match data_dir a with
                        | None => get_config_value c "data_dir"
                        | Some d => d
                        end) MESA.DB_SLUG)
            (ml_download_url l) (ml_checksums l) subject_data overlap_data,
          ml_requested_records l)).
Proof.
  intros Hs Ha. unfold mesa_prelude, mesa_list.
  rewrite (bool_decide_eq_true_2 _ Hs), (bool_decide_eq_true_2 _ Ha).
  reflexivity.
Qed.



(** ** Every record of an iteration *)

Section Loop_records.

Context {A F : Type}.
Variable prelude : A -> M (F * list string).
Variable body : F -> string -> M SleepRecord.
Variable I : F -> Prop.
Variable Q : SleepRecord -> Prop.
Hypothesis body_Q :
  forall frame record_id w w' record,
    I frame -> body frame record_id w = (Normal record, w') -> Q record.

Lemma resume_Yielded_frame (frame : F) (ids : list string) (w w' : world)
    (record : SleepRecord) (g : generator A F) :
  I frame ->
  resume body frame ids w = (Yielded record, g, w') ->
  Q record /\ exists rest, g = Suspended frame rest.
Proof.
  intros HI. revert w. induction ids as [|record_id rest IH]; intros w H.
  - discriminate.
  - cbn [resume] in H.
    destruct (body frame record_id w) as [[r| |] w1] eqn:E.
    + injection H as <- <- <-. split; [eapply body_Q; eauto | now exists rest].
    + discriminate.
    + exact (IH _ H).
Qed.

Lemma drain_Suspended (fuel : nat) (frame : F) (ids : list string) (w : world) :
  I frame ->
  Forall Q (drain prelude body fuel (Suspended frame ids) w).1.1.
Proof.
  intros HI. revert ids w. induction fuel as [|fuel IH]; intros ids w.
  - constructor.
  - cbn [drain next].
    destruct (resume body frame ids w) as [[[r| |e] g] w1] eqn:E;
      [|constructor|constructor].
    destruct (resume_Yielded_frame _ _ _ _ _ _ HI E) as [HQ [rest ->]].
    specialize (IH rest w1).
    destruct (drain prelude body fuel (Suspended frame rest) w1) as [[rs e] w2].
    cbn [fst] in *. now constructor.
Qed.

Lemma drain_Created (fuel : nat) (args : A) (w : world) :
  (forall frame ids w', prelude args w = (Normal (frame, ids), w') -> I frame) ->
  Forall Q (drain prelude body fuel (Created args) w).1.1.
Proof.
  intros Hprelude. destruct fuel as [|fuel]; [constructor|].
  cbn [drain next].
  destruct (prelude args w) as [[[frame ids]|e|] w0] eqn:Ep;
    [|constructor|constructor].
  specialize (Hprelude frame ids w0 eq_refl).
  pose proof (drain_Suspended (S fuel) frame ids w0 Hprelude) as H.
  cbn [drain next] in H. exact H.
Qed.

End Loop_records.

Lemma mesa_subject_rows_subject (rows : list (Z * Z * Z)) :
  forall subject_data subject_data',
    map_Forall (fun _ => mesa_subject) subject_data ->
    mesa_subject_rows rows subject_data = Ok subject_data' ->
    map_Forall (fun _ => mesa_subject) subject_data'.
Proof.
  induction rows as [|[[mesaid code] age_value] rows IH];
    intros subject_data subject_data' Hall H.
  - cbn in H. now injection H as <-.
  - cbn [mesa_subject_rows mesa_subject_row] in H.
    destruct (MESA.GENDER_MAPPING !! code) as [g|]; [|discriminate].
    cbn in H. apply IH in H; [exact H|].
    apply map_Forall_insert_2; [|exact Hall].
    repeat split; cbn; eauto.
Qed.

Lemma mesa_prelude_frame (c : collaborators) (a : reader_args)
    (activity_source : option string) (w w' : world) (L : mesa_frame)
    (ids : list string) :
  mesa_prelude c (a, activity_source) w = (Normal (L, ids), w') ->
  m_activity_source L = activity_source /\
  map_Forall (fun _ => mesa_subject) (m_subject_data L).
Proof.
  unfold mesa_prelude. intros H. bind_inv H.
  apply ret_inv in H as [H _]. injection H as <- _. cbn.
  split; [reflexivity|].
  apply lift_inv in E3 as [E3 _].
  eapply mesa_subject_rows_subject; [|exact E3]. apply map_Forall_empty.
Qed.

Lemma mesa_activity_source (c : collaborators) (L : mesa_frame)
    (record_id : string) (parsed_xml : _ParseNsrrXmlResult) (w w' : world)
    (counts : option (list Py.pyfloat)) :
  mesa_activity c L record_id parsed_xml w = (Normal counts, w') ->
  (counts = None <-> m_activity_source L = None).
Proof.
  intros H. destruct counts as [counts|].
  - split; [discriminate|]. intros Hn. unfold mesa_activity in H. rewrite Hn in H.
    apply ret_inv in H as [H _]. discriminate.
  - apply mesa_activity_none in H as [H _]. tauto.
Qed.

(** X13. Every record that an iteration of [read_mesa] yields carries a
    gender and an age and no weight, and it carries activity counts
    exactly when [activity_source] was given; no record that an iteration
    of [read_shhs] yields carries activity counts. *)
Theorem record_shape (c : collaborators) (fuel : nat) (w : world) :
  (forall a activity_source,
     Forall
       (fun record =>
          mesa_subject (subject_data record) /\
          (activity_counts record = None <-> activity_source = None))
       (drain (mesa_prelude c) (mesa_body c) fuel (Created (a, activity_source)) w).1.1) /\
  (forall a,
     Forall (fun record => activity_counts record = None)
       (drain (shhs_prelude c) (shhs_body c) fuel (Created a) w).1.1).
Proof.
  split.
  - intros a activity_source.
    apply (drain_Created (mesa_prelude c) (mesa_body c)
             (fun L => m_activity_source L = activity_source /\
                       map_Forall (fun _ => mesa_subject) (m_subject_data L))).
    + intros L record_id w0 w' record [Hact Hsub] H.
      rewrite mesa_body_phases in H. bind_inv H.
      apply ret_inv in H as [<- _]. cbn [subject_data activity_counts].
      apply lift_inv in E3 as [E3 _]. unfold getitem in E3.
      destruct (m_subject_data L !! record_id) as [s|] eqn:Hs; [|discriminate].
      injection E3 as <-. split.
      * exact (Hsub record_id s Hs).
      * rewrite <- Hact. eapply mesa_activity_source; exact E1.
    + intros L ids w'. apply mesa_prelude_frame.
  - intros a.
    apply (drain_Created (shhs_prelude c) (shhs_body c) (fun _ => True)).
    + intros L record_id w0 w' record _ H.
      rewrite shhs_body_phases in H. bind_inv H.
      apply ret_inv in H as [<- _]. reflexivity.
    + auto.
Qed.

(** ** Offline *)

Section Offline.

Variables c c' : collaborators.
Hypothesis Hsame : same_locally c c'.

Lemma mesa_prelude_offline (a : reader_args) (activity_source : option string) :
  offline a = true ->
  mesa_prelude c (a, activity_source) = mesa_prelude c' (a, activity_source).
Proof.
  destruct Hsame as (Hconfig & Hglob & _ & _).
  intros Hoff. unfold mesa_prelude, mesa_offline.
  rewrite Hoff, Hconfig, Hglob. reflexivity.
Qed.

Lemma mesa_body_offline (L : mesa_frame) (record_id : string) :
  offline (m_args L) = true ->
  mesa_body c L record_id = mesa_body c' L record_id.
Proof.
  destruct Hsame as (_ & _ & _ & Hdetect).
  intros Hoff.
  unfold mesa_body, mesa_heartbeats, mesa_activity, mesa_actigraphy, read_annotation.
  rewrite Hoff, Hdetect. reflexivity.
Qed.

Lemma shhs_prelude_offline (a : reader_args) :
  offline a = true -> shhs_prelude c a = shhs_prelude c' a.
Proof.
  destruct Hsame as (Hconfig & Hglob & Hrglob & _).
  intros Hoff. unfold shhs_prelude, shhs_load_subjects.
  rewrite Hoff, Hconfig, Hglob, Hrglob. reflexivity.
Qed.

Lemma shhs_body_offline (L : shhs_frame) (record_id : string) :
  offline (s_args L) = true ->
  shhs_body c L record_id = shhs_body c' L record_id.
Proof.
  destruct Hsame as (_ & _ & _ & Hdetect).
  intros Hoff.
  unfold shhs_body, shhs_heartbeats, read_annotation.
  rewrite Hoff, Hdetect. reflexivity.
Qed.

End Offline.

Section Loop_equal.

Context {A F : Type}.
Variables prelude prelude' : A -> M (F * list string).
Variables body body' : F -> string -> M SleepRecord.
Variable PA : A -> Prop.
Variable I : F -> Prop.
Hypothesis prelude_eq : forall args, PA args -> prelude args = prelude' args.
Hypothesis prelude_I :
  forall args frame ids w w',
    PA args -> prelude args w = (Normal (frame, ids), w') -> I frame.
Hypothesis body_eq :
  forall frame record_id, I frame -> body frame record_id = body' frame record_id.

Lemma resume_equal (frame : F) (ids : list string) (w : world) :
  I frame ->
  resume (A := A) body frame ids w = resume (A := A) body' frame ids w.
Proof.
  intros HI. revert w. induction ids as [|record_id rest IH]; intros w;
    [reflexivity|].
  cbn [resume]. rewrite (body_eq frame record_id HI).
  destruct (body' frame record_id w) as [[r|e|] w1]; [reflexivity..|apply IH].
Qed.

Lemma next_equal (g : generator A F) (w : world) :
  match g with
  | Created args => PA args
  | Suspended frame _ => I frame
  | Finished => True
  end ->
  next prelude body g w = next prelude' body' g w /\
  match (next prelude body g w).1.2 with
  | Created args => PA args
  | Suspended frame _ => I frame
  | Finished => True
  end.
Proof.
  assert (Hresume : forall frame ids w0,
            I frame ->
            match (resume (A := A) body frame ids w0).1.2 with
            | Created args => PA args
            | Suspended frame _ => I frame
            | Finished => True
            end).
  { intros frame ids. induction ids as [|record_id rest IH]; intros w0 HI;
      cbn [resume]; [exact Logic.I|].
    destruct (body frame record_id w0) as [[r|e|] w1]; cbn;
      [exact HI | exact Logic.I | now apply IH]. }
  destruct g as [args|frame remaining|]; cbn [next]; intros Hg.
  - rewrite <- (prelude_eq args Hg).
    destruct (prelude args w) as [[[frame ids]|e|] w0] eqn:E; cbn; auto.
    pose proof (prelude_I args frame ids w w0 Hg E) as HI.
    split; [now apply resume_equal | now apply Hresume].
  - split; [now apply resume_equal | now apply Hresume].
  - now split.
Qed.

Lemma drain_equal (fuel : nat) (g : generator A F) (w : world) :
  match g with
  | Created args => PA args
  | Suspended frame _ => I frame
  | Finished => True
  end ->
  drain prelude body fuel g w = drain prelude' body' fuel g w.
Proof.
  revert g w. induction fuel as [|fuel IH]; intros g w Hg; [reflexivity|].
  cbn [drain]. destruct (next_equal g w Hg) as [Heq Hinv]. rewrite <- Heq.
  destruct (next prelude body g w) as [[[r| |e] g1] w1]; try reflexivity.
  cbn [fst snd] in Hinv. now rewrite (IH g1 w1 Hinv).
Qed.

End Loop_equal.

(** X14. Offline, the readers never consult the NSRR server: what a
    [next] returns and leaves behind, and with it a whole iteration, is
    the same for any two installations that differ only in what the server
    lists and serves, in its address and in the checksums. *)
Theorem offline_ignores_server (c c' : collaborators) :
  same_locally c c' ->
  (forall g w,
     mesa_offline_generator g -> mesa_next c g w = mesa_next c' g w) /\
  (forall g w,
     shhs_offline_generator g -> shhs_next c g w = shhs_next c' g w) /\
  (forall fuel g w,
     mesa_offline_generator g ->
     drain (mesa_prelude c) (mesa_body c) fuel g w
     = drain (mesa_prelude c') (mesa_body c') fuel g w) /\
  (forall fuel g w,
     shhs_offline_generator g ->
     drain (shhs_prelude c) (shhs_body c) fuel g w
     = drain (shhs_prelude c') (shhs_body c') fuel g w).
Proof.
  intros Hsame.
  assert (Hm : forall (args : reader_args * option string) frame ids w w',
            offline args.1 = true ->
            mesa_prelude c args w = (Normal (frame, ids), w') ->
            offline (m_args frame) = true).
  { intros [a src] frame ids w w' Hoff H.
    now rewrite (mesa_prelude_args c a src w w' frame ids H). }
  assert (Hs : forall (a : reader_args) frame ids w w',
            offline a = true ->
            shhs_prelude c a w = (Normal (frame, ids), w') ->
            offline (s_args frame) = true).
  { intros a frame ids w w' Hoff H. unfold shhs_prelude in H. bind_inv H.
    destruct a1 as [[download_url checksums] requested_records]. bind_inv H.
    apply ret_inv in H as [H _]. injection H as <- _. exact Hoff. }
  assert (Hmp : forall args : reader_args * option string,
            offline args.1 = true -> mesa_prelude c args = mesa_prelude c' args).
  { intros [a src]. apply mesa_prelude_offline, Hsame. }
  split; [|split; [|split]].
  - intros g w Hg.
    apply (next_equal (mesa_prelude c) (mesa_prelude c') (mesa_body c) (mesa_body c')
             (fun args => offline args.1 = true)
             (fun L => offline (m_args L) = true)
             Hmp Hm (mesa_body_offline c c' Hsame) g w Hg).
  - intros g w Hg.
    apply (next_equal (shhs_prelude c) (shhs_prelude c') (shhs_body c) (shhs_body c')
             (fun a => offline a = true)
             (fun L => offline (s_args L) = true)
             (shhs_prelude_offline c c' Hsame) Hs
             (shhs_body_offline c c' Hsame) g w Hg).
  - intros fuel g w Hg.
    apply (drain_equal (mesa_prelude c) (mesa_prelude c') (mesa_body c) (mesa_body c')
             (fun args => offline args.1 = true)
             (fun L => offline (m_args L) = true)
             Hmp Hm (mesa_body_offline c c' Hsame) fuel g w Hg).
  - intros fuel g w Hg.
    apply (drain_equal (shhs_prelude c) (shhs_prelude c') (shhs_body c) (shhs_body c')
             (fun a => offline a = true)
             (fun L => offline (s_args L) = true)
             (shhs_prelude_offline c c' Hsame) Hs
             (shhs_body_offline c c' Hsame) fuel g w Hg).
Qed.

Lemma offline_ignores_server_witness :
  shhs_next collaborators_example (Created (offline_args "ecg")) shhs_world_example
  = shhs_next collaborators_online (Created (offline_args "ecg")) shhs_world_example.
Proof.
  apply (proj1 (proj2 (offline_ignores_server collaborators_example
                         collaborators_online
                         (conj eq_refl (conj eq_refl (conj eq_refl eq_refl)))))).
  reflexivity.
Defined.

Lemma record_shape_witness :
  Forall
    (fun record =>
       mesa_subject (subject_data record) /\
       (activity_counts record = None <-> @None string = None))
    [record_0002].
Proof.
  assert (E : (drain (mesa_prelude collaborators_example)
                 (mesa_body collaborators_example) 3
                 (Created (offline_args "annotation", None))
                 mesa_world_missing_rpoints).1.1 = [record_0002])
    by (vm_compute; reflexivity).
  rewrite <- E.
  apply (proj1 (record_shape collaborators_example 3 mesa_world_missing_rpoints)).
Defined.

(** ** Offline with nothing to read *)

(** X15. Offline, what the readers do before their first record differs.
    [read_mesa] needs the subject table whatever the records: when no
    file matches [datasets/mesa-sleep-dataset-*.csv] the first [next]
    fails with the [RuntimeError] that Python makes of the [StopIteration]
    of the exhausted glob; and with actigraphy asked for it fails when the
    overlap file is not in its place.  [read_shhs] looks for a subject
    table only when a requested record belongs to its visit: with no
    annotation file matching the pattern the first [next] just stops. *)
Theorem offline_nothing_to_read (c : collaborators) (a : reader_args) (w : world) :
  offline a = true ->
  heartbeats_source a ∈ heartbeats_source_options ->
  (forall activity_source,
     activity_source ∈ MESA.activity_source_options ->
     glob c (path_join (path_join (data_dir_of c a) "mesa") "datasets")
       "mesa-sleep-dataset-*.csv" (local_paths w) = [] ->
     mesa_next c (Created (a, activity_source)) w
     = (Failed (RuntimeError "generator raised StopIteration"), Finished, w)) /\
  (forall subject_data_filepath others,
     glob c (path_join (path_join (data_dir_of c a) "mesa") "datasets")
       "mesa-sleep-dataset-*.csv" (local_paths w)
     = subject_data_filepath :: others ->
     files w !! path_join (path_join (path_join (data_dir_of c a) "mesa") "overlap")
                  "mesa-actigraphy-psg-overlap.csv" = None ->
     mesa_next c (Created (a, Some "actigraphy"%string)) w
     = (Failed (RuntimeError
          "Overlap file not found, make sure it is in the correct directory overlap/mesa-actigraphy-psg-overlap.csv."),
        Finished, w)) /\
  (rglob c (path_join (path_join (data_dir_of c a) "shhs") SHHS.ANNOTATION_DIRNAME)
     (records_pattern a +:+ "-nsrr.xml") (local_paths w) = [] ->
   shhs_next c (Created a) w = (Stopped, Finished, w)).
Proof.
  intros Hoff Hs. unfold data_dir_of, local_paths. split; [|split].
  - intros activity_source Ha Hglob.
    unfold mesa_next, next, mesa_prelude, mesa_offline.
    rewrite (bool_decide_eq_true_2 _ Hs), (bool_decide_eq_true_2 _ Ha), Hoff.
    cbn [negb when]. unfold bind, ret, listdir. cbv beta iota.
    unfold MESA.DB_SLUG. rewrite Hglob. reflexivity.
  - intros subject_data_filepath others Hglob Hfile.
    unfold mesa_next, next, mesa_prelude, mesa_offline.
    rewrite (bool_decide_eq_true_2 _ Hs), Hoff.
    rewrite (bool_decide_eq_true_2
               (Some "actigraphy"%string ∈ MESA.activity_source_options))
      by (apply (bool_decide_eq_true_1 _); reflexivity).
    cbn [negb when]. unfold bind, ret, listdir, is_file. cbv beta iota.
    unfold MESA.DB_SLUG, MESA.OVERLAP_DIRNAME. rewrite Hglob. cbn [next_path].
    unfold ret.
    destruct (decide (Some "actigraphy"%string = Some "actigraphy"%string));
      [|congruence].
    rewrite Hfile, bool_decide_is_Some_None. reflexivity.
  - intros Hrglob.
    unfold shhs_next, next, shhs_prelude, shhs_load_subjects.
    rewrite (bool_decide_eq_true_2 _ Hs), Hoff.
    cbn [negb when]. unfold bind, ret, listdir. cbv beta iota.
    unfold SHHS.DB_SLUG. rewrite Hrglob. reflexivity.
Qed.

Lemma offline_nothing_to_read_witness :
  mesa_next collaborators_example (Created (offline_args "annotation", None)) empty_world
  = (Failed (RuntimeError "generator raised StopIteration"), Finished, empty_world) /\
  shhs_next collaborators_example (Created (offline_args "annotation")) empty_world
  = (Stopped, Finished, empty_world).
Proof.
  assert (Hs : "annotation"%string ∈ heartbeats_source_options)
    by (apply (bool_decide_eq_true_1 _); reflexivity).
  split.
  - apply (proj1 (offline_nothing_to_read collaborators_example
                    (offline_args "annotation") empty_world eq_refl Hs) None).
    + apply (bool_decide_eq_true_1 _). reflexivity.
    + reflexivity.
  - apply (proj2 (proj2 (offline_nothing_to_read collaborators_example
                           (offline_args "annotation") empty_world eq_refl Hs))).
    reflexivity.
Defined.

(** ** The subject of a record *)

(** X16. The subject data of a record is the entry of the subject table
    under the id of that very record: in every iteration of [read_mesa]
    and of [read_shhs], from any state of the generator, each record
    yielded has its [id] in the table, and carries what the table holds
    for it.  A requested record without an entry is never yielded. *)
Theorem subject_of_own_id (c : collaborators) (fuel : nat) (ids : list string)
    (w : world) :
  (forall L : mesa_frame,
     Forall (fun record => m_subject_data L !! id record = Some (subject_data record))
       (drain (mesa_prelude c) (mesa_body c) fuel (Suspended L ids) w).1.1) /\
  (forall L : shhs_frame,
     Forall (fun record => s_subject_data L !! id record = Some (subject_data record))
       (drain (shhs_prelude c) (shhs_body c) fuel (Suspended L ids) w).1.1).
Proof.
  split.
  - intros L.
    apply (drain_Suspended (mesa_prelude c) (mesa_body c) (fun frame => frame = L)).
    + intros frame record_id w0 w' record -> H.
      rewrite mesa_body_phases in H. bind_inv H.
      apply ret_inv in H as [<- _]. cbn [subject_data id].
      apply lift_inv in E3 as [E3 _]. unfold getitem in E3.
      destruct (m_subject_data L !! record_id); [|discriminate].
      now injection E3 as <-.
    + reflexivity.
  - intros L.
    apply (drain_Suspended (shhs_prelude c) (shhs_body c) (fun frame => frame = L)).
    + intros frame record_id w0 w' record -> H.
      rewrite shhs_body_phases in H. bind_inv H.
      apply ret_inv in H as [<- _]. cbn [subject_data id].
      apply lift_inv in E2 as [E2 _]. unfold getitem in E2.
      destruct (s_subject_data L !! _); [|discriminate].
      now injection E2 as <-.
    + reflexivity.
Qed.

Lemma subject_of_own_id_witness :
  Forall (fun record =>
            mesa_subjects_example !! id record = Some (subject_data record))
    [record_0002].
Proof.
  assert (E : (drain (mesa_prelude collaborators_example)
                 (mesa_body collaborators_example) 3
                 (Suspended (mesa_frame_example "annotation" None ∅)
                    ["mesa-sleep-0001"; "mesa-sleep-0002"]%string)
                 mesa_world_missing_rpoints).1.1 = [record_0002])
    by (vm_compute; reflexivity).
  rewrite <- E.
  apply (proj1 (subject_of_own_id collaborators_example 3
                  ["mesa-sleep-0001"; "mesa-sleep-0002"]%string
                  mesa_world_missing_rpoints)
           (mesa_frame_example "annotation" None ∅)).
Defined.

(* ===================================================================== *)
(** * Properties of [read_slpdb] *)
(* ===================================================================== *)

(** ** The two loops over the annotations *)

Lemma note_key (note : string) :
  note <> EmptyString ->
  exists key, first_char note = Ok key /\ SLPDB.STAGE_MAPPING !! key = stage_of note.
Proof. destruct note as [|ch rest]; [congruence|]. intros _. now eexists. Qed.

Lemma stage_of_nonempty (note : string) :
  is_Some (stage_of note) -> note <> EmptyString.
Proof. intros [stage H] ->. discriminate. Qed.

Lemma combine_app_same {A B} (times later_times : list A)
    (notes later_notes : list B) (H : length times = length notes) :
  combine times notes ++ combine later_times later_notes =
  combine (times ++ later_times) (notes ++ later_notes).
Proof.
  revert notes H.
  induction times as [|t times IH]; intros [|n notes] H; try discriminate.
  - reflexivity.
  - cbn. f_equal. apply IH. now injection H.
Qed.

Lemma combine_rev_same {A B} (l1 : list A) (l2 : list B) :
  length l1 = length l2 ->
  combine (rev l1) (rev l2) = rev (combine l1 l2).
Proof.
  revert l2. induction l1 as [|a l1 IH]; intros [|b l2] H; try discriminate.
  - reflexivity.
  - injection H as H. cbn [rev combine].
    rewrite <- combine_app_same by now rewrite !length_rev.
    now rewrite IH.
Qed.

Lemma repeat_lookup {A} (x : A) (n i : nat) :
  (i < n)%nat -> repeat x n !! i = Some x.
Proof.
  revert i. induction n as [|n IH]; intros [|i] H; try lia; cbn.
  - reflexivity.
  - apply IH. lia.
Qed.

(** The first loop passes over the annotations that are no stage
    annotations. *)
Lemma last_stage_skip (fs : Z) (pairs : list (Z * string)) (previous : option Z) :
  Forall (fun p : Z * string => p.2 <> EmptyString /\ stage_of p.2 = None) pairs ->
  last_stage_epochs fs pairs previous = Ok previous.
Proof.
  induction 1 as [|[s note] pairs [Hne Hst] _ IH]; [reflexivity|].
  cbn [last_stage_epochs]. cbn [snd] in *.
  destruct (note_key note Hne) as (key & -> & Hkey).
  unfold mbind, result_bind. rewrite Hkey, Hst.
  rewrite bool_decide_is_Some_None. exact IH.
Qed.

(** At the first stage annotation it meets, the first loop binds the
    number of stages, unless an empty note stopped it before. *)
Lemma last_stage_first (fs : Z) (skipped rest : list (Z * string)) (s : Z)
    (note : string) (previous : option Z) :
  Forall (fun p : Z * string => stage_of p.2 = None) skipped ->
  is_Some (stage_of note) ->
  last_stage_epochs fs (skipped ++ (s, note) :: rest) previous = Raise IndexError \/
  (Forall (fun p : Z * string => p.2 <> EmptyString) skipped /\
   last_stage_epochs fs (skipped ++ (s, note) :: rest) previous
   = Ok (Some (epoch_of fs s + 1))).
Proof.
  intros Hskipped Hnote.
  induction Hskipped as [|[s' note'] skipped Hst _ IH]; cbn [app last_stage_epochs].
  - right. split; [constructor|].
    destruct (note_key note (stage_of_nonempty note Hnote)) as (key & -> & Hkey).
    unfold mbind, result_bind. rewrite Hkey.
    destruct Hnote as [stage ->]. rewrite bool_decide_is_Some_Some. reflexivity.
  - cbn [snd] in Hst. destruct note' as [|ch tail]; [now left|].
    destruct (note_key (String ch tail) ltac:(discriminate)) as (key & -> & Hkey).
    unfold mbind, result_bind. rewrite Hkey, Hst, bool_decide_is_Some_None.
    destruct IH as [IH|[Hne IH]]; [now left|].
    right. split; [constructor; [discriminate | exact Hne] | exact IH].
Qed.

(** Whatever the annotations, the first loop raises [IndexError], binds
    the number of stages from a stage annotation, or leaves it as it was
    after it has seen a note in every annotation. *)
Lemma last_stage_cases (fs : Z) (pairs : list (Z * string)) (previous : option Z) :
  last_stage_epochs fs pairs previous = Raise IndexError \/
  (exists s note,
     In (s, note) pairs /\ is_Some (stage_of note) /\
     last_stage_epochs fs pairs previous = Ok (Some (epoch_of fs s + 1))) \/
  (Forall (fun p : Z * string => p.2 <> EmptyString /\ stage_of p.2 = None) pairs /\
   last_stage_epochs fs pairs previous = Ok previous).
Proof.
  induction pairs as [|[s note] pairs IH]; cbn [last_stage_epochs].
  - right. right. now split.
  - destruct note as [|ch tail]; [now left|].
    destruct (note_key (String ch tail) ltac:(discriminate)) as (key & -> & Hkey).
    unfold mbind, result_bind. rewrite Hkey.
    destruct (stage_of (String ch tail)) as [stage|] eqn:Hst.
    + rewrite bool_decide_is_Some_Some. right. left.
      exists s, (String ch tail). rewrite Hst. repeat split; [now left | eauto].
    + rewrite bool_decide_is_Some_None.
      destruct IH as [IH|[(s' & note' & Hin & Hs & IH)|[Hall IH]]].
      * now left.
      * right. left. exists s', note'. repeat split; [now right | exact Hs | exact IH].
      * right. right. split; [|exact IH].
        constructor; [split; [discriminate | exact Hst] | exact Hall].
Qed.

(** The second loop on annotations that all have a note and whose stage
    annotations fall into windows of the array. *)
Lemma assign_stages_ok (fs : Z) (pairs : list (Z * string)) :
  forall a : list SleepStage,
    Forall (fun p : Z * string => p.2 <> EmptyString) pairs ->
    Forall (fun p : Z * string =>
              is_Some (stage_of p.2) ->
              0 <= epoch_of fs p.1 < Z.of_nat (length a)) pairs ->
    exists out,
      assign_stages fs pairs a = Ok out /\
      length out = length a /\
      forall (i : nat) x,
        a !! i = Some x ->
        out !! i = Some (epoch_stage_from fs pairs (Z.of_nat i) x).
Proof.
  induction pairs as [|[s note] pairs IH]; intros a Hnotes Hrange.
  - exists a. repeat split. intros i x H. exact H.
  - inversion Hnotes as [|? ? Hne Hnotes']; subst.
    inversion Hrange as [|? ? Hr Hrange']; subst. cbn [fst snd] in *.
    cbn [assign_stages].
    destruct (note_key note Hne) as (key & -> & Hkey).
    unfold mbind at 1, result_bind at 1. rewrite Hkey.
    unfold epoch_stage_from. cbn [fold_left snd fst].
    destruct (stage_of note) as [stage|] eqn:Hst.
    + specialize (Hr ltac:(eauto)). fold (epoch_of fs s).
      set (k := epoch_of fs s) in *.
      unfold setitem.
      destruct (Z.ltb_spec k (- Z.of_nat (length a))); [lia|].
      destruct (Z.leb_spec (Z.of_nat (length a)) k); [lia|].
      destruct (Z.ltb_spec k 0); [lia|].
      cbn [orb]. unfold mbind, result_bind.
      destruct (IH (<[Z.to_nat k := stage]> a) Hnotes') as (out & Hout & Hlen & Hget).
      { rewrite length_insert. exact Hrange'. }
      exists out. split; [exact Hout|]. split; [now rewrite Hlen, length_insert|].
      intros i x Hi. fold (epoch_stage_from fs pairs (Z.of_nat i)).
      destruct (Z.eqb_spec k (Z.of_nat i)) as [Hk|Hk].
      * apply Hget. replace (Z.to_nat k) with i by lia.
        apply list_lookup_insert_eq. now apply lookup_lt_Some in Hi.
      * apply Hget. rewrite list_lookup_insert_ne by lia. exact Hi.
    + destruct (IH a Hnotes' Hrange') as (out & Hout & Hlen & Hget).
      exists out. split; [exact Hout|]. split; [exact Hlen|].
      intros i x Hi. apply Hget. exact Hi.
Qed.

(** The second loop raises [IndexError] as soon as an annotation has an
    empty note or a stage annotation falls outside the array; it raises
    nothing else. *)
Lemma assign_stages_index_error (fs : Z) (pairs : list (Z * string)) :
  forall a : list SleepStage,
    Exists (fun p : Z * string =>
              p.2 = EmptyString \/
              (is_Some (stage_of p.2) /\
               (epoch_of fs p.1 < - Z.of_nat (length a) \/
                Z.of_nat (length a) <= epoch_of fs p.1))) pairs ->
    assign_stages fs pairs a = Raise IndexError.
Proof.
  induction pairs as [|[s note] pairs IH]; intros a Hex; [inversion Hex|].
  cbn [assign_stages].
  destruct note as [|ch tail]; [reflexivity|].
  destruct (note_key (String ch tail) ltac:(discriminate)) as (key & -> & Hkey).
  unfold mbind at 1, result_bind at 1. rewrite Hkey.
  assert (Hrest : forall a', length a' = length a ->
            ~ (is_Some (stage_of (String ch tail)) /\
               (epoch_of fs s < - Z.of_nat (length a) \/
                Z.of_nat (length a) <= epoch_of fs s)) ->
            assign_stages fs pairs a' = Raise IndexError).
  { intros a' Hlen Hhead. apply IH. rewrite Hlen.
    inversion Hex as [? ? [Hempty|Hout]|? ? Htail]; subst; cbn [fst snd] in *.
    - discriminate.
    - contradiction.
    - exact Htail. }
  destruct (stage_of (String ch tail)) as [stage|] eqn:Hst.
  - fold (epoch_of fs s). unfold setitem.
    destruct (Z.ltb_spec (epoch_of fs s) (- Z.of_nat (length a))); [reflexivity|].
    destruct (Z.leb_spec (Z.of_nat (length a)) (epoch_of fs s)); [reflexivity|].
    cbn [orb]. unfold mbind, result_bind.
    apply Hrest; [apply length_insert | intros [_ [?|?]]; lia].
  - apply Hrest; [reflexivity | intros [[? ?] _]; discriminate].
Qed.

(** ** A turn of the loop in terms of its inputs *)

Lemma slpdb_body_stages (c : collaborators) (frame : slpdb_frame)
    (record_id : string) (w : physionet_world) (record : wfdb_record)
    (annot : wfdb_annotation) (subject : SubjectData) :
  slpdb_inputs frame record_id w record annot subject ->
  slpdb_body c frame record_id w
  = match slpdb_stages (fs record) annot (sl_number_of_sleep_stages frame) with
    | Ok (stages, number) =>
        Ok (mk_SleepRecord stages 30 record_id (base_time record)
              (np.divide_indices
                 (detect_heartbeats c
                    (match ecg_channel record with Ok ecg => ecg | Raise _ => [] end)
                    (Py.Finite (inject_Z (fs record))))
                 (Py.Finite (inject_Z (fs record))))
              subject None,
            mk_slpdb_frame (sl_db_dir frame) number)
    | Raise e => Raise e
    end.
Proof.
  intros [Hrecord Hecg Hannot Hsubject].
  unfold slpdb_body, slpdb_stages. rewrite Hrecord.
  unfold mbind at 1, result_bind at 1.
  destruct (ecg_channel record) as [ecg|]; [|discriminate].
  unfold mbind at 1, result_bind at 1. rewrite Hannot.
  unfold mbind at 1, result_bind at 1.
  unfold mbind, result_bind in *.
  destruct (last_stage_epochs _ _ _) as [number|]; [|reflexivity].
  destruct (of_option number _) as [n|]; [|reflexivity].
  destruct (np_full n UNDEFINED) as [a|]; [|reflexivity].
  destruct (assign_stages _ _ a) as [stages|]; [|reflexivity].
  destruct (Py.index (comments record) 0) as [comment|]; [|discriminate].
  rewrite Hsubject. reflexivity.
Qed.

Lemma last_stage_found (fs : Z) (skipped rest : list (Z * string)) (s : Z)
    (note : string) (previous : option Z) :
  Forall (fun p : Z * string => p.2 <> EmptyString /\ stage_of p.2 = None) skipped ->
  is_Some (stage_of note) ->
  last_stage_epochs fs (skipped ++ (s, note) :: rest) previous
  = Ok (Some (epoch_of fs s + 1)).
Proof.
  intros Hskipped Hnote.
  destruct (last_stage_first fs skipped rest s note previous) as [H|[_ H]];
    [eapply Forall_impl; [exact Hskipped | now intros p [_ ?]] | exact Hnote | | exact H].
  exfalso. revert H.
  induction Hskipped as [|[s' note'] skipped [Hne Hst] _ IH]; cbn [app last_stage_epochs].
  - destruct (note_key note (stage_of_nonempty note Hnote)) as (key & -> & Hkey).
    unfold mbind, result_bind. rewrite Hkey.
    destruct Hnote as [stage ->]. now rewrite bool_decide_is_Some_Some.
  - cbn [snd] in *. destruct (note_key note' Hne) as (key & -> & Hkey).
    unfold mbind, result_bind. rewrite Hkey, Hst, bool_decide_is_Some_None.
    exact IH.
Qed.

Lemma combine_notes {A} (P : string -> Prop) (l1 : list A) (l2 : list string) :
  Forall P l2 -> Forall (fun p : A * string => P p.2) (combine l1 l2).
Proof.
  intros H. revert l1. induction H as [|note l2 Hnote _ IH]; intros [|x l1];
    cbn [combine]; constructor; [exact Hnote | apply IH].
Qed.

Lemma epoch_of_div (fs s : Z) : 0 < fs -> epoch_of fs s = s / (30 * fs).
Proof.
  intros H. unfold epoch_of, np_floor_divide.
  destruct (Z.eqb_spec (30 * fs) 0); [lia | reflexivity].
Qed.

Lemma epoch_of_nonneg (fs s : Z) : 0 < fs -> 0 <= s -> 0 <= epoch_of fs s.
Proof. intros Hfs Hs. rewrite epoch_of_div by exact Hfs. apply Z.div_pos; lia. Qed.

Lemma epoch_of_mono (fs s s' : Z) :
  0 < fs -> s <= s' -> epoch_of fs s <= epoch_of fs s'.
Proof.
  intros Hfs Hs. rewrite !epoch_of_div by exact Hfs. apply Z.div_le_mono; lia.
Qed.

Lemma assign_stages_length (fs : Z) (pairs : list (Z * string)) :
  forall a out, assign_stages fs pairs a = Ok out -> length out = length a.
Proof.
  induction pairs as [|[s note] pairs IH]; intros a out H.
  - cbn in H. now injection H as <-.
  - cbn [assign_stages] in H. unfold mbind, result_bind in H.
    destruct (first_char note) as [key|]; [|discriminate].
    destruct (SLPDB.STAGE_MAPPING !! key) as [stage|]; [|now apply IH].
    unfold setitem in H. destruct (_ || _); [discriminate|].
    apply IH in H. now rewrite H, length_insert.
Qed.

(** ** The stage array *)

(** X17. The stage array of a record of [read_slpdb].  For a positive
    sampling frequency and annotations that all have a note, with the last
    stage annotation of the file at the non-negative sample [s] and no
    stage annotation at a later or negative sample before it, the turn
    yields a record with [s // (30 * fs) + 1] stages, one for each window of
    30 seconds up to that of [s]: the stage of a window is that of the last
    stage annotation of the file that falls into it, and [UNDEFINED] when
    none does.  The turn leaves that number of stages in
    [number_of_sleep_stages]. *)
Theorem slpdb_sleep_stages (c : collaborators) (frame : slpdb_frame)
    (record_id : string) (rest : list string) (w : physionet_world)
    (record : wfdb_record) (annot : wfdb_annotation) (subject : SubjectData)
    (before after : list (Z * string)) (s : Z) (note : string) :
  slpdb_inputs frame record_id w record annot subject ->
  0 < fs record ->
  length (sample annot) = length (aux_note annot) ->
  Forall (fun note => note <> EmptyString) (aux_note annot) ->
  annotation_pairs annot = before ++ (s, note) :: after ->
  is_Some (stage_of note) ->
  Forall (fun p : Z * string => stage_of p.2 = None) after ->
  0 <= s ->
  Forall (fun p : Z * string => is_Some (stage_of p.2) -> 0 <= p.1 <= s) before ->
  let n := epoch_of (fs record) s + 1 in
  exists r,
    slpdb_resume c frame (record_id :: rest) w
    = (Yielded r, Suspended (mk_slpdb_frame (sl_db_dir frame) (Some n)) rest, w) /\
    id r = record_id /\
    Z.of_nat (length (sleep_stages r)) = n /\
    forall i, 0 <= i < n ->
      sleep_stages r !! Z.to_nat i
      = Some (epoch_stage (fs record) (annotation_pairs annot) i).
Proof.
  intros Hin Hfs Hlen Hnotes Hpairs Hnote Hafter Hs Hbefore n.
  pose proof (epoch_of_nonneg (fs record) s Hfs Hs) as Hn.
  pose proof (combine_notes (fun note => note <> EmptyString) (sample annot)
                (aux_note annot) Hnotes) as Hpn.
  fold (annotation_pairs annot) in Hpn. rewrite Hpairs in Hpn.
  apply Forall_app in Hpn as [Hpb Hpa]. apply Forall_cons in Hpa as [_ Hpa].
  (* the first loop *)
  assert (Hfirst : last_stage_epochs (fs record)
                     (combine (rev (sample annot)) (rev (aux_note annot)))
                     (sl_number_of_sleep_stages frame) = Ok (Some n)).
  { rewrite (combine_rev_same _ _ Hlen). fold (annotation_pairs annot).
    rewrite Hpairs, rev_app_distr. cbn [rev]. rewrite <- app_assoc. cbn [app].
    apply last_stage_found; [|exact Hnote].
    apply Forall_rev.
    clear -Hafter Hpa. induction Hafter as [|p after Hp _ IH]; [constructor|].
    apply Forall_cons in Hpa as [Hp' Hpa]. constructor; [now split | now apply IH]. }
  (* the second loop *)
  destruct (assign_stages_ok (fs record) (annotation_pairs annot)
              (repeat UNDEFINED (Z.to_nat n))) as (out & Hout & Hlen' & Hget).
  { rewrite Hpairs. apply Forall_app. split; [exact Hpb|].
    constructor; [exact (stage_of_nonempty note Hnote) | exact Hpa]. }
  { rewrite Hpairs, repeat_length, Z2Nat.id by lia.
    apply Forall_app. split; [|constructor].
    - eapply Forall_impl; [exact Hbefore|]. intros p Hp Hst. cbn beta in Hp.
      specialize (Hp Hst).
      pose proof (epoch_of_nonneg (fs record) p.1 Hfs ltac:(lia)).
      pose proof (epoch_of_mono (fs record) p.1 s Hfs ltac:(lia)). lia.
    - intros _. cbn [fst]. lia.
    - eapply Forall_impl; [exact Hafter|]. intros p Hp [stage Hst]. cbn beta in Hp.
      congruence. }
  cbn [slpdb_resume].
  rewrite (slpdb_body_stages c frame record_id w record annot subject Hin).
  unfold slpdb_stages. rewrite Hfirst.
  unfold mbind at 1, result_bind at 1. cbn [of_option].
  unfold mbind at 1, result_bind at 1. unfold np_full.
  destruct (Z.ltb_spec n 0); [lia|].
  unfold mbind at 1, result_bind at 1.
  unfold annotation_pairs in Hout. rewrite Hout.
  unfold mbind, result_bind.
  eexists. split; [reflexivity|]. cbn [id sleep_stages].
  split; [reflexivity|]. split.
  - rewrite Hlen', repeat_length. lia.
  - intros i Hi. unfold epoch_stage.
    rewrite <- (Z2Nat.id i) at 2 by lia.
    apply Hget. apply repeat_lookup. lia.
Qed.

Lemma slpdb_inputs_slp01a (previous : option Z) (st : wfdb_annotation) :
  slpdb_inputs (slpdb_frame_example previous) "slp01a" (physionet_world_example st)
    slp01a st (mk_SubjectData (Some MALE) (Some 44) (Some (Py.Finite 89))).
Proof. constructor; reflexivity. Qed.

Lemma slpdb_sleep_stages_witness :
  exists r,
    slpdb_resume collaborators_example (slpdb_frame_example None)
      ["slp01a"; "slp01b"]%string (physionet_world_example slp01a_st)
    = (Yielded r, Suspended (mk_slpdb_frame "/data/slpdb" (Some 4)) ["slp01b"%string],
       physionet_world_example slp01a_st) /\
    id r = "slp01a"%string /\
    Z.of_nat (length (sleep_stages r)) = 4 /\
    forall i, 0 <= i < 4 ->
      sleep_stages r !! Z.to_nat i
      = Some (epoch_stage 250 (annotation_pairs slp01a_st) i).
Proof.
  apply (slpdb_sleep_stages collaborators_example (slpdb_frame_example None)
           "slp01a" ["slp01b"%string] (physionet_world_example slp01a_st)
           slp01a slp01a_st (mk_SubjectData (Some MALE) (Some 44) (Some (Py.Finite 89)))
           [(1, "W"%string); (7500, "1"%string); (22500, "2 H"%string)]
           [(30000, "MT"%string)] 23000 "3"
           (slpdb_inputs_slp01a None slp01a_st)).
  - reflexivity.
  - reflexivity.
  - repeat constructor; discriminate.
  - reflexivity.
  - vm_compute. eexists; reflexivity.
  - constructor; [vm_compute; reflexivity | constructor].
  - lia.
  - repeat constructor; cbn; lia.
Defined.

(** ** Annotations that make a turn fail *)

Lemma In_Exists {A} (P : A -> Prop) (l : list A) (x : A) :
  In x l -> P x -> Exists P l.
Proof.
  intros Hin HP. induction l as [|y l IH]; [inversion Hin|].
  destruct Hin as [->|Hin]; [now apply Exists_cons_hd | now apply Exists_cons_tl, IH].
Qed.

Lemma In_combine_note {A} (l1 : list A) (l2 : list string) (note : string) :
  length l1 = length l2 -> In note l2 -> exists x, In (x, note) (combine l1 l2).
Proof.
  revert l1. induction l2 as [|y l2 IH]; intros [|x l1] Hlen Hin;
    try discriminate; [inversion Hin|].
  destruct Hin as [->|Hin].
  - exists x. now left.
  - destruct (IH l1 ltac:(now injection Hlen) Hin) as [x' Hx'].
    exists x'. now right.
Qed.

Lemma Forall_In {A} (P : A -> Prop) (l : list A) (x : A) :
  Forall P l -> In x l -> P x.
Proof.
  induction 1 as [|y l Hy _ IH]; intros Hin; [inversion Hin|].
  destruct Hin as [->|Hin]; auto.
Qed.

(** X18. Annotations that make a turn of [read_slpdb] fail with
    [IndexError].  For a positive sampling frequency and stage annotations
    at non-negative samples, the turn fails when an annotation has an
    empty note ([annotation[0]]), and it fails when a stage annotation
    falls into a later window than the last stage annotation of the file:
    the array has as many stages as the window of the last one asks for,
    and the earlier annotation is written past its end. *)
Theorem slpdb_index_errors (c : collaborators) (frame : slpdb_frame)
    (record_id : string) (rest : list string) (w : physionet_world)
    (record : wfdb_record) (annot : wfdb_annotation) (subject : SubjectData) :
  slpdb_inputs frame record_id w record annot subject ->
  0 < fs record ->
  length (sample annot) = length (aux_note annot) ->
  Forall (fun p : Z * string => is_Some (stage_of p.2) -> 0 <= p.1)
    (annotation_pairs annot) ->
  (In EmptyString (aux_note annot) \/
   exists before s note after s' note',
     annotation_pairs annot = before ++ (s, note) :: after /\
     is_Some (stage_of note) /\
     Forall (fun p : Z * string => stage_of p.2 = None) after /\
     In (s', note') before /\ is_Some (stage_of note') /\
     epoch_of (fs record) s < epoch_of (fs record) s') ->
  slpdb_resume c frame (record_id :: rest) w = (Failed IndexError, Finished, w).
Proof.
  intros Hin Hfs Hlen Hpos Hcase.
  cbn [slpdb_resume].
  rewrite (slpdb_body_stages c frame record_id w record annot subject Hin).
  assert (Hstages : slpdb_stages (fs record) annot (sl_number_of_sleep_stages frame)
                    = Raise IndexError); [|now rewrite Hstages].
  unfold slpdb_stages. rewrite (combine_rev_same _ _ Hlen).
  fold (annotation_pairs annot).
  (* once the number of stages is bound from a stage annotation at [s] *)
  assert (Hsecond : forall s,
            0 <= s ->
            Exists (fun p : Z * string =>
                      p.2 = EmptyString \/
                      (is_Some (stage_of p.2) /\
                       epoch_of (fs record) s + 1 <= epoch_of (fs record) p.1))
              (annotation_pairs annot) ->
            (n ← of_option (Some (epoch_of (fs record) s + 1))
                   (UnboundLocalError "number_of_sleep_stages");
             sleep_stages ← np_full n UNDEFINED;
             sleep_stages ← assign_stages (fs record) (annotation_pairs annot)
                              sleep_stages;
             Ok (sleep_stages, Some (epoch_of (fs record) s + 1)))
            = Raise IndexError).
  { intros s Hs Hex. pose proof (epoch_of_nonneg (fs record) s Hfs Hs) as Hn.
    cbn [of_option]. unfold mbind at 1, result_bind at 1. unfold np_full.
    destruct (Z.ltb_spec (epoch_of (fs record) s + 1) 0); [lia|].
    unfold mbind at 1, result_bind at 1.
    rewrite assign_stages_index_error; [reflexivity|].
    rewrite repeat_length, Z2Nat.id by lia.
    eapply Exists_impl; [exact Hex|].
    intros p [Hp|[Hp1 Hp2]]; [now left | right; split; [exact Hp1 | now right]]. }
  destruct Hcase as [Hempty|(before & s & note & after & s' & note' &
                             Hpairs & Hnote & Hafter & Hin' & Hnote' & Hlt)].
  - destruct (In_combine_note (sample annot) (aux_note annot) EmptyString Hlen Hempty)
      as [x Hx]. fold (annotation_pairs annot) in Hx.
    destruct (last_stage_cases (fs record) (rev (annotation_pairs annot))
                (sl_number_of_sleep_stages frame))
      as [->|[(s & note & Hs & Hst & ->)|[Hall _]]].
    + reflexivity.
    + unfold mbind at 1, result_bind at 1. apply Hsecond.
      * apply in_rev in Hs. exact (Forall_In _ _ _ Hpos Hs Hst).
      * apply (In_Exists _ _ (x, EmptyString)); [exact Hx | now left].
    + exfalso. apply in_rev in Hx.
      now destruct (Forall_In _ _ _ Hall Hx) as [Hne _].
  - rewrite Hpairs, rev_app_distr. cbn [rev]. rewrite <- app_assoc. cbn [app].
    destruct (last_stage_first (fs record) (rev after) (rev before) s note
                (sl_number_of_sleep_stages frame)) as [->|[_ ->]];
      [now apply Forall_rev | exact Hnote | reflexivity |].
    unfold mbind at 1, result_bind at 1. rewrite <- Hpairs. apply Hsecond.
    + apply (Forall_In _ _ (s, note) Hpos); [|exact Hnote].
      rewrite Hpairs. apply in_or_app. right. now left.
    + apply (In_Exists _ _ (s', note')).
      * rewrite Hpairs. apply in_or_app. now left.
      * right. cbn [fst snd]. split; [exact Hnote' | lia].
Qed.

Lemma slpdb_index_errors_witness :
  slpdb_resume collaborators_example (slpdb_frame_example None) ["slp01a"%string]
    (physionet_world_example out_of_order_st)
  = (Failed IndexError, Finished, physionet_world_example out_of_order_st).
Proof.
  apply (slpdb_index_errors collaborators_example (slpdb_frame_example None)
           "slp01a" [] (physionet_world_example out_of_order_st)
           slp01a out_of_order_st
           (mk_SubjectData (Some MALE) (Some 44) (Some (Py.Finite 89)))
           (slpdb_inputs_slp01a None out_of_order_st)).
  - reflexivity.
  - reflexivity.
  - repeat constructor; cbn; lia.
  - right.
    exists [(1, "W"%string); (22500, "2"%string)], 7500, "1"%string, [],
           22500, "2"%string.
    split; [reflexivity|]. split; [vm_compute; eexists; reflexivity|].
    split; [constructor|]. split; [right; now left|].
    split; [vm_compute; eexists; reflexivity | reflexivity].
Defined.

(** ** The number of stages across the turns *)

Lemma assign_stages_skip (fs : Z) (pairs : list (Z * string)) (a : list SleepStage) :
  Forall (fun p : Z * string => p.2 <> EmptyString /\ stage_of p.2 = None) pairs ->
  assign_stages fs pairs a = Ok a.
Proof.
  induction 1 as [|[s note] pairs [Hne Hst] _ IH]; [reflexivity|].
  cbn [assign_stages]. cbn [snd] in *.
  destruct (note_key note Hne) as (key & -> & Hkey).
  unfold mbind, result_bind. rewrite Hkey, Hst. exact IH.
Qed.

Lemma slpdb_body_number (c : collaborators) (frame frame' : slpdb_frame)
    (record_id : string) (w : physionet_world) (r : SleepRecord) :
  slpdb_body c frame record_id w = Ok (r, frame') ->
  frame' = mk_slpdb_frame (sl_db_dir frame)
             (Some (Z.of_nat (length (sleep_stages r)))).
Proof.
  unfold slpdb_body, mbind, result_bind. intros H.
  destruct (rdrecord _ w) as [record|]; [|discriminate].
  destruct (ecg_channel record) as [ecg|]; [|discriminate].
  destruct (rdann _ _ w) as [annot|]; [|discriminate].
  destruct (last_stage_epochs _ _ _) as [[n|]|]; try discriminate.
  cbn [of_option] in H. unfold np_full in H.
  destruct (Z.ltb_spec n 0); [discriminate|].
  destruct (assign_stages _ _ _) as [stages|] eqn:Ha; [|discriminate].
  destruct (Py.index (comments record) 0) as [comment|]; [|discriminate].
  destruct (slpdb_subject_data comment) as [subject|]; [|discriminate].
  injection H as <- <-. cbn [sleep_stages].
  apply assign_stages_length in Ha. rewrite Ha, repeat_length, Z2Nat.id by lia.
  reflexivity.
Qed.

(** X19. [number_of_sleep_stages] outlives the turn of the loop that
    bound it.  It is unbound when the loop starts; a turn that yields a
    record leaves it at the number of stages of that record; and a turn for
    a record without any stage annotation (every annotation has a note,
    none starts with a key of the table) does not bind it: on the first
    turn it fails with [UnboundLocalError], and later it yields a record
    with as many stages as the record before, all of them [UNDEFINED]. *)
Theorem slpdb_stage_count_leaks (c : collaborators) :
  (forall p args w frame ids w',
     slpdb_prelude c p args w = (Ok (frame, ids), w') ->
     sl_number_of_sleep_stages frame = None) /\
  (forall frame ids w r g w',
     slpdb_resume c frame ids w = (Yielded r, g, w') ->
     exists record_id rest,
       ids = record_id :: rest /\ w' = w /\
       g = Suspended
             (mk_slpdb_frame (sl_db_dir frame)
                (Some (Z.of_nat (length (sleep_stages r))))) rest) /\
  (forall frame record_id rest w record annot subject,
     slpdb_inputs frame record_id w record annot subject ->
     Forall (fun note => note <> EmptyString /\ stage_of note = None)
       (aux_note annot) ->
     match sl_number_of_sleep_stages frame with
     | None =>
         slpdb_resume c frame (record_id :: rest) w
         = (Failed (UnboundLocalError "number_of_sleep_stages"), Finished, w)
     | Some n =>
         0 <= n ->
         exists r,
           slpdb_resume c frame (record_id :: rest) w
           = (Yielded r, Suspended frame rest, w) /\
           sleep_stages r = repeat UNDEFINED (Z.to_nat n)
     end).
Proof.
  split; [|split].
  - intros p args w frame ids w'. unfold slpdb_prelude, pm_bind.
    destruct (_list_physionet p _ _ _ w) as [[requested|] w1]; [|discriminate].
    destruct (negb (sa_offline args)).
    + destruct (download_physionet p _ _ _ _ w1) as [[[]|] w2]; [|discriminate].
      intros H. now injection H as <- _ _.
    + intros H. now injection H as <- _ _.
  - intros frame [|record_id rest] w r g w'; cbn [slpdb_resume]; [discriminate|].
    destruct (slpdb_body c frame record_id w) as [[r' frame']|] eqn:E; [|discriminate].
    intros H. injection H as <- <- <-.
    exists record_id, rest. repeat split.
    now rewrite (slpdb_body_number c frame frame' record_id w r' E).
  - intros frame record_id rest w record annot subject Hin Hnotes.
    cbn [slpdb_resume].
    rewrite (slpdb_body_stages c frame record_id w record annot subject Hin).
    unfold slpdb_stages.
    rewrite last_stage_skip
      by (apply (combine_notes (fun note => note <> EmptyString /\ stage_of note = None)),
            Forall_rev, Hnotes).
    unfold mbind at 1, result_bind at 1.
    destruct frame as [db_dir [n|]]; cbn [sl_number_of_sleep_stages of_option];
      [|reflexivity].
    intros Hn. unfold mbind at 1, result_bind at 1. unfold np_full.
    destruct (Z.ltb_spec n 0); [lia|].
    unfold mbind at 1, result_bind at 1.
    rewrite assign_stages_skip
      by (apply (combine_notes (fun note => note <> EmptyString /\ stage_of note = None)),
            Hnotes).
    unfold mbind, result_bind. eexists. split; reflexivity.
Qed.

Lemma slpdb_inputs_slp01b (previous : option Z) :
  slpdb_inputs (slpdb_frame_example previous) "slp01b"
    (physionet_world_example slp01a_st) slp01b slp01b_st
    (mk_SubjectData (Some MALE) None None).
Proof. constructor; reflexivity. Qed.

Lemma slpdb_stage_count_leaks_witness :
  slpdb_resume collaborators_example (slpdb_frame_example None) ["slp01b"%string]
    (physionet_world_example slp01a_st)
  = (Failed (UnboundLocalError "number_of_sleep_stages"), Finished,
     physionet_world_example slp01a_st) /\
  exists r,
    slpdb_resume collaborators_example (slpdb_frame_example (Some 4))
      ["slp01b"%string] (physionet_world_example slp01a_st)
    = (Yielded r, Suspended (slpdb_frame_example (Some 4)) [],
       physionet_world_example slp01a_st) /\
    sleep_stages r = [UNDEFINED; UNDEFINED; UNDEFINED; UNDEFINED].
Proof.
  assert (Hnotes : Forall (fun note => note <> EmptyString /\ stage_of note = None)
                     (aux_note slp01b_st))
    by (constructor; [split; [discriminate | reflexivity] | constructor]).
  split.
  - exact (proj2 (proj2 (slpdb_stage_count_leaks collaborators_example))
             (slpdb_frame_example None) "slp01b" [] (physionet_world_example slp01a_st)
             slp01b slp01b_st (mk_SubjectData (Some MALE) None None)
             (slpdb_inputs_slp01b None) Hnotes).
  - apply (proj2 (proj2 (slpdb_stage_count_leaks collaborators_example))
             (slpdb_frame_example (Some 4)) "slp01b" []
             (physionet_world_example slp01a_st)
             slp01b slp01b_st (mk_SubjectData (Some MALE) None None)
             (slpdb_inputs_slp01b (Some 4)) Hnotes).
    lia.
Defined.

(** ** The fields of a record *)

(** X24. What a record of [read_slpdb] carries.  A turn that yields
    visits the first of the ids left and leaves the directory alone; the
    record has the id it was asked for, epochs of 30 seconds, the base time
    of the header as its start time, no activity counts and, whatever the
    gender field of the header says, the gender [MALE]; its heartbeat times
    are the indices that the detector reports for the "ECG" signal, each
    divided by the sampling frequency. *)
Theorem slpdb_record_fields (c : collaborators) (frame : slpdb_frame)
    (ids : list string) (w w' : physionet_world) (r : SleepRecord)
    (g : generator slpdb_args slpdb_frame) :
  slpdb_resume c frame ids w = (Yielded r, g, w') ->
  exists record_id rest record ecg,
    ids = record_id :: rest /\ w' = w /\
    rdrecord (path_join (sl_db_dir frame) record_id) w = Ok record /\
    ecg_channel record = Ok ecg /\
    id r = record_id /\
    sleep_stage_duration r = 30 /\
    recording_start_time r = base_time record /\
    heartbeat_times r
    = np.divide_indices
        (detect_heartbeats c ecg (Py.Finite (inject_Z (fs record))))
        (Py.Finite (inject_Z (fs record))) /\
    gender (subject_data r) = Some MALE /\
    activity_counts r = None.
Proof.
  destruct ids as [|record_id rest]; cbn [slpdb_resume]; [discriminate|].
  destruct (slpdb_body c frame record_id w) as [[r' frame']|] eqn:E; [|discriminate].
  intros H. injection H as <- <- <-.
  unfold slpdb_body, mbind, result_bind in E.
  destruct (rdrecord _ w) as [record|] eqn:Hrecord; [|discriminate].
  destruct (ecg_channel record) as [ecg|] eqn:Hecg; [|discriminate].
  destruct (rdann _ _ w) as [annot|]; [|discriminate].
  destruct (last_stage_epochs _ _ _) as [number|]; [|discriminate].
  destruct (of_option number _) as [n|]; [|discriminate].
  destruct (np_full n UNDEFINED) as [a|]; [|discriminate].
  destruct (assign_stages _ _ a) as [stages|]; [|discriminate].
  destruct (Py.index (comments record) 0) as [comment|]; [|discriminate].
  destruct (slpdb_subject_data comment) as [subject|] eqn:Hsubject; [|discriminate].
  injection E as <- <-.
  exists record_id, rest, record, ecg. cbn.
  repeat split; try reflexivity; try assumption.
  unfold slpdb_subject_data in Hsubject.
  destruct (Py.split comment) as [|? [|? [|? [|? [|]]]]]; try discriminate.
  unfold mbind, result_bind in Hsubject.
  repeat match type of Hsubject with
         | match ?x with _ => _ end = _ => destruct x; try discriminate
         end.
  now injection Hsubject as <-.
Qed.

Lemma slpdb_record_fields_witness :
  exists record_id rest record ecg,
    ["slp01a"; "slp01b"]%string = record_id :: rest /\
    physionet_world_example slp01a_st = physionet_world_example slp01a_st /\
    rdrecord (path_join (sl_db_dir (slpdb_frame_example None)) record_id)
      (physionet_world_example slp01a_st) = Ok record /\
    ecg_channel record = Ok ecg /\
    id record_slp01a = record_id /\
    sleep_stage_duration record_slp01a = 30 /\
    recording_start_time record_slp01a = base_time record /\
    heartbeat_times record_slp01a
    = np.divide_indices
        (detect_heartbeats collaborators_example ecg
           (Py.Finite (inject_Z (fs record))))
        (Py.Finite (inject_Z (fs record))) /\
    gender (subject_data record_slp01a) = Some MALE /\
    activity_counts record_slp01a = None.
Proof.
  apply (slpdb_record_fields collaborators_example (slpdb_frame_example None)
           ["slp01a"; "slp01b"]%string (physionet_world_example slp01a_st)
           (physionet_world_example slp01a_st) record_slp01a
           (Suspended (mk_slpdb_frame "/data/slpdb" (Some 4)) ["slp01b"%string])).
  vm_compute. reflexivity.
Defined.

(* ===================================================================== *)
(** * Record ids and listings *)
(* ===================================================================== *)

(** ** The record ids of [read_shhs] *)

Lemma length_list_ascii (s : string) :
  length (list_ascii_of_string s) = String.length s.
Proof. induction s as [|ch s IH]; cbn; [reflexivity | now rewrite IH]. Qed.

Lemma length_string_of_list (l : list ascii) :
  String.length (string_of_list_ascii l) = length l.
Proof. induction l as [|ch l IH]; cbn; [reflexivity | now rewrite IH]. Qed.

(** X20. [read_shhs] takes the id of a record from the path of its
    annotation file by position, [file[-27:-9]].  For an id of 18
    characters, as in "shhs1/shhs1-200001", this is the inverse of the way
    the loop builds the name of the annotation file from the id, so that
    the file found is the file parsed; and whatever the file name, the id
    taken from a path of at least 27 characters has 18 characters. *)
Theorem shhs_record_id_of_path (dir record_id : string) :
  (String.length record_id = 18%nat ->
   str_slice (Some (-27)) (Some (-9)) (dir +:+ record_id +:+ "-nsrr.xml")
   = record_id /\
   forall db_dir,
     dir = db_dir +:+ "/" +:+ SHHS.ANNOTATION_DIRNAME +:+ "/" ->
     path_join db_dir
       (shhs_xml_filename
          (str_slice (Some (-27)) (Some (-9)) (dir +:+ record_id +:+ "-nsrr.xml")))
     = dir +:+ record_id +:+ "-nsrr.xml") /\
  (forall path,
     (27 <= String.length path)%nat ->
     String.length (str_slice (Some (-27)) (Some (-9)) path) = 18%nat).
Proof.
  split.
  - intros Hlen.
    assert (Hslice : str_slice (Some (-27)) (Some (-9))
                       (dir +:+ record_id +:+ "-nsrr.xml") = record_id).
    { unfold str_slice, Py.slice, Py.clamp_index. cbn [default from_option].
      unfold Datatypes.id.
      rewrite !list_ascii_string_app, !length_app, !length_list_ascii, Hlen.
      change (String.length "-nsrr.xml") with 9%nat.
      change (-27 <? 0) with true. change (-9 <? 0) with true. cbv iota.
      replace (Z.to_nat (Z.max 0 (Z.of_nat (String.length dir + (18 + 9)) + -9)
                         - Z.max 0 (Z.of_nat (String.length dir + (18 + 9)) + -27)))
        with (length (list_ascii_of_string record_id))
        by (rewrite length_list_ascii, Hlen; lia).
      rewrite drop_app_length'
        by (rewrite length_list_ascii; lia).
      rewrite take_app_length. apply string_of_list_ascii_of_string. }
    split; [exact Hslice|].
    intros db_dir ->. rewrite Hslice.
    unfold path_join, shhs_xml_filename. now rewrite !append_assoc.
  - intros path Hlen.
    unfold str_slice, Py.slice, Py.clamp_index. cbn [default from_option].
    unfold Datatypes.id.
    change (-27 <? 0) with true. change (-9 <? 0) with true. cbv iota.
    rewrite length_string_of_list, length_take, length_drop, !length_list_ascii.
    lia.
Qed.

Lemma shhs_record_id_of_path_witness :
  str_slice (Some (-27)) (Some (-9))
    ("/data/shhs/polysomnography/annotations-events-nsrr/"
     +:+ "shhs1/shhs1-200001" +:+ "-nsrr.xml")
  = "shhs1/shhs1-200001"%string /\
  String.length
    (str_slice (Some (-27)) (Some (-9))
       "/data/shhs/polysomnography/annotations-events-nsrr/shhs1/shhs1-20001-nsrr.xml")
  = 18%nat.
Proof.
  split.
  - apply (proj1 (shhs_record_id_of_path
                    "/data/shhs/polysomnography/annotations-events-nsrr/"
                    "shhs1/shhs1-200001")).
    reflexivity.
  - apply (proj2 (shhs_record_id_of_path "" "")). cbn. lia.
Defined.

(** ** Files that the server does not list *)

(** X21. Online, the mode ['ecg'] fetches the recording of every record,
    and it looks its checksum up with [checksums[edf_filename]] before
    anything else: a record whose recording the server does not list makes
    the turn fail with [KeyError], even when the recording is there
    locally, and the directory is left as it was. *)
Theorem unlisted_recording_fails (c : collaborators) (record_id : string)
    (rest : list string) (w : world) :
  (forall L : mesa_frame,
     heartbeats_source (m_args L) = "ecg"%string ->
     offline (m_args L) = false ->
     m_checksums L !! (MESA.EDF_DIRNAME +:+ "/" +:+ record_id +:+ ".edf") = None ->
     mesa_resume c L (record_id :: rest) w
     = (Failed (KeyError (MESA.EDF_DIRNAME +:+ "/" +:+ record_id +:+ ".edf")),
        Finished, w)) /\
  (forall L : shhs_frame,
     heartbeats_source (s_args L) = "ecg"%string ->
     offline (s_args L) = false ->
     s_checksums L !! (SHHS.EDF_DIRNAME +:+ "/" +:+ record_id +:+ ".edf") = None ->
     shhs_resume c L (record_id :: rest) w
     = (Failed (KeyError (SHHS.EDF_DIRNAME +:+ "/" +:+ record_id +:+ ".edf")),
        Finished, w)).
Proof.
  split.
  - intros L Hsrc Hoff Hkey.
    apply resume_Raised. rewrite mesa_body_phases.
    apply bind_Raised. unfold mesa_heartbeats. rewrite Hsrc, Hoff.
    change (String.eqb "ecg" "annotation") with false.
    change (String.eqb "ecg" "cached") with false.
    rewrite String.eqb_refl. cbv iota. cbn [negb when].
    unfold bind at 1, is_file. unfold bind at 1.
    unfold download_listed, bind at 1, getitem. rewrite Hkey. reflexivity.
  - intros L Hsrc Hoff Hkey.
    apply resume_Raised. rewrite shhs_body_phases.
    apply bind_Raised. unfold shhs_heartbeats. rewrite Hsrc, Hoff.
    change (String.eqb "ecg" "annotation") with false.
    change (String.eqb "ecg" "cached") with false.
    rewrite String.eqb_refl. cbv iota. cbn [negb when].
    unfold bind at 1, is_file. unfold bind at 1.
    unfold download_listed, bind at 1, getitem. rewrite Hkey. reflexivity.
Qed.

Lemma unlisted_recording_fails_witness :
  let L := mk_shhs_frame (online_args false) "/data/shhs"
             "https://sleepdata.org/datasets/shhs/files/" ∅
             (s_subject_data (shhs_frame_example "ecg")) in
  shhs_resume collaborators_online L ["shhs1/shhs1-200001"%string] shhs_world_example
  = (Failed (KeyError "polysomnography/edfs/shhs1/shhs1-200001.edf"), Finished,
     shhs_world_example).
Proof.
  intros L.
  apply (proj2 (unlisted_recording_fails collaborators_online "shhs1/shhs1-200001" []
                  shhs_world_example) L); reflexivity.
Defined.

(** ** The order of the records offline *)

Lemma compare_not_Gt_trans (a b d : string) :
  String.compare a b <> Gt -> String.compare b d <> Gt -> String.compare a d <> Gt.
Proof.
  revert b d. induction a as [|x a IH]; intros [|y b] [|z d]; cbn; try congruence.
  unfold Ascii.compare.
  destruct (N.compare_spec (N_of_ascii x) (N_of_ascii y)) as [Hxy|Hxy|Hxy];
    destruct (N.compare_spec (N_of_ascii y) (N_of_ascii z)) as [Hyz|Hyz|Hyz];
    try congruence;
    destruct (N.compare_spec (N_of_ascii x) (N_of_ascii z)) as [Hxz|Hxz|Hxz];
    try congruence; try lia.
  apply IH.
Qed.

Lemma str_le_trans (x y z : string) : str_le x y -> str_le y z -> str_le x z.
Proof.
  unfold str_le, String.leb. intros Hxy Hyz.
  pose proof (compare_not_Gt_trans x y z) as H.
  destruct (String.compare x y), (String.compare y z), (String.compare x z);
    try discriminate; try reflexivity; exfalso; apply H; congruence.
Qed.

Lemma insert_str_Forall (P : string -> Prop) (x : string) (l : list string) :
  P x -> Forall P l -> Forall P (insert_str x l).
Proof.
  intros Hx. induction 1 as [|y l Hy Hl IH]; cbn [insert_str].
  - now constructor.
  - destruct (String.leb x y); repeat constructor; assumption.
Qed.

Lemma insert_str_ascending (x : string) (l : list string) :
  ascending l -> ascending (insert_str x l).
Proof.
  unfold ascending. induction 1 as [|y l Hs IH Hall]; cbn [insert_str].
  - repeat constructor.
  - destruct (String.leb x y) eqn:E.
    + constructor; [now constructor|].
      constructor; [exact E|].
      eapply Forall_impl; [exact Hall|]. intros z Hz.
      now apply str_le_trans with y.
    + constructor; [exact IH|].
      apply insert_str_Forall; [|exact Hall].
      destruct (String.leb_total x y) as [H|H]; [congruence | exact H].
Qed.

Lemma sorted_str_ascending (l : list string) : ascending (sorted_str l).
Proof.
  induction l as [|x l IH]; cbn [sorted_str fold_right].
  - constructor.
  - now apply insert_str_ascending.
Qed.

Lemma mesa_prelude_offline_ids (c : collaborators) (a : reader_args)
    (activity_source : option string) (w w' : world) (L : mesa_frame)
    (ids : list string) :
  offline a = true ->
  mesa_prelude c (a, activity_source) w = (Normal (L, ids), w') ->
  ascending ids.
Proof.
  intros Hoff H. unfold mesa_prelude in H. rewrite Hoff in H. cbn [negb] in H.
  bind_inv H. apply ret_inv in H as [H _]. injection H as _ <-.
  unfold mesa_offline in E1. bind_inv E1.
  destruct (decide (activity_source = Some "actigraphy"%string)).
  - bind_inv E1. apply ret_inv in E1 as [<- _]. apply sorted_str_ascending.
  - apply ret_inv in E1 as [<- _]. apply sorted_str_ascending.
Qed.

Lemma StronglySorted_suffix {A} (R : A -> A -> Prop) (l1 l2 : list A) :
  StronglySorted R (l1 ++ l2) -> StronglySorted R l2.
Proof.
  induction l1 as [|x l1 IH]; cbn [app]; [auto|].
  intros H. inversion H; subst. auto.
Qed.

Section Loop_order.

Context {A F : Type}.
Variable prelude : A -> M (F * list string).
Variable body : F -> string -> M SleepRecord.
Variable R : string -> string -> Prop.
Hypothesis body_id :
  forall frame record_id w w' record,
    body frame record_id w = (Normal record, w') -> id record = record_id.

Lemma resume_Yielded_split (frame : F) (ids : list string) (w w' : world)
    (record : SleepRecord) (g : generator A F) :
  resume body frame ids w = (Yielded record, g, w') ->
  exists skipped rest,
    ids = skipped ++ id record :: rest /\ g = Suspended frame rest.
Proof.
  revert w. induction ids as [|record_id ids IH]; intros w H; [discriminate|].
  cbn [resume] in H.
  destruct (body frame record_id w) as [[r| |] w1] eqn:E.
  - injection H as <- <- <-. exists [], ids.
    now rewrite (body_id _ _ _ _ _ E).
  - discriminate.
  - destruct (IH _ H) as (skipped & rest & -> & ->).
    now exists (record_id :: skipped), rest.
Qed.

Lemma drain_order (fuel : nat) (frame : F) (ids : list string) (w : world) :
  StronglySorted R ids ->
  StronglySorted R (map id (drain prelude body fuel (Suspended frame ids) w).1.1) /\
  Forall (fun record => In (id record) ids)
    (drain prelude body fuel (Suspended frame ids) w).1.1.
Proof.
  revert ids w. induction fuel as [|fuel IH]; intros ids w Hs.
  - cbn. split; constructor.
  - cbn [drain next].
    destruct (resume body frame ids w) as [[[r| |e] g] w1] eqn:E;
      [|cbn; split; constructor|cbn; split; constructor].
    destruct (resume_Yielded_split _ _ _ _ _ _ E) as (skipped & rest & -> & ->).
    apply StronglySorted_suffix in Hs.
    inversion Hs as [|? ? Hrest Hall]; subst.
    destruct (IH rest w1 Hrest) as [IH1 IH2].
    destruct (drain prelude body fuel (Suspended frame rest) w1) as [[rs e] w2].
    cbn [fst map] in *. split.
    + constructor; [exact IH1|].
      clear -IH2 Hall. induction IH2 as [|r' rs Hr' _ IH]; cbn [map]; constructor.
      * exact (Forall_In _ _ _ Hall Hr').
      * exact IH.
    + constructor.
      * apply in_or_app. right. now left.
      * eapply Forall_impl; [exact IH2|]. intros r' Hr'. cbn beta in Hr'.
        apply in_or_app. right. now right.
Qed.

End Loop_order.

(** X22. Offline, [read_mesa] visits the records in the ascending order
    of their ids, as [sorted] leaves them: the ids that the statements
    before the loop hand to it ascend, and so do the ids of the records
    that an iteration yields, one after the other. *)
Theorem mesa_offline_order (c : collaborators) (a : reader_args)
    (activity_source : option string) (w : world) :
  offline a = true ->
  (forall L ids w',
     mesa_prelude c (a, activity_source) w = (Normal (L, ids), w') ->
     ascending ids) /\
  (forall fuel,
     ascending
       (map id
          (drain (mesa_prelude c) (mesa_body c) fuel
             (Created (a, activity_source)) w).1.1)).
Proof.
  intros Hoff. split.
  - intros L ids w'. now apply mesa_prelude_offline_ids.
  - intros [|fuel]; [constructor|].
    cbn [drain next].
    destruct (mesa_prelude c (a, activity_source) w) as [[[L ids]|e|] w0] eqn:Ep;
      [|constructor|constructor].
    pose proof (mesa_prelude_offline_ids c a activity_source w w0 L ids Hoff Ep) as Hs.
    pose proof (proj1 (drain_order (mesa_prelude c) (mesa_body c) str_le
                         (mesa_body_id c) (S fuel) L ids w0 Hs)) as H.
    cbn [drain next] in H. exact H.
Qed.

Lemma mesa_offline_order_witness :
  ascending (map id [record_0002]).
Proof.
  assert (E : (drain (mesa_prelude collaborators_example)
                 (mesa_body collaborators_example) 3
                 (Created (offline_args "annotation", None))
                 mesa_world_missing_rpoints).1.1 = [record_0002])
    by (vm_compute; reflexivity).
  rewrite <- E.
  apply (proj2 (mesa_offline_order collaborators_example (offline_args "annotation")
                  None mesa_world_missing_rpoints eq_refl)).
Defined.

(** ** Blank activity counts *)

Lemma map_result_lookup {A B} (f : A -> result B) (l : list A) (l' : list B) :
  map_result f l = Ok l' ->
  forall (i : nat) x, l !! i = Some x -> exists y, l' !! i = Some y /\ f x = Ok y.
Proof.
  revert l'. induction l as [|a l IH]; intros l' H i x Hi; [discriminate|].
  cbn [map_result] in H. unfold mbind, result_bind in H.
  destruct (f a) as [b|] eqn:Hb; [|discriminate].
  destruct (map_result f l) as [bs|]; [|discriminate].
  injection H as <-. destruct i as [|i]; cbn in Hi |- *.
  - injection Hi as <-. now exists b.
  - now apply IH.
Qed.

(** X23. The conversion of the activity counts to floats keeps their
    number and their order, reads a blank cell as 0.0 and every other cell
    with [float]; a cell that is neither blank nor a number makes it raise
    [ValueError]. *)
Theorem blank_counts_are_zero (activity_counts : list string) :
  (forall floats,
     counts_to_float activity_counts = Ok floats ->
     length floats = length activity_counts /\
     forall (i : nat) cell,
       activity_counts !! i = Some cell ->
       (cell = EmptyString -> floats !! i = Some (Py.Finite 0)) /\
       (cell <> EmptyString ->
        exists x, floats !! i = Some x /\ Py.float cell = Ok x)) /\
  (forall cell,
     In cell activity_counts -> cell <> EmptyString -> is_error (Py.float cell) ->
     is_error (counts_to_float activity_counts)).
Proof.
  split.
  - intros floats H. split; [exact (counts_to_float_length _ _ H)|].
    intros i cell Hi. unfold counts_to_float in H.
    destruct (map_result_lookup _ _ _ H i (if String.eqb cell "" then "0"%string else cell))
      as (x & Hx & Hf).
    { rewrite list_lookup_fmap, Hi. reflexivity. }
    split.
    + intros ->. rewrite Hx. change (Py.float "0" = Ok x) in Hf.
      vm_compute in Hf. now injection Hf as <-.
    + intros Hne. exists x. split; [exact Hx|].
      destruct (String.eqb_spec cell ""); [contradiction | exact Hf].
  - intros cell Hin Hne [e He]. unfold counts_to_float.
    induction activity_counts as [|a l IH]; [inversion Hin|].
    cbn [map map_result]. unfold mbind, result_bind.
    destruct Hin as [->|Hin].
    + destruct (String.eqb_spec cell ""); [contradiction|].
      rewrite He. eexists; reflexivity.
    + destruct (Py.float (if String.eqb a "" then "0"%string else a)) as [y|e0];
        [|eexists; reflexivity].
      destruct (IH Hin) as [e' He']. unfold mbind, result_bind in He'.
      rewrite He'. eexists; reflexivity.
Qed.

Lemma blank_counts_are_zero_witness :
  counts_to_float ["10"; ""; "2.5"]%string
  = Ok [Py.Finite 10; Py.Finite 0; Py.Finite (5 # 2)] /\
  ([Py.Finite 10; Py.Finite 0; Py.Finite (5 # 2)] : list Py.pyfloat) !! 1%nat
  = Some (Py.Finite 0) /\
  is_error (counts_to_float ["10"; "n/a"]%string).
Proof.
  assert (E : counts_to_float ["10"; ""; "2.5"]%string
              = Ok [Py.Finite 10; Py.Finite 0; Py.Finite (5 # 2)])
    by (vm_compute; reflexivity).
  split; [exact E|]. split.
  - apply (proj1 (proj2 (proj1 (blank_counts_are_zero ["10"; ""; "2.5"]%string) _ E)
                    1%nat EmptyString eq_refl) eq_refl).
  - apply (proj2 (blank_counts_are_zero ["10"; "n/a"]%string) "n/a"%string).
    + right. now left.
    + discriminate.
    + eexists. vm_compute. reflexivity.
Defined.

(** ** The record ids of [read_mesa] *)

Lemma split_on_no_sep (sep : ascii) (l cur : list ascii) :
  Forall (fun ch => Ascii.eqb ch sep = false) l ->
  Py.split_on_aux sep cur l = [string_of_list_ascii (rev cur ++ l)].
Proof.
  intros H. revert cur. induction H as [|ch l Hch _ IH]; intros cur;
    cbn [Py.split_on_aux].
  - now rewrite app_nil_r.
  - rewrite Hch, IH. cbn [rev]. now rewrite <- app_assoc.
Qed.

Lemma split_on_first (sep : ascii) (l1 l2 cur : list ascii) :
  Forall (fun ch => Ascii.eqb ch sep = false) l1 ->
  Py.split_on_aux sep cur (l1 ++ sep :: l2)
  = string_of_list_ascii (rev cur ++ l1) :: Py.split_on_aux sep [] l2.
Proof.
  intros H. revert cur. induction H as [|ch l1 Hch _ IH]; intros cur;
    cbn [app Py.split_on_aux].
  - now rewrite Ascii.eqb_refl, app_nil_r.
  - rewrite Hch, IH. cbn [rev]. now rewrite <- app_assoc.
Qed.

Lemma split_on_aux_nonempty (sep : ascii) (l cur : list ascii) :
  Py.split_on_aux sep cur l <> [].
Proof.
  revert cur. induction l as [|ch l IH]; intros cur; cbn [Py.split_on_aux];
    [discriminate|].
  destruct (Ascii.eqb ch sep); [discriminate | apply IH].
Qed.

Lemma last_cons_nonempty {A} (x d : A) (l : list A) :
  l <> [] -> List.last (x :: l) d = List.last l d.
Proof. destruct l; [congruence | reflexivity]. Qed.

Lemma split_on_last (sep : ascii) (l name cur : list ascii) :
  str_last (Py.split_on_aux sep cur (l ++ sep :: name))
  = str_last (Py.split_on_aux sep [] name).
Proof.
  unfold str_last. revert cur. induction l as [|ch l IH]; intros cur;
    cbn [app Py.split_on_aux].
  - rewrite Ascii.eqb_refl. apply last_cons_nonempty, split_on_aux_nonempty.
  - destruct (Ascii.eqb ch sep); [|apply IH].
    rewrite last_cons_nonempty by apply split_on_aux_nonempty. apply IH.
Qed.

(** [s[:-k]] takes a suffix of [k] characters off. *)
Lemma str_slice_suffix (a b : string) :
  (0 < String.length b)%nat ->
  str_slice None (Some (- Z.of_nat (String.length b))) (a +:+ b) = a.
Proof.
  intros Hb. unfold str_slice, Py.slice, Py.clamp_index.
  cbn [default from_option]. unfold Datatypes.id.
  rewrite list_ascii_string_app, length_app, !length_list_ascii.
  change (0 <? 0) with false. cbv iota.
  destruct (Z.ltb_spec (- Z.of_nat (String.length b)) 0); [|lia].
  replace (Z.to_nat _) with (length (list_ascii_of_string a))
    by (rewrite length_list_ascii; lia).
  replace (Z.to_nat (Z.min 0 _)) with 0%nat by lia.
  rewrite drop_0, take_app_length. apply string_of_list_ascii_of_string.
Qed.

(** X25. [read_mesa] takes the id of a record from the path of its
    annotation file with [Path(file).stem[:-5]].  For an id that holds
    neither a slash nor a dot this is the inverse of the way the loop
    builds the name of the annotation file from the id: the id of
    [<dir>/<id>-nsrr.xml] is [<id>], and the annotation file that the loop
    parses for it is the file found. *)
Theorem mesa_record_id_of_path (dir record_id : string) :
  Forall (fun ch => Ascii.eqb ch "/" = false /\ Ascii.eqb ch "." = false)
    (list_ascii_of_string record_id) ->
  str_slice None (Some (-5)) (Path_stem (dir +:+ "/" +:+ record_id +:+ "-nsrr.xml"))
  = record_id /\
  forall db_dir,
    dir = db_dir +:+ "/" +:+ MESA.ANNOTATION_DIRNAME ->
    path_join db_dir
      (mesa_xml_filename
         (str_slice None (Some (-5))
            (Path_stem (dir +:+ "/" +:+ record_id +:+ "-nsrr.xml"))))
    = dir +:+ "/" +:+ record_id +:+ "-nsrr.xml".
Proof.
  intros Hid.
  assert (Hname : str_last (Py.split_on "/" (dir +:+ "/" +:+ record_id +:+ "-nsrr.xml"))
                  = (record_id +:+ "-nsrr.xml")%string).
  { unfold Py.split_on. rewrite list_ascii_string_app.
    change (list_ascii_of_string ("/" +:+ record_id +:+ "-nsrr.xml"))
      with ("/"%char :: list_ascii_of_string (record_id +:+ "-nsrr.xml")).
    rewrite split_on_last, split_on_no_sep.
    - cbn [rev app str_last List.last]. apply string_of_list_ascii_of_string.
    - rewrite list_ascii_string_app. apply Forall_app. split.
      + eapply Forall_impl; [exact Hid|]. now intros ch [? _].
      + repeat constructor. }
  assert (Hstem : Path_stem (dir +:+ "/" +:+ record_id +:+ "-nsrr.xml")
                  = (record_id +:+ "-nsrr")%string).
  { unfold Path_stem. rewrite Hname. unfold Py.split_on.
    rewrite list_ascii_string_app.
    change (list_ascii_of_string "-nsrr.xml")
      with (list_ascii_of_string "-nsrr" ++ "."%char :: list_ascii_of_string "xml").
    rewrite app_assoc, split_on_first, split_on_no_sep.
    - cbn [rev app]. rewrite <- list_ascii_string_app.
      cbn [string_of_list_ascii list_ascii_of_string].
      rewrite !string_of_list_ascii_of_string.
      change (String.eqb "xml" "") with false. cbn [orb].
      replace (String.eqb (record_id +:+ "-nsrr") "") with false
        by (symmetry; apply String.eqb_neq; destruct record_id; discriminate).
      cbn [andb].
      change (- Z.of_nat (String.length "xml") - 1)
        with (- Z.of_nat (String.length ".xml")).
      replace (record_id +:+ "-nsrr.xml")%string
        with ((record_id +:+ "-nsrr") +:+ ".xml")%string
        by now rewrite append_assoc.
      apply str_slice_suffix. cbn. lia.
    - repeat constructor.
    - apply Forall_app. split.
      + eapply Forall_impl; [exact Hid|]. now intros ch [_ ?].
      + repeat constructor. }
  assert (Hslice : str_slice None (Some (-5))
                     (Path_stem (dir +:+ "/" +:+ record_id +:+ "-nsrr.xml"))
                   = record_id).
  { rewrite Hstem.
    change (-5) with (- Z.of_nat (String.length "-nsrr")).
    apply str_slice_suffix. cbn. lia. }
  split; [exact Hslice|].
  intros db_dir ->. rewrite Hslice.
  unfold path_join, mesa_xml_filename. now rewrite !append_assoc.
Qed.

Lemma mesa_record_id_of_path_witness :
  str_slice None (Some (-5))
    (Path_stem ("/data/mesa/polysomnography/annotations-events-nsrr" +:+ "/"
                +:+ "mesa-sleep-0002" +:+ "-nsrr.xml"))
  = "mesa-sleep-0002"%string.
Proof.
  assert (Hid : Forall (fun ch => Ascii.eqb ch "/" = false /\ Ascii.eqb ch "." = false)
                  (list_ascii_of_string "mesa-sleep-0002"))
    by (repeat constructor).
  exact (proj1 (mesa_record_id_of_path
                  "/data/mesa/polysomnography/annotations-events-nsrr"
                  "mesa-sleep-0002" Hid)).
Defined.
